(** * wayland-digimon: configuration loading, hot reload, signals and shutdown

    A shallow embedding of [src/config.c], [src/utils/error.c] and
    [src/core/main.c].

    Conventions of the model
    - a C [int] is a [Z]; the only place where the width matters is the
      conversion [(int)strtol(...)], written out in [int_of_long];
    - a [config_t *] out-parameter is passed in and handed back as a value;
      every call site passes the address of a local or of a global, so the
      [BONGOCAT_CHECK_NULL] guards never fire and are not modelled;
    - the file-scope statics of the three translation units, the heap blocks
      that hold the device array, the allocator's future answers and the
      file system are the fields of one record, [world];
    - everything the first part of the model does that is visible from
      outside (log lines, [unlink], [waitpid], [exit], calls into the
      renderer, animator and input monitor) is appended to [trace];
    - the PID file, the signals and [main] run in a [process]: the world,
      [errno], the answers the operating system is going to give and the
      system calls made so far. *)

From Stdlib Require Import ZArith List String Ascii Bool Lia.
Import ListNotations.

Local Open Scope string_scope.
Local Open Scope list_scope.
Local Open Scope Z_scope.

(** ** Constants that live in headers outside the available sources *)

(** [embedded_assets.h] and [core/bongocat.h] are not part of the available
    sources; their constants are parameters of the whole development.  The
    two preprocessor switches tested in [system_cleanup_and_exit] are
    parameters as well. *)
Record header_constants : Type := {
  DEFAULT_SCREEN_WIDTH : Z;
  DEFAULT_BAR_HEIGHT : Z;
  TOTAL_ANIMATIONS : Z;
  BONGOCAT_ANIM_INDEX : Z;
  DM20_AGUMON_ANIM_INDEX : Z;
  BONGOCAT_NUM_FRAMES : Z;
  MAX_NUM_FRAMES : Z;
  DISABLE_MEMORY_STATISTICS : bool;
  DEBUG : bool
}.

(** config.c, lines 9-17 *)
Definition MIN_CAT_HEIGHT : Z := 10.
Definition MAX_CAT_HEIGHT : Z := 200.
Definition MIN_OVERLAY_HEIGHT : Z := 20.
Definition MAX_OVERLAY_HEIGHT : Z := 300.
Definition MIN_FPS : Z := 1.
Definition MAX_FPS : Z := 120.
Definition MIN_DURATION : Z := 10.
Definition MAX_DURATION : Z := 5000.
Definition MAX_INTERVAL : Z := 3600.

(** [overlay_position_t] and [layer_type_t], by their enumerator values *)
Definition POSITION_TOP : Z := 0.
Definition POSITION_BOTTOM : Z := 1.
Definition LAYER_TOP : Z := 0.
Definition LAYER_OVERLAY : Z := 1.

(** main.c, line 31, and the signal numbers of <signal.h> on Linux *)
Definition PID_FILE : string := "/tmp/bongocat.pid".
Definition SIGINT : Z := 2.
Definition SIGTERM : Z := 15.
Definition SIGCHLD : Z := 17.

(** [bongocat_error_t]; the enumerators are those listed by
    [bongocat_error_string] in error.c *)
Inductive bongocat_error_t : Type :=
| BONGOCAT_SUCCESS
| BONGOCAT_ERROR_MEMORY
| BONGOCAT_ERROR_FILE_IO
| BONGOCAT_ERROR_WAYLAND
| BONGOCAT_ERROR_CONFIG
| BONGOCAT_ERROR_INPUT
| BONGOCAT_ERROR_ANIMATION
| BONGOCAT_ERROR_THREAD
| BONGOCAT_ERROR_INVALID_PARAM.

Definition is_success (e : bongocat_error_t) : bool :=
  match e with BONGOCAT_SUCCESS => true | _ => false end.

(** error.c, lines 62-75 *)
Definition bongocat_error_string (error : bongocat_error_t) : string :=
  match error with
  | BONGOCAT_SUCCESS => "Success"
  | BONGOCAT_ERROR_MEMORY => "Memory allocation error"
  | BONGOCAT_ERROR_FILE_IO => "File I/O error"
  | BONGOCAT_ERROR_WAYLAND => "Wayland error"
  | BONGOCAT_ERROR_CONFIG => "Configuration error"
  | BONGOCAT_ERROR_INPUT => "Input error"
  | BONGOCAT_ERROR_ANIMATION => "Animation error"
  | BONGOCAT_ERROR_THREAD => "Thread error"
  | BONGOCAT_ERROR_INVALID_PARAM => "Invalid parameter"
  end.

(** ** The configuration record *)

(** A [char **] is the index of a heap block holding an array of strings. *)
Definition ptr : Type := nat.

Record config_t : Type := mk_config {
  screen_width : Z;
  bar_height : Z;
  keyboard_devices : option ptr;
  num_keyboard_devices : Z;
  cat_x_offset : Z;
  cat_y_offset : Z;
  cat_height : Z;
  overlay_height : Z;
  idle_frame : Z;
  keypress_duration : Z;
  test_animation_duration : Z;
  test_animation_interval : Z;
  fps : Z;
  overlay_opacity : Z;
  enable_debug : Z;
  layer : Z;
  overlay_position : Z;
  animation_index : Z;
  invert_color : Z;
  crop_sprite : Z;
  padding_x : Z;
  padding_y : Z
}.

Definition set_bar_height (v : Z) (c : config_t) : config_t :=
  let 'mk_config a1 a2 a3 a4 a5 a6 a7 a8 a9 a10 a11 a12 a13 a14 a15 a16 a17 a18 a19 a20 a21 a22 := c in
  mk_config a1 v a3 a4 a5 a6 a7 a8 a9 a10 a11 a12 a13 a14 a15 a16 a17 a18 a19 a20 a21 a22.
Definition set_keyboard_devices (v : option ptr) (c : config_t) : config_t :=
  let 'mk_config a1 a2 a3 a4 a5 a6 a7 a8 a9 a10 a11 a12 a13 a14 a15 a16 a17 a18 a19 a20 a21 a22 := c in
  mk_config a1 a2 v a4 a5 a6 a7 a8 a9 a10 a11 a12 a13 a14 a15 a16 a17 a18 a19 a20 a21 a22.
Definition set_num_keyboard_devices (v : Z) (c : config_t) : config_t :=
  let 'mk_config a1 a2 a3 a4 a5 a6 a7 a8 a9 a10 a11 a12 a13 a14 a15 a16 a17 a18 a19 a20 a21 a22 := c in
  mk_config a1 a2 a3 v a5 a6 a7 a8 a9 a10 a11 a12 a13 a14 a15 a16 a17 a18 a19 a20 a21 a22.
Definition set_cat_x_offset (v : Z) (c : config_t) : config_t :=
  let 'mk_config a1 a2 a3 a4 a5 a6 a7 a8 a9 a10 a11 a12 a13 a14 a15 a16 a17 a18 a19 a20 a21 a22 := c in
  mk_config a1 a2 a3 a4 v a6 a7 a8 a9 a10 a11 a12 a13 a14 a15 a16 a17 a18 a19 a20 a21 a22.
Definition set_cat_y_offset (v : Z) (c : config_t) : config_t :=
  let 'mk_config a1 a2 a3 a4 a5 a6 a7 a8 a9 a10 a11 a12 a13 a14 a15 a16 a17 a18 a19 a20 a21 a22 := c in
  mk_config a1 a2 a3 a4 a5 v a7 a8 a9 a10 a11 a12 a13 a14 a15 a16 a17 a18 a19 a20 a21 a22.
Definition set_cat_height (v : Z) (c : config_t) : config_t :=
  let 'mk_config a1 a2 a3 a4 a5 a6 a7 a8 a9 a10 a11 a12 a13 a14 a15 a16 a17 a18 a19 a20 a21 a22 := c in
  mk_config a1 a2 a3 a4 a5 a6 v a8 a9 a10 a11 a12 a13 a14 a15 a16 a17 a18 a19 a20 a21 a22.
Definition set_overlay_height (v : Z) (c : config_t) : config_t :=
  let 'mk_config a1 a2 a3 a4 a5 a6 a7 a8 a9 a10 a11 a12 a13 a14 a15 a16 a17 a18 a19 a20 a21 a22 := c in
  mk_config a1 a2 a3 a4 a5 a6 a7 v a9 a10 a11 a12 a13 a14 a15 a16 a17 a18 a19 a20 a21 a22.
Definition set_idle_frame (v : Z) (c : config_t) : config_t :=
  let 'mk_config a1 a2 a3 a4 a5 a6 a7 a8 a9 a10 a11 a12 a13 a14 a15 a16 a17 a18 a19 a20 a21 a22 := c in
  mk_config a1 a2 a3 a4 a5 a6 a7 a8 v a10 a11 a12 a13 a14 a15 a16 a17 a18 a19 a20 a21 a22.
Definition set_keypress_duration (v : Z) (c : config_t) : config_t :=
  let 'mk_config a1 a2 a3 a4 a5 a6 a7 a8 a9 a10 a11 a12 a13 a14 a15 a16 a17 a18 a19 a20 a21 a22 := c in
  mk_config a1 a2 a3 a4 a5 a6 a7 a8 a9 v a11 a12 a13 a14 a15 a16 a17 a18 a19 a20 a21 a22.
Definition set_test_animation_duration (v : Z) (c : config_t) : config_t :=
  let 'mk_config a1 a2 a3 a4 a5 a6 a7 a8 a9 a10 a11 a12 a13 a14 a15 a16 a17 a18 a19 a20 a21 a22 := c in
  mk_config a1 a2 a3 a4 a5 a6 a7 a8 a9 a10 v a12 a13 a14 a15 a16 a17 a18 a19 a20 a21 a22.
Definition set_test_animation_interval (v : Z) (c : config_t) : config_t :=
  let 'mk_config a1 a2 a3 a4 a5 a6 a7 a8 a9 a10 a11 a12 a13 a14 a15 a16 a17 a18 a19 a20 a21 a22 := c in
  mk_config a1 a2 a3 a4 a5 a6 a7 a8 a9 a10 a11 v a13 a14 a15 a16 a17 a18 a19 a20 a21 a22.
Definition set_fps (v : Z) (c : config_t) : config_t :=
  let 'mk_config a1 a2 a3 a4 a5 a6 a7 a8 a9 a10 a11 a12 a13 a14 a15 a16 a17 a18 a19 a20 a21 a22 := c in
  mk_config a1 a2 a3 a4 a5 a6 a7 a8 a9 a10 a11 a12 v a14 a15 a16 a17 a18 a19 a20 a21 a22.
Definition set_overlay_opacity (v : Z) (c : config_t) : config_t :=
  let 'mk_config a1 a2 a3 a4 a5 a6 a7 a8 a9 a10 a11 a12 a13 a14 a15 a16 a17 a18 a19 a20 a21 a22 := c in
  mk_config a1 a2 a3 a4 a5 a6 a7 a8 a9 a10 a11 a12 a13 v a15 a16 a17 a18 a19 a20 a21 a22.
Definition set_enable_debug (v : Z) (c : config_t) : config_t :=
  let 'mk_config a1 a2 a3 a4 a5 a6 a7 a8 a9 a10 a11 a12 a13 a14 a15 a16 a17 a18 a19 a20 a21 a22 := c in
  mk_config a1 a2 a3 a4 a5 a6 a7 a8 a9 a10 a11 a12 a13 a14 v a16 a17 a18 a19 a20 a21 a22.
Definition set_overlay_position (v : Z) (c : config_t) : config_t :=
  let 'mk_config a1 a2 a3 a4 a5 a6 a7 a8 a9 a10 a11 a12 a13 a14 a15 a16 a17 a18 a19 a20 a21 a22 := c in
  mk_config a1 a2 a3 a4 a5 a6 a7 a8 a9 a10 a11 a12 a13 a14 a15 a16 v a18 a19 a20 a21 a22.
Definition set_animation_index (v : Z) (c : config_t) : config_t :=
  let 'mk_config a1 a2 a3 a4 a5 a6 a7 a8 a9 a10 a11 a12 a13 a14 a15 a16 a17 a18 a19 a20 a21 a22 := c in
  mk_config a1 a2 a3 a4 a5 a6 a7 a8 a9 a10 a11 a12 a13 a14 a15 a16 a17 v a19 a20 a21 a22.
Definition set_invert_color (v : Z) (c : config_t) : config_t :=
  let 'mk_config a1 a2 a3 a4 a5 a6 a7 a8 a9 a10 a11 a12 a13 a14 a15 a16 a17 a18 a19 a20 a21 a22 := c in
  mk_config a1 a2 a3 a4 a5 a6 a7 a8 a9 a10 a11 a12 a13 a14 a15 a16 a17 a18 v a20 a21 a22.

(** ** What the process does: the trace *)

Inductive log_level : Type := LOG_ERROR | LOG_WARNING | LOG_INFO | LOG_DEBUG.

(** The arguments of a printf-style call. *)
Inductive fmt_arg : Type :=
| ArgInt (z : Z)
| ArgStr (s : string).

Inductive event : Type :=
| Log (level : log_level) (format : string) (args : list fmt_arg)
| Sys_unlink (path : string)
| Sys_waitpid (returned : Z)
| Sys_exit (code : Z)
| Call_wayland_update_config (config : config_t)
| Call_input_restart_monitoring
    (config : config_t) (devices : option ptr) (num_devices : Z) (debug : Z)
| Call_config_watcher_cleanup
| Call_animation_cleanup
| Call_wayland_cleanup
| Call_input_cleanup
| Call_config_cleanup
| Call_memory_print_stats
| Call_memory_leak_check.

(** ** The state of the process *)

(** A heap block of [char *] slots; a slot that was never written (or holds
    NULL) is [None].  A freed block is [None] in the heap. *)
Definition block : Type := list (option string).

Record world : Type := mk_world {
  trace : list event;
  (* error.c *)
  debug_enabled : Z;
  (* config.c *)
  config_keyboard_devices : option ptr;
  config_num_devices : Z;
  (* main.c *)
  running : Z;
  g_config : config_t;
  (* environment *)
  heap : list (option block);
  alloc_plan : list bool;            (* answers of the next allocations; none left: success *)
  fs : list (string * string);       (* path |-> content of the readable files *)
  zombies : list positive;           (* terminated children not yet reaped *)
  input_restart_result : bongocat_error_t  (* what the input monitor will answer *)
}.

Definition set_trace (v : list event) (w : world) : world :=
  let 'mk_world a1 a2 a3 a4 a5 a6 a7 a8 a9 a10 a11 := w in
  mk_world v a2 a3 a4 a5 a6 a7 a8 a9 a10 a11.
Definition set_debug_enabled (v : Z) (w : world) : world :=
  let 'mk_world a1 a2 a3 a4 a5 a6 a7 a8 a9 a10 a11 := w in
  mk_world a1 v a3 a4 a5 a6 a7 a8 a9 a10 a11.
Definition set_config_keyboard_devices (v : option ptr) (w : world) : world :=
  let 'mk_world a1 a2 a3 a4 a5 a6 a7 a8 a9 a10 a11 := w in
  mk_world a1 a2 v a4 a5 a6 a7 a8 a9 a10 a11.
Definition set_config_num_devices (v : Z) (w : world) : world :=
  let 'mk_world a1 a2 a3 a4 a5 a6 a7 a8 a9 a10 a11 := w in
  mk_world a1 a2 a3 v a5 a6 a7 a8 a9 a10 a11.
Definition set_running (v : Z) (w : world) : world :=
  let 'mk_world a1 a2 a3 a4 a5 a6 a7 a8 a9 a10 a11 := w in
  mk_world a1 a2 a3 a4 v a6 a7 a8 a9 a10 a11.
Definition set_g_config (v : config_t) (w : world) : world :=
  let 'mk_world a1 a2 a3 a4 a5 a6 a7 a8 a9 a10 a11 := w in
  mk_world a1 a2 a3 a4 a5 v a7 a8 a9 a10 a11.
Definition set_heap (v : list (option block)) (w : world) : world :=
  let 'mk_world a1 a2 a3 a4 a5 a6 a7 a8 a9 a10 a11 := w in
  mk_world a1 a2 a3 a4 a5 a6 v a8 a9 a10 a11.
Definition set_alloc_plan (v : list bool) (w : world) : world :=
  let 'mk_world a1 a2 a3 a4 a5 a6 a7 a8 a9 a10 a11 := w in
  mk_world a1 a2 a3 a4 a5 a6 a7 v a9 a10 a11.
Definition set_fs (v : list (string * string)) (w : world) : world :=
  let 'mk_world a1 a2 a3 a4 a5 a6 a7 a8 a9 a10 a11 := w in
  mk_world a1 a2 a3 a4 a5 a6 a7 a8 v a10 a11.
Definition set_zombies (v : list positive) (w : world) : world :=
  let 'mk_world a1 a2 a3 a4 a5 a6 a7 a8 a9 a10 a11 := w in
  mk_world a1 a2 a3 a4 a5 a6 a7 a8 a9 v a11.

(** ** A state monad over [world] *)

Definition W (A : Type) : Type := world -> A * world.

Definition ret {A : Type} (a : A) : W A := fun w => (a, w).

Definition bind {A B : Type} (m : W A) (k : A -> W B) : W B :=
  fun w => let (a, w') := m w in k a w'.

Declare Scope w_scope.
Delimit Scope w_scope with W.
Notation "x <- m ;; k" := (bind m (fun x => k))
  (at level 61, m at next level, right associativity) : w_scope.
Notation "m ;; k" := (bind m (fun _ => k))
  (at level 61, right associativity) : w_scope.
Local Open Scope w_scope.

Definition get : W world := fun w => (w, w).
Definition modify (f : world -> world) : W unit := fun w => (tt, f w).
Definition when (b : bool) (m : W unit) : W unit := if b then m else ret tt.
Definition emit (e : event) : W unit :=
  modify (fun w => set_trace (trace w ++ [e]) w).

(** ** error.c *)

(** lines 9-11 *)
Definition bongocat_error_init (enable_debug : Z) : W unit :=
  modify (set_debug_enabled enable_debug).

(** lines 37-47: one line on stdout; the timestamp is not modelled *)
Definition bongocat_log_error (format : string) (args : list fmt_arg) : W unit :=
  emit (Log LOG_ERROR format args).
Definition bongocat_log_warning (format : string) (args : list fmt_arg) : W unit :=
  emit (Log LOG_WARNING format args).
Definition bongocat_log_info (format : string) (args : list fmt_arg) : W unit :=
  emit (Log LOG_INFO format args).

(** lines 49-53 *)
Definition bongocat_log_debug (format : string) (args : list fmt_arg) : W unit :=
  w <- get ;;
  if debug_enabled w =? 0 then ret tt else emit (Log LOG_DEBUG format args).

(** ** config.c: [validate_config] *)

Section Validate.

Variable K : header_constants.

(** lines 25-30 *)
Definition validate_cat_height (config : config_t) : W config_t :=
  if (cat_height config <? MIN_CAT_HEIGHT) || (cat_height config >? MAX_CAT_HEIGHT) then
    bongocat_log_warning "cat_height %d out of range [%d-%d], clamping"
      [ArgInt (cat_height config); ArgInt MIN_CAT_HEIGHT; ArgInt MAX_CAT_HEIGHT] ;;
    ret (set_cat_height
           (if cat_height config <? MIN_CAT_HEIGHT then MIN_CAT_HEIGHT else MAX_CAT_HEIGHT)
           config)
  else ret config.

(** lines 32-36 *)
Definition validate_overlay_height (config : config_t) : W config_t :=
  if (overlay_height config <? MIN_OVERLAY_HEIGHT)
     || (overlay_height config >? MAX_OVERLAY_HEIGHT) then
    bongocat_log_warning "overlay_height %d out of range [%d-%d], clamping"
      [ArgInt (overlay_height config); ArgInt MIN_OVERLAY_HEIGHT; ArgInt MAX_OVERLAY_HEIGHT] ;;
    ret (set_overlay_height
           (if overlay_height config <? MIN_OVERLAY_HEIGHT
            then MIN_OVERLAY_HEIGHT else MAX_OVERLAY_HEIGHT)
           config)
  else ret config.

(** lines 38-43 *)
Definition validate_fps (config : config_t) : W config_t :=
  if (fps config <? MIN_FPS) || (fps config >? MAX_FPS) then
    bongocat_log_warning "fps %d out of range [%d-%d], clamping"
      [ArgInt (fps config); ArgInt MIN_FPS; ArgInt MAX_FPS] ;;
    ret (set_fps (if fps config <? MIN_FPS then MIN_FPS else MAX_FPS) config)
  else ret config.

(** lines 45-50 *)
Definition validate_keypress_duration (config : config_t) : W config_t :=
  if (keypress_duration config <? MIN_DURATION)
     || (keypress_duration config >? MAX_DURATION) then
    bongocat_log_warning "keypress_duration %d out of range [%d-%d], clamping"
      [ArgInt (keypress_duration config); ArgInt MIN_DURATION; ArgInt MAX_DURATION] ;;
    ret (set_keypress_duration
           (if keypress_duration config <? MIN_DURATION then MIN_DURATION else MAX_DURATION)
           config)
  else ret config.

(** lines 52-56 *)
Definition validate_test_animation_duration (config : config_t) : W config_t :=
  if (test_animation_duration config <? MIN_DURATION)
     || (test_animation_duration config >? MAX_DURATION) then
    bongocat_log_warning "test_animation_duration %d out of range [%d-%d], clamping"
      [ArgInt (test_animation_duration config); ArgInt MIN_DURATION; ArgInt MAX_DURATION] ;;
    ret (set_test_animation_duration
           (if test_animation_duration config <? MIN_DURATION
            then MIN_DURATION else MAX_DURATION)
           config)
  else ret config.

(** lines 58-63 *)
Definition validate_test_animation_interval (config : config_t) : W config_t :=
  if (test_animation_interval config <? 0)
     || (test_animation_interval config >? MAX_INTERVAL) then
    bongocat_log_warning "test_animation_interval %d out of range [0-%d], clamping"
      [ArgInt (test_animation_interval config); ArgInt MAX_INTERVAL] ;;
    ret (set_test_animation_interval
           (if test_animation_interval config <? 0 then 0 else MAX_INTERVAL)
           config)
  else ret config.

(** lines 65-69 *)
Definition validate_overlay_opacity (config : config_t) : W config_t :=
  if (overlay_opacity config <? 0) || (overlay_opacity config >? 255) then
    bongocat_log_warning "overlay_opacity %d out of range [0-255], clamping"
      [ArgInt (overlay_opacity config)] ;;
    ret (set_overlay_opacity (if overlay_opacity config <? 0 then 0 else 255) config)
  else ret config.

(** lines 71-76 *)
Definition validate_animation_index (config : config_t) : W config_t :=
  if (animation_index config <? 0) || (animation_index config >=? TOTAL_ANIMATIONS K) then
    bongocat_log_warning "animation_index %d out of range [0-%d], resetting to 0"
      [ArgInt (animation_index config); ArgInt (TOTAL_ANIMATIONS K - 1)] ;;
    ret (set_animation_index 0 config)
  else ret config.

(** lines 78-91 *)
Definition validate_idle_frame (config : config_t) : W config_t :=
  if animation_index config =? BONGOCAT_ANIM_INDEX K then
    if (idle_frame config <? 0) || (idle_frame config >=? BONGOCAT_NUM_FRAMES K) then
      bongocat_log_warning "idle_frame %d out of range [0-%d], resetting to 0"
        [ArgInt (idle_frame config); ArgInt (BONGOCAT_NUM_FRAMES K - 1)] ;;
      ret (set_idle_frame 0 config)
    else ret config
  else
    if (idle_frame config <? 0) || (idle_frame config >=? MAX_NUM_FRAMES K) then
      bongocat_log_warning "idle_frame %d out of range [0-%d], resetting to 0"
        [ArgInt (idle_frame config); ArgInt (MAX_NUM_FRAMES K - 1)] ;;
      ret (set_idle_frame 0 config)
    else ret config.

(** lines 93-95 *)
Definition validate_flags (config : config_t) : W config_t :=
  let config := set_enable_debug (if enable_debug config =? 0 then 0 else 1) config in
  let config := set_invert_color (if invert_color config =? 0 then 0 else 1) config in
  ret config.

(** lines 97-101 *)
Definition validate_overlay_position (config : config_t) : W config_t :=
  if negb (overlay_position config =? POSITION_TOP)
     && negb (overlay_position config =? POSITION_BOTTOM) then
    bongocat_log_warning "Invalid overlay_position %d, resetting to top"
      [ArgInt (overlay_position config)] ;;
    ret (set_overlay_position POSITION_TOP config)
  else ret config.

(** lines 103-107; [abs] of <stdlib.h> ([abs(INT_MIN)] is undefined in C, and
    the result only decides whether a warning is printed) *)
Definition validate_cat_x_offset (config : config_t) : W config_t :=
  when (Z.abs (cat_x_offset config) >? screen_width config)
    (bongocat_log_warning "cat_x_offset %d may position cat off-screen (screen width: %d)"
       [ArgInt (cat_x_offset config); ArgInt (screen_width config)]) ;;
  ret config.

(** lines 22-110 *)
Definition validate_config (config : config_t) : W (bongocat_error_t * config_t) :=
  config <- validate_cat_height config ;;
  config <- validate_overlay_height config ;;
  config <- validate_fps config ;;
  config <- validate_keypress_duration config ;;
  config <- validate_test_animation_duration config ;;
  config <- validate_test_animation_interval config ;;
  config <- validate_overlay_opacity config ;;
  config <- validate_animation_index config ;;
  config <- validate_idle_frame config ;;
  config <- validate_flags config ;;
  config <- validate_overlay_position config ;;
  config <- validate_cat_x_offset config ;;
  ret (BONGOCAT_SUCCESS, config).

End Validate.

(** ** C strings and the libc functions used by the parser *)

Definition NUL : ascii := "000"%char.
Definition TAB : ascii := "009"%char.
Definition NEWLINE : ascii := "010"%char.

(** <ctype.h> [isspace] in the C locale *)
Definition isspace (c : ascii) : bool :=
  ((c =? " ") || (c =? TAB) || (c =? NEWLINE)
   || (c =? "011") || (c =? "012") || (c =? "013"))%char.

Definition isdigit (c : ascii) : bool :=
  ((48 <=? nat_of_ascii c) && (nat_of_ascii c <=? 57))%nat.

(** The string a [char] buffer denotes: its bytes up to the first NUL. *)
Fixpoint c_str (buf : string) : string :=
  match buf with
  | EmptyString => EmptyString
  | String c rest => if (c =? NUL)%char then EmptyString else String c (c_str rest)
  end.

(** [fgets(buf, size, stream)]: at most [size - 1] bytes, stopping after a
    newline; NULL (here [None]) at end of file.  The stream is the part of
    the file not yet read. *)
Fixpoint fgets_chars (n : nat) (stream : string) : string * string :=
  match n, stream with
  | S n', String c rest =>
      if (c =? NEWLINE)%char then (String c EmptyString, rest)
      else let (l, r) := fgets_chars n' rest in (String c l, r)
  | _, _ => (EmptyString, stream)
  end.

Definition fgets (size : nat) (stream : string) : option (string * string) :=
  match stream with
  | EmptyString => None
  | _ => Some (fgets_chars (size - 1) stream)
  end.

(** [strspn(s, accept)] *)
Fixpoint mem_char (c : ascii) (set : string) : bool :=
  match set with
  | EmptyString => false
  | String d rest => (c =? d)%char || mem_char c rest
  end.

Fixpoint strspn (s accept : string) : nat :=
  match s with
  | EmptyString => O
  | String c rest => if mem_char c accept then S (strspn rest accept) else O
  end.

(** The white-space directive of a scanf format. *)
Fixpoint skip_space (s : string) : string :=
  match s with
  | EmptyString => EmptyString
  | String c rest => if isspace c then skip_space rest else s
  end.

(** [%255[^=]] with the field width as first argument *)
Fixpoint scan_until_equals (width : nat) (s : string) : string * string :=
  match width, s with
  | S n, String c rest =>
      if (c =? "=")%char then (EmptyString, s)
      else let (k, r) := scan_until_equals n rest in (String c k, r)
  | _, _ => (EmptyString, s)
  end.

(** [%255s] once leading white space is gone *)
Fixpoint scan_word (width : nat) (s : string) : string * string :=
  match width, s with
  | S n, String c rest =>
      if isspace c then (EmptyString, s)
      else let (k, r) := scan_word n rest in (String c k, r)
  | _, _ => (EmptyString, s)
  end.

(** [sscanf(line, " %255[^=] = %255s", key, value)]: the return value and the
    two buffers ([""] for a buffer the call did not write). *)
Definition sscanf_key_value (line : string) : Z * string * string :=
  match skip_space line with
  | EmptyString => (-1, EmptyString, EmptyString)          (* EOF *)
  | s =>
      let (key, s) := scan_until_equals 255 s in
      match key with
      | EmptyString => (0, EmptyString, EmptyString)
      | _ =>
          match skip_space s with
          | String c s =>
              if (c =? "=")%char then
                let (value, _) := scan_word 255 (skip_space s) in
                match value with
                | EmptyString => (1, key, EmptyString)
                | _ => (2, key, value)
                end
              else (1, key, EmptyString)
          | EmptyString => (1, key, EmptyString)
          end
      end
  end.

(** [strtol(nptr, NULL, 10)] for a 64-bit [long], and the conversion to a
    32-bit [int] *)
Definition LONG_MAX : Z := 9223372036854775807.
Definition LONG_MIN : Z := -9223372036854775808.

Fixpoint digits_value (s : string) (acc : Z) : Z :=
  match s with
  | EmptyString => acc
  | String c rest =>
      if isdigit c then digits_value rest (acc * 10 + (Z.of_nat (nat_of_ascii c) - 48))
      else acc
  end.

Definition strtol (nptr : string) : Z :=
  let s := skip_space nptr in
  let '(negative, s) :=
    match s with
    | String c rest =>
        if (c =? "-")%char then (true, rest)
        else if (c =? "+")%char then (false, rest)
        else (false, s)
    | EmptyString => (false, s)
    end in
  let v := digits_value s 0 in
  let v := if negative then - v else v in
  if v >? LONG_MAX then LONG_MAX else if v <? LONG_MIN then LONG_MIN else v.

(** The cast [(int)] of a [long]: the value modulo [2^32], as gcc and clang
    define the conversion. *)
Definition int_of_long (v : Z) : Z := (v + 2147483648) mod 4294967296 - 2147483648.

(** ** The allocator and the device array *)

(** One allocation request: the next answer of the plan, success when the
    plan is used up. *)
Definition next_alloc : W bool :=
  fun w =>
    match alloc_plan w with
    | [] => (true, w)
    | ok :: rest => (ok, set_alloc_plan rest w)
    end.

Fixpoint list_update {A : Type} (i : nat) (v : A) (l : list A) : list A :=
  match l, i with
  | [], _ => []
  | _ :: l', O => v :: l'
  | x :: l', S i' => x :: list_update i' v l'
  end.

Definition new_block (n : nat) : W (option ptr) :=
  fun w => (Some (List.length (heap w)),
            set_heap (heap w ++ [Some (repeat None n)]) w).

(** [malloc] of an array of [n] string pointers *)
Definition malloc_array (n : nat) : W (option ptr) :=
  ok <- next_alloc ;;
  if ok then new_block n else ret None.

Definition resize (n : nat) (b : block) : block :=
  firstn n b ++ repeat None (n - List.length b).

(** [realloc] of the array at [p] to [n] slots.  On success the block keeps its
    address and its leading slots (the C library may also move it; a moved
    block would leave every older copy of the pointer dangling).  On failure
    NULL is returned and the old block stays as it is. *)
Definition realloc_array (p : option ptr) (n : nat) : W (option ptr) :=
  ok <- next_alloc ;;
  if ok then
    match p with
    | None => new_block n
    | Some q =>
        w <- get ;;
        match nth_error (heap w) q with
        | Some (Some b) =>
            modify (set_heap (list_update q (Some (resize n b)) (heap w))) ;;
            ret (Some q)
        | _ => new_block n
        end
    end
  else ret None.

(** [devices[i] = s] for the array at [q] *)
Definition store_slot (q : ptr) (i : nat) (s : option string) : W unit :=
  modify (fun w =>
    match nth_error (heap w) q with
    | Some (Some b) => set_heap (list_update q (Some (list_update i s b)) (heap w)) w
    | _ => w
    end).

(** [fopen(path, "r")] *)
Fixpoint fopen (files : list (string * string)) (path : string) : option string :=
  match files with
  | [] => None
  | (p, content) :: rest => if (p =? path)%string then Some content else fopen rest path
  end.

Notation "' pat <- m ;; k" := (bind m (fun x => match x with pat => k end))
  (at level 61, pat pattern, m at next level, right associativity) : w_scope.

(** ** config.c: [parse_config_file], [load_config], [config_cleanup] *)

(** lines 145-151: skip leading blanks, then cut trailing blanks, never
    going back past the first character *)
Definition is_blank (c : ascii) : bool := ((c =? " ") || (c =? TAB))%char.

Fixpoint skip_blank (s : string) : string :=
  match s with
  | EmptyString => EmptyString
  | String c rest => if is_blank c then skip_blank rest else s
  end.

Fixpoint cut_trailing_blank (s : string) : string :=
  match s with
  | EmptyString => EmptyString
  | String c rest =>
      match cut_trailing_blank rest with
      | EmptyString => if is_blank c then EmptyString else String c EmptyString
      | t => String c t
      end
  end.

Definition trim_key (key : string) : string :=
  match skip_blank key with
  | EmptyString => EmptyString
  | String c rest => String c (cut_trailing_blank rest)
  end.

(** lines 131-135 *)
Fixpoint strip_newline (line : string) : string :=
  match line with
  | EmptyString => EmptyString
  | String c rest =>
      match rest with
      | EmptyString => if (c =? NEWLINE)%char then EmptyString else line
      | _ => String c (strip_newline rest)
      end
  end.

(** line 138 *)
Definition line_is_skipped (line : string) : bool :=
  match line with
  | EmptyString => true
  | String c _ =>
      (c =? "#")%char
      || (strspn line (String " " (String TAB EmptyString)) =? String.length line)%nat
  end.

Section Config.

Variable K : header_constants.

(** lines 195-215: one [keyboard_device] line *)
Definition add_keyboard_device (value : string) (config : config_t)
    (result : bongocat_error_t) : W (config_t * bongocat_error_t) :=
  w <- get ;;
  p <- realloc_array (config_keyboard_devices w) (Z.to_nat (config_num_devices w + 1)) ;;
  modify (set_config_keyboard_devices p) ;;
  match p with
  | None =>
      bongocat_log_error "Failed to allocate memory for keyboard_devices" [] ;;
      ret (config, BONGOCAT_ERROR_MEMORY)
  | Some q =>
      ok <- next_alloc ;;
      if ok then
        store_slot q (Z.to_nat (config_num_devices w)) (Some value) ;;
        modify (set_config_num_devices (config_num_devices w + 1)) ;;
        ret (set_num_keyboard_devices (config_num_devices w + 1)
               (set_keyboard_devices (Some q) config),
             result)
      else
        store_slot q (Z.to_nat (config_num_devices w)) None ;;
        bongocat_log_error "Failed to allocate memory for keyboard_device entry" [] ;;
        ret (config, BONGOCAT_ERROR_MEMORY)
  end.

(** lines 153-218: the chain of [strcmp] on the trimmed key *)
Definition parse_key_value (line_number : Z) (key_start value : string)
    (config : config_t) (result : bongocat_error_t) : W (config_t * bongocat_error_t) :=
  if (key_start =? "cat_x_offset")%string then
    ret (set_cat_x_offset (int_of_long (strtol value)) config, result)
  else if (key_start =? "cat_y_offset")%string then
    ret (set_cat_y_offset (int_of_long (strtol value)) config, result)
  else if (key_start =? "cat_height")%string then
    ret (set_cat_height (int_of_long (strtol value)) config, result)
  else if (key_start =? "overlay_height")%string then
    ret (set_overlay_height (int_of_long (strtol value)) config, result)
  else if (key_start =? "idle_frame")%string then
    ret (set_idle_frame (int_of_long (strtol value)) config, result)
  else if (key_start =? "keypress_duration")%string then
    ret (set_keypress_duration (int_of_long (strtol value)) config, result)
  else if (key_start =? "test_animation_duration")%string then
    ret (set_test_animation_duration (int_of_long (strtol value)) config, result)
  else if (key_start =? "test_animation_interval")%string then
    ret (set_test_animation_interval (int_of_long (strtol value)) config, result)
  else if (key_start =? "fps")%string then
    ret (set_fps (int_of_long (strtol value)) config, result)
  else if (key_start =? "overlay_opacity")%string then
    ret (set_overlay_opacity (int_of_long (strtol value)) config, result)
  else if (key_start =? "enable_debug")%string then
    ret (set_enable_debug (int_of_long (strtol value)) config, result)
  else if (key_start =? "invert_color")%string then
    ret (set_invert_color (int_of_long (strtol value)) config, result)
  else if (key_start =? "overlay_position")%string then
    if (value =? "top")%string then
      ret (set_overlay_position POSITION_TOP config, result)
    else if (value =? "bottom")%string then
      ret (set_overlay_position POSITION_BOTTOM config, result)
    else
      bongocat_log_warning "Invalid overlay_position '%s', using 'top'" [ArgStr value] ;;
      ret (set_overlay_position POSITION_TOP config, result)
  else if (key_start =? "animation_name")%string then
    if (value =? "bongocat")%string then
      ret (set_animation_index (BONGOCAT_ANIM_INDEX K) config, result)
    else if ((value =? "agumon") || (value =? "dm20:agumon") || (value =? "dm:agumon"))%string then
      ret (set_animation_index (DM20_AGUMON_ANIM_INDEX K) config, result)
    else
      bongocat_log_warning "Invalid animation_name '%s', using 'bongocat'" [ArgStr value] ;;
      ret (set_animation_index (BONGOCAT_ANIM_INDEX K) config, result)
  else if ((key_start =? "keyboard_device") || (key_start =? "keyboard_devices"))%string then
    add_keyboard_device value config result
  else
    bongocat_log_warning "Unknown configuration key '%s' at line %d"
      [ArgStr key_start; ArgInt line_number] ;;
    ret (config, result).

(** lines 131-221: the body of the [while] loop for the buffer [buf] that
    [fgets] filled *)
Definition parse_line (line_number : Z) (buf : string)
    (config : config_t) (result : bongocat_error_t) : W (config_t * bongocat_error_t) :=
  let line := strip_newline (c_str buf) in
  if line_is_skipped line then ret (config, result)
  else
    let '(n, key, value) := sscanf_key_value line in
    if n =? 2 then
      parse_key_value line_number (trim_key key) value config result
    else if (0 <? String.length line)%nat then
      bongocat_log_warning "Invalid configuration line %d: %s"
        [ArgInt line_number; ArgStr line] ;;
      ret (config, result)
    else ret (config, result).

(** lines 128-222: [while (fgets(line, sizeof(line), file))].  Every round
    takes at least one byte off the stream, so [fuel] rounds are enough for a
    stream of [fuel] bytes ([parse_lines_fuel] below). *)
Fixpoint parse_lines (fuel : nat) (file : string) (line_number : Z)
    (config : config_t) (result : bongocat_error_t) : W (config_t * bongocat_error_t) :=
  match fuel with
  | O => ret (config, result)
  | S fuel' =>
      match fgets 512 file with
      | None => ret (config, result)
      | Some (buf, file') =>
          let line_number := line_number + 1 in
          '(config, result) <- parse_line line_number buf config result ;;
          parse_lines fuel' file' line_number config result
      end
  end.

(** lines 112-231 *)
Definition parse_config_file (config : config_t) (config_file_path : option string)
    : W (bongocat_error_t * config_t) :=
  let file_path :=
    match config_file_path with Some p => p | None => "bongocat.conf" end in
  w <- get ;;
  match fopen (fs w) file_path with
  | None =>
      bongocat_log_info "Config file '%s' not found, using defaults" [ArgStr file_path] ;;
      ret (BONGOCAT_SUCCESS, config)
  | Some file =>
      '(config, result) <-
         parse_lines (String.length file) file 0 config BONGOCAT_SUCCESS ;;
      when (is_success result)
        (bongocat_log_info "Loaded configuration from bongocat.conf" []) ;;
      ret (result, config)
  end.

(** lines 237-256; members the initializer does not name are zero *)
Definition default_config : config_t :=
  {| screen_width := DEFAULT_SCREEN_WIDTH K;
     bar_height := DEFAULT_BAR_HEIGHT K;
     keyboard_devices := None;
     num_keyboard_devices := 0;
     cat_x_offset := 100;
     cat_y_offset := 10;
     cat_height := 40;
     overlay_height := 50;
     idle_frame := 0;
     keypress_duration := 100;
     test_animation_duration := 200;
     test_animation_interval := 3;
     fps := 60;
     overlay_opacity := 150;
     enable_debug := 1;
     layer := 0;
     overlay_position := POSITION_TOP;
     animation_index := BONGOCAT_ANIM_INDEX K;
     invert_color := 0;
     crop_sprite := 0;
     padding_x := 0;
     padding_y := 0 |}.

(** lines 258-270 *)
Definition set_default_keyboard_device (config : config_t) : W config_t :=
  w <- get ;;
  if config_num_devices w =? 0 then
    p <- malloc_array 1 ;;
    modify (set_config_keyboard_devices p) ;;
    match p with
    | None => ret config
    | Some q =>
        ok <- next_alloc ;;
        if ok then
          store_slot q 0 (Some "/dev/input/event4") ;;
          modify (set_config_num_devices 1) ;;
          ret (set_num_keyboard_devices 1 (set_keyboard_devices (Some q) config))
        else
          store_slot q 0 None ;;
          ret config
    end
  else ret config.

(** lines 292-305 *)
Definition log_loaded_config (config : config_t) : W unit :=
  bongocat_log_debug "Configuration loaded successfully" [] ;;
  bongocat_log_debug "  Screen: %dx%d"
    [ArgInt (screen_width config); ArgInt (bar_height config)] ;;
  (if animation_index config =? BONGOCAT_ANIM_INDEX K then
     bongocat_log_debug "  Cat: %dx%d at offset (%d,%d)"
       [ArgInt (cat_height config); ArgInt (Z.quot (cat_height config * 954) 393);
        ArgInt (cat_x_offset config); ArgInt (cat_y_offset config)]
   else
     bongocat_log_debug "  Digimon: %02d at offset (%d,%d)"
       [ArgInt (animation_index config);
        ArgInt (cat_x_offset config); ArgInt (cat_y_offset config)]) ;;
  bongocat_log_debug "  FPS: %d, Opacity: %d"
    [ArgInt (fps config); ArgInt (overlay_opacity config)] ;;
  bongocat_log_debug "  Position: %s"
    [ArgStr (if overlay_position config =? POSITION_TOP then "top" else "bottom")].

(** lines 233-308; the configuration written through the out-parameter is
    returned with the error code, also when the load fails *)
Definition load_config (config_file_path : option string)
    : W (bongocat_error_t * config_t) :=
  config <- set_default_keyboard_device default_config ;;
  '(result, config) <- parse_config_file config config_file_path ;;
  if negb (is_success result) then
    bongocat_log_error "Failed to parse configuration file: %s"
      [ArgStr (bongocat_error_string result)] ;;
    ret (result, config)
  else
    '(result, config) <- validate_config K config ;;
    if negb (is_success result) then
      bongocat_log_error "Configuration validation failed: %s"
        [ArgStr (bongocat_error_string result)] ;;
      ret (result, config)
    else
      let config := set_bar_height (overlay_height config) config in
      bongocat_error_init (enable_debug config) ;;
      log_loaded_config config ;;
      ret (BONGOCAT_SUCCESS, config).

(** lines 310-318.  [BONGOCAT_SAFE_FREE] is not in the available sources; it
    is taken to free its argument and to set it to NULL.  The strings go
    with their array. *)
Definition config_cleanup : W unit :=
  w <- get ;;
  match config_keyboard_devices w with
  | None => ret tt
  | Some q =>
      modify (set_heap (list_update q None (heap w))) ;;
      modify (set_config_keyboard_devices None) ;;
      modify (set_config_num_devices 0)
  end.

End Config.

(** ** main.c *)

(** Calls into the other translation units: each is recorded with the
    arguments it is given. *)
Definition wayland_update_config : W unit :=
  w <- get ;; emit (Call_wayland_update_config (g_config w)).

Definition input_restart_monitoring (devices : option ptr) (num_devices : Z) (debug : Z)
    : W bongocat_error_t :=
  w <- get ;;
  emit (Call_input_restart_monitoring (g_config w) devices num_devices debug) ;;
  ret (input_restart_result w).

(** [config->keyboard_devices[i]]; [None] when the read is not one of a
    string stored in a live block *)
Definition device_at (h : list (option block)) (config : config_t) (i : nat)
    : option string :=
  match keyboard_devices config with
  | None => None
  | Some p =>
      match nth_error h p with
      | Some (Some b) =>
          match nth_error b i with
          | Some (Some s) => Some s
          | _ => None
          end
      | _ => None
      end
  end.

(** lines 219-224: the inner loop from index [j], [rounds] rounds left; the
    result is [found] *)
Fixpoint find_device (h : list (option block)) (old_config new_config : config_t)
    (i j rounds : nat) : option bool :=
  match rounds with
  | O => Some false
  | S rounds' =>
      match device_at h new_config i, device_at h old_config j with
      | Some a, Some b =>
          if (a =? b)%string then Some true
          else find_device h old_config new_config i (S j) rounds'
      | _, _ => None
      end
  end.

(** lines 217-228: the outer loop from index [i]; [Some true] is the early
    [return true] *)
Fixpoint any_device_missing (h : list (option block)) (old_config new_config : config_t)
    (i rounds : nat) : option bool :=
  match rounds with
  | O => Some false
  | S rounds' =>
      match find_device h old_config new_config i 0
              (Z.to_nat (num_keyboard_devices old_config)) with
      | None => None
      | Some false => Some true
      | Some true => any_device_missing h old_config new_config (S i) rounds'
      end
  end.

(** lines 211-231; [None] when the function reads an invalid pointer *)
Definition config_devices_changed (h : list (option block))
    (old_config new_config : config_t) : option bool :=
  if negb (num_keyboard_devices old_config =? num_keyboard_devices new_config) then
    Some true
  else
    any_device_missing h old_config new_config 0
      (Z.to_nat (num_keyboard_devices new_config)).

(** [waitpid(-1, NULL, WNOHANG)]: the pid of a terminated child, or a value
    that is not positive when there is none *)
Definition waitpid_nohang : W Z :=
  w <- get ;;
  match zombies w with
  | [] => emit (Sys_waitpid 0) ;; ret 0
  | pid :: rest =>
      modify (set_zombies rest) ;; emit (Sys_waitpid (Zpos pid)) ;; ret (Zpos pid)
  end.

(** line 170: [while (waitpid(-1, NULL, WNOHANG) > 0);] *)
Fixpoint reap_children (fuel : nat) : W unit :=
  match fuel with
  | O => ret tt
  | S fuel' =>
      r <- waitpid_nohang ;;
      if r >? 0 then reap_children fuel' else ret tt
  end.

(** lines 161-176 *)
Definition signal_handler (sig : Z) : W unit :=
  if (sig =? SIGINT) || (sig =? SIGTERM) then
    bongocat_log_info "Received signal %d, shutting down gracefully" [ArgInt sig] ;;
    modify (set_running 0)
  else if sig =? SIGCHLD then
    w <- get ;;
    reap_children (S (List.length (zombies w)))
  else
    bongocat_log_warning "Received unexpected signal %d" [ArgInt sig].

(** lines 77-79 *)
Definition process_remove_pid_file : W unit := emit (Sys_unlink PID_FILE).

Section Main.

Variable K : header_constants.

(** lines 233-269; [None] when [config_devices_changed] reads an invalid
    pointer *)
Definition config_reload_callback (config_path : string) (w : world) : option world :=
  let (_, w) :=
    bongocat_log_info "Reloading configuration from: %s" [ArgStr config_path] w in
  let '((result, temp_config), w) := load_config K (Some config_path) w in
  if negb (is_success result) then
    Some (snd ((bongocat_log_error "Failed to reload config: %s"
                  [ArgStr (bongocat_error_string result)] ;;
                bongocat_log_info "Keeping current configuration" []) w))
  else
    let old_config := g_config w in
    let w := set_g_config temp_config w in
    let (_, w) := wayland_update_config w in
    match config_devices_changed (heap w) old_config (g_config w) with
    | None => None
    | Some changed =>
        Some (snd ((when changed
                      (bongocat_log_info
                         "Input devices changed, restarting input monitoring" [] ;;
                       w <- get ;;
                       input_result <-
                         input_restart_monitoring
                           (keyboard_devices (g_config w))
                           (num_keyboard_devices (g_config w))
                           (enable_debug (g_config w)) ;;
                       if negb (is_success input_result) then
                         bongocat_log_error "Failed to restart input monitoring: %s"
                           [ArgStr (bongocat_error_string input_result)]
                       else
                         bongocat_log_info "Input monitoring restarted successfully" []) ;;
                    bongocat_log_info "Configuration reloaded successfully!" [] ;;
                    w <- get ;;
                    bongocat_log_info "New screen dimensions: %dx%d"
                      [ArgInt (screen_width (g_config w)); ArgInt (bar_height (g_config w))])
                   w))
    end.

(** lines 323-357 *)
Definition system_cleanup_and_exit (exit_code : Z) : W unit :=
  bongocat_log_info "Performing cleanup..." [] ;;
  process_remove_pid_file ;;
  emit Call_config_watcher_cleanup ;;
  emit Call_animation_cleanup ;;
  emit Call_wayland_cleanup ;;
  emit Call_input_cleanup ;;
  emit Call_config_cleanup ;;
  config_cleanup ;;
  (if DISABLE_MEMORY_STATISTICS K then ret tt
   else
     w <- get ;;
     when (negb (enable_debug (g_config w) =? 0)) (emit Call_memory_print_stats)) ;;
  when (DEBUG K) (emit Call_memory_leak_check) ;;
  bongocat_log_info "Cleanup complete, exiting with code %d" [ArgInt exit_code] ;;
  emit (Sys_exit exit_code).

(** lines 470-477 of [main]: the first load writes straight into [g_config] *)
Definition main_load_config (config_file : option string) : W bongocat_error_t :=
  '(result, config) <- load_config K config_file ;;
  modify (set_g_config config) ;;
  if negb (is_success result) then
    bongocat_log_error "Failed to load configuration: %s"
      [ArgStr (bongocat_error_string result)] ;;
    ret result
  else
    w <- get ;;
    bongocat_log_info "Screen dimensions: %dx%d"
      [ArgInt (screen_width (g_config w)); ArgInt (bar_height (g_config w))] ;;
    ret result.

End Main.

(** The process as [exec] leaves it: statics as their initializers say. *)
Definition zero_config : config_t :=
  mk_config 0 0 None 0 0 0 0 0 0 0 0 0 0 0 0 0 0 0 0 0 0 0.

Definition process_start (files : list (string * string)) (plan : list bool) : world :=
  {| trace := [];
     debug_enabled := 1;
     config_keyboard_devices := None;
     config_num_devices := 0;
     running := 0;
     g_config := zero_config;
     heap := [];
     alloc_plan := plan;
     fs := files;
     zombies := [];
     input_restart_result := BONGOCAT_SUCCESS |}.

(** A sample of header constants for the concrete runs below: two
    animations, four Bongocat frames, fifteen frames at most. *)
Definition sample_constants : header_constants :=
  {| DEFAULT_SCREEN_WIDTH := 1920;
     DEFAULT_BAR_HEIGHT := 40;
     TOTAL_ANIMATIONS := 2;
     BONGOCAT_ANIM_INDEX := 0;
     DM20_AGUMON_ANIM_INDEX := 1;
     BONGOCAT_NUM_FRAMES := 4;
     MAX_NUM_FRAMES := 15;
     DISABLE_MEMORY_STATISTICS := false;
     DEBUG := false |}.

(** ** Notions used to state the properties *)

(** The nearest value of [[lo, hi]]. *)
Definition clamp (lo hi x : Z) : Z :=
  if x <? lo then lo else if x >? hi then hi else x.

(** The frame-count bound [validate_config] compares [idle_frame] with, for
    an animation index that is already final. *)
Definition idle_frame_bound (K : header_constants) (index : Z) : Z :=
  if index =? BONGOCAT_ANIM_INDEX K then BONGOCAT_NUM_FRAMES K else MAX_NUM_FRAMES K.

Definition final_animation_index (K : header_constants) (index : Z) : Z :=
  if (index <? 0) || (index >=? TOTAL_ANIMATIONS K) then 0 else index.

(** The configuration [validate_config] leaves behind, field by field
    ([validate_config_runs] proves that this is what the code computes). *)
Definition sanitize (K : header_constants) (c : config_t) : config_t :=
  {| screen_width := screen_width c;
     bar_height := bar_height c;
     keyboard_devices := keyboard_devices c;
     num_keyboard_devices := num_keyboard_devices c;
     cat_x_offset := cat_x_offset c;
     cat_y_offset := cat_y_offset c;
     cat_height := clamp MIN_CAT_HEIGHT MAX_CAT_HEIGHT (cat_height c);
     overlay_height := clamp MIN_OVERLAY_HEIGHT MAX_OVERLAY_HEIGHT (overlay_height c);
     idle_frame :=
       (if (idle_frame c <? 0)
           || (idle_frame c
               >=? idle_frame_bound K (final_animation_index K (animation_index c)))
        then 0 else idle_frame c);
     keypress_duration := clamp MIN_DURATION MAX_DURATION (keypress_duration c);
     test_animation_duration :=
       clamp MIN_DURATION MAX_DURATION (test_animation_duration c);
     test_animation_interval := clamp 0 MAX_INTERVAL (test_animation_interval c);
     fps := clamp MIN_FPS MAX_FPS (fps c);
     overlay_opacity := clamp 0 255 (overlay_opacity c);
     enable_debug := (if enable_debug c =? 0 then 0 else 1);
     layer := layer c;
     overlay_position :=
       (if (overlay_position c =? POSITION_TOP) || (overlay_position c =? POSITION_BOTTOM)
        then overlay_position c else POSITION_TOP);
     animation_index := final_animation_index K (animation_index c);
     invert_color := (if invert_color c =? 0 then 0 else 1);
     crop_sprite := crop_sprite c;
     padding_x := padding_x c;
     padding_y := padding_y c |}.

(** The configuration part of [validate_config]'s result; the world it runs
    in only receives log lines ([validate_world_independent]). *)
Definition validate (K : header_constants) (c : config_t) : config_t :=
  snd (fst (validate_config K c (process_start [] []))).

(** [m], started in [w], returns [a] and appends exactly [l] to the trace,
    leaving the rest of the world as it was. *)
Definition runs {A : Type} (m : W A) (w : world) (a : A) (l : list event) : Prop :=
  m w = (a, set_trace (trace w ++ l) w).

Definition is_log (e : event) : bool :=
  match e with Log _ _ _ => true | _ => false end.

Definition is_warning (e : event) : bool :=
  match e with Log LOG_WARNING _ _ => true | _ => false end.





(** [m] keeps the invariant [P] of the world and returns a value that
    satisfies [Q]. *)
Definition triple {A : Type} (P : world -> Prop) (m : W A) (Q : A -> Prop) : Prop :=
  forall w, P w -> Q (fst (m w)) /\ P (snd (m w)).

(** An invariant that survives what the configuration code does to the
    world: log lines, changes of the device array and of its statics, and
    the consumption of an allocator answer. *)
Record config_stable (P : world -> Prop) : Prop := {
  stable_log : forall w e, is_log e = true -> P w -> P (set_trace (trace w ++ [e]) w);
  stable_heap : forall w h, P w -> P (set_heap h w);
  stable_devices : forall w p, P w -> P (set_config_keyboard_devices p w);
  stable_num : forall w n, P w -> P (set_config_num_devices n w);
  stable_plan : forall w ok rest,
    alloc_plan w = ok :: rest -> P w -> P (set_alloc_plan rest w)
}.


(** The same, except that the logger's debug flag may have been set. *)
Definition only_config_and_logger_state (w0 w' : world) : Prop :=
  running w' = running w0
  /\ g_config w' = g_config w0
  /\ fs w' = fs w0
  /\ zombies w' = zombies w0
  /\ input_restart_result w' = input_restart_result w0
  /\ exists l, trace w' = trace w0 ++ l /\ forallb is_log l = true.

(** No allocation of the plan fails. *)
Definition plan_ok (w : world) : Prop := forallb (fun ok => ok) (alloc_plan w) = true.

(** main.c, lines 234-238: the callback's log line and its call of
    [load_config] on the candidate file. *)
Definition reload_attempt (K : header_constants) (config_path : string) (w : world)
    : (bongocat_error_t * config_t) * world :=
  load_config K (Some config_path)
    (snd (bongocat_log_info "Reloading configuration from: %s" [ArgStr config_path] w)).

(** "The handler performs only flag writes": it leaves the trace and the
    terminated children as they are. *)
Definition handler_only_writes_flags : Prop :=
  forall (sig : Z) (w : world),
    trace (snd (signal_handler sig w)) = trace w
    /\ zombies (snd (signal_handler sig w)) = zombies w.

(** The cleanup steps among the events of a trace, and the order the
    specification gives for them. *)
Definition is_cleanup_step (e : event) : bool :=
  match e with
  | Sys_unlink _ | Call_config_watcher_cleanup | Call_animation_cleanup
  | Call_wayland_cleanup | Call_input_cleanup | Call_config_cleanup => true
  | _ => false
  end.

Definition claimed_shutdown_order : list event :=
  [Call_config_watcher_cleanup; Call_animation_cleanup; Call_wayland_cleanup;
   Call_input_cleanup; Call_config_cleanup; Sys_unlink PID_FILE].

(** The device paths a configuration gives access to, in array order. *)
Definition device_paths (h : list (option block)) (config : config_t)
    : list (option string) :=
  map (device_at h config) (seq 0 (Z.to_nat (num_keyboard_devices config))).

Definition same_path (a b : option string) : bool :=
  match a, b with
  | Some s, Some t => (s =? t)%string
  | None, None => true
  | _, _ => false
  end.

(** Order-insensitive comparison of two device lists as sets of paths. *)
Definition same_device_set (h : list (option block)) (old_config new_config : config_t)
    : bool :=
  forallb (fun a => existsb (same_path a) (device_paths h old_config))
          (device_paths h new_config)
  && forallb (fun a => existsb (same_path a) (device_paths h new_config))
             (device_paths h old_config).

Definition is_restart (e : event) : bool :=
  match e with Call_input_restart_monitoring _ _ _ _ => true | _ => false end.

(** What a reload appends to the trace once the candidate is loaded. *)
Definition reload_events (w1 : world) (temp : config_t) (changed : bool) : list event :=
  [Call_wayland_update_config temp]
  ++ (if changed then
        [Log LOG_INFO "Input devices changed, restarting input monitoring" [];
         Call_input_restart_monitoring temp (keyboard_devices temp)
           (num_keyboard_devices temp) (enable_debug temp);
         (if is_success (input_restart_result w1) then
            Log LOG_INFO "Input monitoring restarted successfully" []
          else
            Log LOG_ERROR "Failed to restart input monitoring: %s"
              [ArgStr (bongocat_error_string (input_restart_result w1))])]
      else [])
  ++ [Log LOG_INFO "Configuration reloaded successfully!" [];
      Log LOG_INFO "New screen dimensions: %dx%d"
        [ArgInt (screen_width temp); ArgInt (bar_height temp)]].

(** ** Concrete runs *)

Definition line (text : string) : string := (text ++ String NEWLINE EmptyString)%string.

(** A process that has loaded a [bongocat.conf] with the given content
    through [main], every allocation succeeding. *)
Definition started_with (content : string) : world :=
  snd (main_load_config sample_constants None
         (process_start [("bongocat.conf", content)] [])).

(** Two device arrays of two entries: the second repeats one path. *)
Definition two_arrays : list (option block) :=
  [Some [Some "/dev/input/event3"; Some "/dev/input/event7"];
   Some [Some "/dev/input/event3"; Some "/dev/input/event3"]].

Definition config_with_devices (p : ptr) (n : Z) : config_t :=
  set_num_keyboard_devices n (set_keyboard_devices (Some p) zero_config).

(** The keys [parse_key_value] compares the trimmed key with. *)
Definition known_key (key_start : string) : bool :=
  existsb (String.eqb key_start)
    ["cat_x_offset"; "cat_y_offset"; "cat_height"; "overlay_height"; "idle_frame";
     "keypress_duration"; "test_animation_duration"; "test_animation_interval";
     "fps"; "overlay_opacity"; "enable_debug"; "invert_color"; "overlay_position";
     "animation_name"; "keyboard_device"; "keyboard_devices"].

(** The text of a buffer filled by [fgets], as the loop body sees it after
    line 135. *)
Definition line_of (buf : string) : string := strip_newline (c_str buf).

(** What [load_config] returns in a fresh process when there is no file:
    the defaults of lines 237-256, the default device in the first heap
    block, the animation index as validation leaves it, and [bar_height]
    overwritten by the overlay height. *)
Definition loaded_defaults (K : header_constants) : config_t :=
  {| screen_width := DEFAULT_SCREEN_WIDTH K;
     bar_height := 50;
     keyboard_devices := Some 0%nat;
     num_keyboard_devices := 1;
     cat_x_offset := 100;
     cat_y_offset := 10;
     cat_height := 40;
     overlay_height := 50;
     idle_frame := 0;
     keypress_duration := 100;
     test_animation_duration := 200;
     test_animation_interval := 3;
     fps := 60;
     overlay_opacity := 150;
     enable_debug := 1;
     layer := 0;
     overlay_position := POSITION_TOP;
     animation_index := final_animation_index K (BONGOCAT_ANIM_INDEX K);
     invert_color := 0;
     crop_sprite := 0;
     padding_x := 0;
     padding_y := 0 |}.

Definition file_path_of (config_file_path : option string) : string :=
  match config_file_path with Some p => p | None => "bongocat.conf" end.

(** The device count of a configuration that [load_config] is filling in,
    against the static count: either no device was stored through it, or
    its count is the static count, which then lies above the count [n0] the
    load started from. *)
Definition counts_devices (n0 : Z) (c : config_t) (w : world) : Prop :=
  n0 <= config_num_devices w
  /\ (num_keyboard_devices c = 0
      \/ (num_keyboard_devices c = config_num_devices w
          /\ n0 < num_keyboard_devices c)).

(** The live configuration never counts more devices than the static array
    holds; every world that [main_load_config] and the reload callback
    produce is of this kind ([main_load_config_consistent],
    [config_reload_callback_total]). *)
Definition consistent (w : world) : Prop :=
  0 <= config_num_devices w
  /\ num_keyboard_devices (g_config w) <= config_num_devices w.

(** ** Shapes of configuration text *)

Fixpoint string_forall (p : ascii -> bool) (s : string) : bool :=
  match s with
  | EmptyString => true
  | String c rest => p c && string_forall p rest
  end.

(** A character of a token: neither white space nor NUL. *)
Definition is_token_char (c : ascii) : bool := negb (isspace c) && negb (c =? NUL)%char.

(** A key as the known keys are: a non-empty token without [=] that does
    not start a comment. *)
Definition is_key_text (key : string) : bool :=
  match key with
  | EmptyString => false
  | String c _ =>
      negb (c =? "#")%char
      && string_forall (fun c => is_token_char c && negb (c =? "=")%char) key
      && (String.length key <=? 255)%nat
  end.

(** A value as [%255s] reads it whole: a non-empty token of at most 255
    characters. *)
Definition is_value_text (value : string) : bool :=
  match value with
  | EmptyString => false
  | _ => string_forall is_token_char value && (String.length value <=? 255)%nat
  end.

(** What may follow the value on its line: nothing, or white space and then
    anything that is not NUL or a newline. *)
Definition is_trailing_text (rest : string) : bool :=
  match rest with
  | EmptyString => true
  | String c _ =>
      isspace c
      && string_forall (fun c => negb (c =? NUL)%char && negb (c =? NEWLINE)%char) rest
  end.

(** Blanks, as [trim_key] removes them and as they may surround [=]. *)
Definition is_blank_text (s : string) : bool := string_forall is_blank s.

(** The line [<blanks> key <blanks> = <blanks> value <rest>] with its
    newline, as one buffer filled by [fgets]. *)
Definition key_value_buffer (b1 key b2 b3 value rest : string) : string :=
  (b1 ++ key ++ b2 ++ "=" ++ b3 ++ value ++ rest ++ String NEWLINE EmptyString)%string.

(** The twelve keys whose value goes through [strtol], each with the field
    it is stored in (config.c, lines 153-176). *)
Definition integer_keys : list (string * (Z -> config_t -> config_t)) :=
  [("cat_x_offset", set_cat_x_offset);
   ("cat_y_offset", set_cat_y_offset);
   ("cat_height", set_cat_height);
   ("overlay_height", set_overlay_height);
   ("idle_frame", set_idle_frame);
   ("keypress_duration", set_keypress_duration);
   ("test_animation_duration", set_test_animation_duration);
   ("test_animation_interval", set_test_animation_interval);
   ("fps", set_fps);
   ("overlay_opacity", set_overlay_opacity);
   ("enable_debug", set_enable_debug);
   ("invert_color", set_invert_color)].

Definition INT_MIN : Z := -2147483648.
Definition INT_MAX : Z := 2147483647.

(** A line of the file without its newline: no NUL, no newline, and short
    enough for [fgets] to take it with its newline in one piece. *)
Definition is_line_text (text : string) : bool :=
  string_forall (fun c => negb (c =? NUL)%char && negb (c =? NEWLINE)%char) text
  && (String.length text <=? 510)%nat.

(** The file made of the given lines, each closed by a newline. *)
Fixpoint file_of_lines (lines : list string) : string :=
  match lines with
  | [] => EmptyString
  | text :: rest => (text ++ String NEWLINE EmptyString ++ file_of_lines rest)%string
  end.

(** The static device array holds exactly the paths [l], in this order. *)
Definition store_holds (w : world) (l : list string) : Prop :=
  exists q,
    config_keyboard_devices w = Some q
    /\ nth_error (heap w) q = Some (Some (map Some l))
    /\ config_num_devices w = Z.of_nat (List.length l).

(** The text of a line that names one keyboard device. *)
Definition device_text (path : string) : string := ("keyboard_device=" ++ path)%string.

(** lines 209-210 and 266-267: the configuration takes over the static
    array and its count. *)
Definition with_devices (w : world) (c : config_t) : config_t :=
  set_num_keyboard_devices (config_num_devices w)
    (set_keyboard_devices (config_keyboard_devices w) c).

(** A file that holds one [keyboard_device] line per path. *)
Definition device_file (paths : list string) : string :=
  file_of_lines (map device_text paths).

(** ** Warnings of [validate_config] *)




Definition is_error (e : event) : bool :=
  match e with Log LOG_ERROR _ _ => true | _ => false end.

(** [m] changes nothing but the trace, to which it appends events that
    satisfy [Q]. *)
Definition appends {A : Type} (Q : event -> bool) (m : W A) : Prop :=
  forall w, exists l, snd (m w) = set_trace (trace w ++ l) w /\ forallb Q l = true.

(** ** main.c: the command line *)

Definition EXIT_FAILURE : Z := 1.

(** lines 37-43 *)
Record cli_args_t : Type := mk_cli_args {
  config_file : option string;
  watch_config : bool;
  toggle_mode : bool;
  show_help : bool;
  show_version : bool
}.

Definition set_config_file (v : option string) (a : cli_args_t) : cli_args_t :=
  mk_cli_args v (watch_config a) (toggle_mode a) (show_help a) (show_version a).
Definition set_watch_config (v : bool) (a : cli_args_t) : cli_args_t :=
  mk_cli_args (config_file a) v (toggle_mode a) (show_help a) (show_version a).
Definition set_toggle_mode (v : bool) (a : cli_args_t) : cli_args_t :=
  mk_cli_args (config_file a) (watch_config a) v (show_help a) (show_version a).
Definition set_show_help (v : bool) (a : cli_args_t) : cli_args_t :=
  mk_cli_args (config_file a) (watch_config a) (toggle_mode a) v (show_version a).
Definition set_show_version (v : bool) (a : cli_args_t) : cli_args_t :=
  mk_cli_args (config_file a) (watch_config a) (toggle_mode a) (show_help a) v.

(** lines 390-410: the [for] loop at index [i], [rest] being
    [argv[i], ..., argv[argc - 1]] *)
Fixpoint cli_parse_loop (rest : list string) (args : cli_args_t) : W (Z * cli_args_t) :=
  match rest with
  | [] => ret (0, args)
  | arg :: rest' =>
      if ((arg =? "--help") || (arg =? "-h"))%string then
        cli_parse_loop rest' (set_show_help true args)
      else if ((arg =? "--version") || (arg =? "-v"))%string then
        cli_parse_loop rest' (set_show_version true args)
      else if ((arg =? "--config") || (arg =? "-c"))%string then
        match rest' with
        | path :: rest'' => cli_parse_loop rest'' (set_config_file (Some path) args)
        | [] =>
            bongocat_log_error "--config option requires a file path" [] ;;
            ret (EXIT_FAILURE, args)
        end
      else if ((arg =? "--watch-config") || (arg =? "-w"))%string then
        cli_parse_loop rest' (set_watch_config true args)
      else if ((arg =? "--toggle") || (arg =? "-t"))%string then
        cli_parse_loop rest' (set_toggle_mode true args)
      else
        bongocat_log_warning "Unknown argument: %s" [ArgStr arg] ;;
        cli_parse_loop rest' args
  end.

(** lines 380-413; [argv] holds [argc] strings, the program name first; the
    filled-in [*args] is returned with the status *)
Definition cli_parse_arguments (argv : list string) : W (Z * cli_args_t) :=
  cli_parse_loop (tl argv) (mk_cli_args None false false false false).

(** The spellings of the five options. *)
Definition is_help_option (arg : string) : bool :=
  ((arg =? "--help") || (arg =? "-h"))%string.
Definition is_version_option (arg : string) : bool :=
  ((arg =? "--version") || (arg =? "-v"))%string.
Definition is_config_option (arg : string) : bool :=
  ((arg =? "--config") || (arg =? "-c"))%string.
Definition is_watch_option (arg : string) : bool :=
  ((arg =? "--watch-config") || (arg =? "-w"))%string.
Definition is_toggle_option (arg : string) : bool :=
  ((arg =? "--toggle") || (arg =? "-t"))%string.

Definition is_unknown_argument (arg : string) : bool :=
  negb (is_help_option arg || is_version_option arg || is_config_option arg
        || is_watch_option arg || is_toggle_option arg).

Definition unknown_argument_warning (arg : string) : event :=
  Log LOG_WARNING "Unknown argument: %s" [ArgStr arg].

(** ** The process and the operating system *)

(** The system calls of main.c get their results from outside.  A process
    is the [world] together with [errno], the answers the operating system
    is going to give, one per call, and the calls made so far, each with the
    answer it got.  Log lines and [unlink] stay in the trace of the world;
    the order between the two records is not kept. *)

Inductive open_flags : Type :=
| O_RDONLY
| O_CREAT_WRONLY_TRUNC (mode : Z).

Inductive lock_operation : Type :=
| LOCK_EX_NB
| LOCK_SH_NB.

(** <errno.h> and <signal.h> on Linux *)
Definition EWOULDBLOCK : Z := 11.
Definition SIGKILL : Z := 9.
Definition SIGPIPE : Z := 13.

Inductive system_call : Type :=
| Os_open (path : string) (flags : open_flags)
| Os_flock (fd : Z) (operation : lock_operation)
| Os_close (fd : Z)
| Os_read (fd : Z) (count : nat)
| Os_write (fd : Z) (data : string)
| Os_getpid
| Os_kill (pid : Z) (sig : Z)
| Os_usleep (usec : Z)
| Os_sigaction (signum : Z)
| Os_signal_ignore (signum : Z)
| Os_printf (text : string).

(** What a call gives back: its return value, the [errno] it leaves when it
    fails, and for [read] the bytes that were available. *)
Record answer : Type := mk_answer {
  ans_value : Z;
  ans_errno : Z;
  ans_bytes : string
}.

Definition no_answer : answer := mk_answer 0 0 EmptyString.

Record process : Type := mk_process {
  proc_world : world;
  proc_errno : Z;
  proc_answers : list answer;
  proc_calls : list (system_call * answer)
}.

Definition M (A : Type) : Type := process -> A * process.

Definition mret {A : Type} (a : A) : M A := fun s => (a, s).

Definition mbind {A B : Type} (m : M A) (k : A -> M B) : M B :=
  fun s => let (a, s') := m s in k a s'.

Declare Scope m_scope.
Delimit Scope m_scope with M.
Notation "x <- m ;; k" := (mbind m (fun x => k))
  (at level 61, m at next level, right associativity) : m_scope.
Notation "m ;; k" := (mbind m (fun _ => k))
  (at level 61, right associativity) : m_scope.
Notation "' pat <- m ;; k" := (mbind m (fun x => match x with pat => k end))
  (at level 61, pat pattern, m at next level, right associativity) : m_scope.
Local Open Scope m_scope.

(** A computation of config.c, error.c or of the first part of main.c, run
    inside the process. *)
Definition lift {A : Type} (m : W A) : M A :=
  fun s =>
    let (a, w) := m (proc_world s) in
    (a, mk_process w (proc_errno s) (proc_answers s) (proc_calls s)).

Definition errno : M Z := fun s => (proc_errno s, s).

(** One system call: the next answer, or [no_answer] when the answers are
    used up.  [errno] is written by a call that fails and left alone by one
    that succeeds, as the system call wrappers of the C library do. *)
Definition call (c : system_call) : M answer :=
  fun s =>
    let a := hd no_answer (proc_answers s) in
    (a, mk_process (proc_world s)
          (if ans_value a <? 0 then ans_errno a else proc_errno s)
          (tl (proc_answers s))
          (proc_calls s ++ [(c, a)])).

(** [printf("%d", n)] *)
Fixpoint decimal_digits (fuel : nat) (n : Z) (acc : string) : string :=
  match fuel with
  | O => acc
  | S fuel' =>
      let acc' := String (ascii_of_nat (48 + Z.to_nat (n mod 10))) acc in
      if n <? 10 then acc' else decimal_digits fuel' (n / 10) acc'
  end.

Definition print_int (n : Z) : string :=
  if n <? 0 then String "-" (decimal_digits 20 (- n) EmptyString)
  else decimal_digits 20 n EmptyString.

(** line 69: [snprintf(pid_str, sizeof(pid_str), "%d\n", getpid())] with the
    32-byte buffer *)
Definition snprintf_pid (pid : Z) : string :=
  substring 0 31 (print_int pid ++ String NEWLINE EmptyString).

(** [atoi], which the C library defines as [(int)strtol(nptr, NULL, 10)] *)
Definition atoi (nptr : string) : Z := int_of_long (strtol (c_str nptr)).

(** [read(fd, buf, count)]: the return value and the bytes stored *)
Definition read_result (count : nat) (a : answer) : Z * string :=
  if ans_value a <? 0 then (-1, EmptyString)
  else
    let b := substring 0 count (ans_bytes a) in
    (Z.of_nat (String.length b), b).

Section Process.

(** [strerror] of <string.h> *)
Variable strerror : Z -> string.

(** main.c, lines 49-75 *)
Definition process_create_pid_file : M Z :=
  a <- call (Os_open PID_FILE (O_CREAT_WRONLY_TRUNC 420)) ;;
  let fd := ans_value a in
  if fd <? 0 then
    e <- errno ;;
    lift (bongocat_log_error "Failed to create PID file: %s" [ArgStr (strerror e)]) ;;
    mret (-1)
  else
    a <- call (Os_flock fd LOCK_EX_NB) ;;
    if ans_value a <? 0 then
      call (Os_close fd) ;;
      e <- errno ;;
      if e =? EWOULDBLOCK then
        lift (bongocat_log_info "Another instance is already running" []) ;;
        mret (-2)
      else
        lift (bongocat_log_error "Failed to lock PID file: %s" [ArgStr (strerror e)]) ;;
        mret (-1)
    else
      pid <- call Os_getpid ;;
      a <- call (Os_write fd (snprintf_pid (ans_value pid))) ;;
      if ans_value a <? 0 then
        e <- errno ;;
        lift (bongocat_log_error "Failed to write PID to file: %s" [ArgStr (strerror e)]) ;;
        call (Os_close fd) ;;
        mret (-1)
      else mret fd.

(** lines 100-122: from [read] on, with the descriptor that is open *)
Definition read_running_pid (fd : Z) : M Z :=
  a <- call (Os_read fd 31) ;;
  call (Os_close fd) ;;
  let (bytes_read, pid_str) := read_result 31 a in
  if bytes_read <=? 0 then mret (-1)
  else
    let pid := atoi pid_str in
    if pid <=? 0 then mret (-1)
    else
      a <- call (Os_kill pid 0) ;;
      if ans_value a =? 0 then mret pid
      else
        lift process_remove_pid_file ;;
        mret (-1).

(** lines 81-123 *)
Definition process_get_running_pid : M Z :=
  a <- call (Os_open PID_FILE O_RDONLY) ;;
  let fd := ans_value a in
  if fd <? 0 then mret (-1)
  else
    a <- call (Os_flock fd LOCK_SH_NB) ;;
    if ans_value a <? 0 then
      call (Os_close fd) ;;
      e <- errno ;;
      if e =? EWOULDBLOCK then
        a <- call (Os_open PID_FILE O_RDONLY) ;;
        let fd := ans_value a in
        if fd <? 0 then mret (-1) else read_running_pid fd
      else mret (-1)
    else read_running_pid fd.

(** lines 133-139: the [for] loop with [rounds] rounds left; [true] is the
    [return 0] inside the loop *)
Fixpoint wait_for_exit (rounds : nat) (running_pid : Z) : M bool :=
  match rounds with
  | O => mret false
  | S rounds' =>
      a <- call (Os_kill running_pid 0) ;;
      if negb (ans_value a =? 0) then
        lift (bongocat_log_info "Bongocat stopped successfully" []) ;;
        mret true
      else
        call (Os_usleep 100000) ;;
        wait_for_exit rounds' running_pid
  end.

(** lines 125-155 *)
Definition process_handle_toggle : M Z :=
  running_pid <- process_get_running_pid ;;
  if running_pid >? 0 then
    lift (bongocat_log_info "Stopping bongocat (PID: %d)" [ArgInt running_pid]) ;;
    a <- call (Os_kill running_pid SIGTERM) ;;
    if ans_value a =? 0 then
      stopped <- wait_for_exit 50 running_pid ;;
      if stopped then mret 0
      else
        lift (bongocat_log_warning "Force killing bongocat" []) ;;
        call (Os_kill running_pid SIGKILL) ;;
        lift (bongocat_log_info "Bongocat force stopped" []) ;;
        mret 0
    else
      e <- errno ;;
      lift (bongocat_log_error "Failed to stop bongocat: %s" [ArgStr (strerror e)]) ;;
      mret 1
  else
    lift (bongocat_log_info "Bongocat is not running, starting it now" []) ;;
    mret (-1).

(** lines 178-205 *)
Definition signal_setup_handlers : M bongocat_error_t :=
  a <- call (Os_sigaction SIGINT) ;;
  if ans_value a =? -1 then
    e <- errno ;;
    lift (bongocat_log_error "Failed to setup SIGINT handler: %s" [ArgStr (strerror e)]) ;;
    mret BONGOCAT_ERROR_THREAD
  else
    a <- call (Os_sigaction SIGTERM) ;;
    if ans_value a =? -1 then
      e <- errno ;;
      lift (bongocat_log_error "Failed to setup SIGTERM handler: %s" [ArgStr (strerror e)]) ;;
      mret BONGOCAT_ERROR_THREAD
    else
      a <- call (Os_sigaction SIGCHLD) ;;
      if ans_value a =? -1 then
        e <- errno ;;
        lift (bongocat_log_error "Failed to setup SIGCHLD handler: %s"
                [ArgStr (strerror e)]) ;;
        mret BONGOCAT_ERROR_THREAD
      else
        call (Os_signal_ignore SIGPIPE) ;;
        mret BONGOCAT_SUCCESS.

End Process.

(** The calls made between two states of the process, the descriptors
    opened and closed by a list of calls, and the signals sent. *)
Definition calls_since (s s' : process) : list (system_call * answer) :=
  skipn (List.length (proc_calls s)) (proc_calls s').

Fixpoint opened (calls : list (system_call * answer)) : list Z :=
  match calls with
  | [] => []
  | (Os_open _ _, a) :: rest =>
      if ans_value a <? 0 then opened rest else ans_value a :: opened rest
  | _ :: rest => opened rest
  end.

Fixpoint closed (calls : list (system_call * answer)) : list Z :=
  match calls with
  | [] => []
  | (Os_close fd, _) :: rest => fd :: closed rest
  | _ :: rest => closed rest
  end.

Fixpoint signals_sent (calls : list (system_call * answer)) : list (Z * Z) :=
  match calls with
  | [] => []
  | (Os_kill pid sig, _) :: rest => (pid, sig) :: signals_sent rest
  | _ :: rest => signals_sent rest
  end.

Local Close Scope m_scope.

(** [m], started in [s], makes exactly the calls [l]. *)
Definition makes_calls {A : Type} (m : M A) (s : process)
    (l : list (system_call * answer)) : Prop :=
  proc_calls (snd (m s)) = proc_calls s ++ l.

Fixpoint sleeps (calls : list (system_call * answer)) : list Z :=
  match calls with
  | [] => []
  | (Os_usleep usec, _) :: rest => usec :: sleeps rest
  | _ :: rest => sleeps rest
  end.

Fixpoint handlers_installed (calls : list (system_call * answer)) : list Z :=
  match calls with
  | [] => []
  | (Os_sigaction signum, a) :: rest =>
      if ans_value a =? -1 then handlers_installed rest
      else signum :: handlers_installed rest
  | _ :: rest => handlers_installed rest
  end.

Fixpoint signals_ignored (calls : list (system_call * answer)) : list Z :=
  match calls with
  | [] => []
  | (Os_signal_ignore signum, _) :: rest => signum :: signals_ignored rest
  | _ :: rest => signals_ignored rest
  end.

(** ** main.c: start-up *)

(** How [main] ends. *)
Inductive outcome : Type :=
| Returned (status : Z)
| Exited (status : Z)
| Aborted.

Section Program.

Variable strerror : Z -> string.
Variable K : header_constants.

(** The version string of [core/bongocat.h]. *)
Variable BONGOCAT_VERSION : string.

(** The functions of the renderer, the animator, the input monitor and the
    configuration watcher that [main] calls.  Their sources are not part of
    this development: each is some computation on the world, and the event
    loop [wayland_run] includes whatever the signal handler and the reload
    callback do while it runs.  [setup_assertions] is the conjunction of the
    three [assert]s of lines 491-493, which test fields that [wayland_init]
    and [animation_init] have set. *)
Variables wayland_init animation_init animation_start wayland_run : W bongocat_error_t.
Variable input_start_monitoring : option ptr -> Z -> Z -> W bongocat_error_t.
Variable config_watcher_init : string -> W Z.
Variable config_watcher_start : W unit.
Variable setup_assertions : W bool.

(** lines 271-282 *)
Definition config_setup_watcher (config_file : option string) : W bongocat_error_t :=
  let watch_path := match config_file with Some p => p | None => "bongocat.conf" end in
  r <- config_watcher_init watch_path ;;
  if r =? 0 then
    config_watcher_start ;;
    bongocat_log_info "Config file watching enabled for: %s" [ArgStr watch_path] ;;
    ret BONGOCAT_SUCCESS
  else
    bongocat_log_warning
      "Failed to initialize config watcher, continuing without hot-reload" [] ;;
    ret BONGOCAT_ERROR_CONFIG.

(** lines 288-321 *)
Definition system_initialize_components : W bongocat_error_t :=
  result <- wayland_init ;;
  if negb (is_success result) then
    bongocat_log_error "Failed to initialize Wayland: %s"
      [ArgStr (bongocat_error_string result)] ;;
    ret result
  else
    result <- animation_init ;;
    if negb (is_success result) then
      bongocat_log_error "Failed to initialize animation system: %s"
        [ArgStr (bongocat_error_string result)] ;;
      ret result
    else
      w <- get ;;
      result <- input_start_monitoring (keyboard_devices (g_config w))
                  (num_keyboard_devices (g_config w)) (enable_debug (g_config w)) ;;
      if negb (is_success result) then
        bongocat_log_error "Failed to start input monitoring: %s"
          [ArgStr (bongocat_error_string result)] ;;
        ret result
      else
        result <- animation_start ;;
        if negb (is_success result) then
          bongocat_log_error "Failed to start animation thread: %s"
            [ArgStr (bongocat_error_string result)] ;;
          ret result
        else ret BONGOCAT_SUCCESS.

(** lines 479-507 of [main]: from the watcher to the end *)
Definition main_run (args : cli_args_t) : W outcome :=
  when (watch_config args) (config_setup_watcher (config_file args) ;; ret tt) ;;
  result <- system_initialize_components ;;
  if negb (is_success result) then
    system_cleanup_and_exit K 1 ;;
    ret (Exited 1)
  else
    ok <- setup_assertions ;;
    if negb ok then ret Aborted
    else
      bongocat_log_info "Bongo Cat Overlay started successfully" [] ;;
      result <- wayland_run ;;
      if negb (is_success result) then
        bongocat_log_error "Wayland event loop error: %s"
          [ArgStr (bongocat_error_string result)] ;;
        system_cleanup_and_exit K 1 ;;
        ret (Exited 1)
      else
        bongocat_log_info "Main loop exited, shutting down" [] ;;
        system_cleanup_and_exit K 0 ;;
        ret (Exited 0).

Local Open Scope m_scope.

Definition printf_line (text : string) : M unit :=
  call (Os_printf (text ++ String NEWLINE EmptyString)) ;; mret tt.

(** lines 363-373 *)
Definition cli_show_help (program_name : string) : M unit :=
  printf_line "Bongo Cat Wayland Overlay" ;;
  printf_line ("Usage: " ++ program_name ++ " [options]") ;;
  printf_line "Options:" ;;
  printf_line "  -h, --help            Show this help message" ;;
  printf_line "  -v, --version         Show version information" ;;
  printf_line "  -c, --config          Specify config file (default: bongocat.conf)" ;;
  printf_line
    "  -w, --watch-config    Watch config file for changes and reload automatically" ;;
  printf_line
    "  -t, --toggle          Toggle bongocat on/off (start if not running, stop if running)" ;;
  printf_line
    (String NEWLINE
       "Configuration is loaded from bongocat.conf in the current directory.").

(** lines 375-378 *)
Definition cli_show_version : M unit :=
  printf_line ("Bongo Cat Overlay v" ++ BONGOCAT_VERSION) ;;
  printf_line "Built with fast optimizations".

(** lines 453-507 of [main]: from the signal handlers on *)
Definition main_startup (args : cli_args_t) : M outcome :=
  result <- signal_setup_handlers strerror ;;
  if negb (is_success result) then
    lift (bongocat_log_error "Failed to setup signal handlers: %s"
            [ArgStr (bongocat_error_string result)]) ;;
    mret (Returned EXIT_FAILURE)
  else
    pid_fd <- process_create_pid_file strerror ;;
    if pid_fd =? -2 then
      lift (bongocat_log_error "Another instance of bongocat is already running" []) ;;
      mret (Returned EXIT_FAILURE)
    else if pid_fd <? 0 then
      lift (bongocat_log_error "Failed to create PID file" []) ;;
      mret (Returned EXIT_FAILURE)
    else
      result <- lift (main_load_config K (config_file args)) ;;
      if negb (is_success result) then mret (Returned EXIT_FAILURE)
      else lift (main_run args).

(** lines 419-508; [argv] holds [argc >= 1] strings *)
Definition main (argv : list string) : M outcome :=
  lift (bongocat_error_init 1) ;;
  lift (bongocat_log_info ("Starting Bongo Cat Overlay v" ++ BONGOCAT_VERSION) []) ;;
  ' (status, args) <- lift (cli_parse_arguments argv) ;;
  if negb (status =? 0) then mret (Returned 1)
  else if show_help args then
    cli_show_help (hd EmptyString argv) ;;
    mret (Returned 0)
  else if show_version args then
    cli_show_version ;;
    mret (Returned 0)
  else if toggle_mode args then
    toggle_result <- process_handle_toggle strerror ;;
    if toggle_result >=? 0 then mret (Returned toggle_result)
    else main_startup args
  else main_startup args.

Local Close Scope m_scope.

End Program.

(** The system calls of a list of calls that are not [printf]. *)
Definition is_printf (c : system_call * answer) : bool :=
  match fst c with Os_printf _ => true | _ => false end.

(** The calls by which a process installs its handlers and takes the
    exclusive lock on the PID file, all of them successful: lines 453-468 of
    [main] when nothing fails. *)
Definition holds_lock (l : list (system_call * answer)) : Prop :=
  exists (fd : Z) (a1 a2 a3 a4 a5 a6 a7 a8 : answer),
    l = [(Os_sigaction SIGINT, a1); (Os_sigaction SIGTERM, a2);
         (Os_sigaction SIGCHLD, a3); (Os_signal_ignore SIGPIPE, a4);
         (Os_open PID_FILE (O_CREAT_WRONLY_TRUNC 420), a5);
         (Os_flock fd LOCK_EX_NB, a6); (Os_getpid, a7);
         (Os_write fd (snprintf_pid (ans_value a7)), a8)]
    /\ ans_value a1 <> -1 /\ ans_value a2 <> -1 /\ ans_value a3 <> -1
    /\ ans_value a5 = fd /\ 0 <= fd /\ 0 <= ans_value a6 /\ 0 <= ans_value a8.

(** ** Files of assignments *)

(** The text of the line [key=value]. *)
Definition assignment_text (key value : string) : string :=
  (key ++ "=" ++ value)%string.

(** What a line [key=value] with one of the twelve integer keys does to the
    configuration. *)
Definition assign (c : config_t) (kv : string * string) : config_t :=
  match find (fun p => (fst p =? fst kv)%string) integer_keys with
  | Some (_, set) => set (int_of_long (strtol (snd kv))) c
  | None => c
  end.

Definition assignment_file (kvs : list (string * string)) : string :=
  file_of_lines (map (fun kv => assignment_text (fst kv) (snd kv)) kvs).

(** ** Debug lines *)

(** [m] appends to the trace events that satisfy [Q], whatever else it does
    to the world. *)
Definition prints {A : Type} (Q : event -> bool) (m : W A) : Prop :=
  forall w, exists l, trace (snd (m w)) = trace w ++ l /\ forallb Q l = true.

(** A log line that is not a debug line. *)
Definition is_plain_log (e : event) : bool :=
  match e with
  | Log LOG_DEBUG _ _ => false
  | Log _ _ _ => true
  | _ => false
  end.

(** The lines of lines 292-305 as they are printed with debugging on. *)
Definition loaded_summary (K : header_constants) (c : config_t) : list event :=
  trace (snd (log_loaded_config K c (process_start [] []))).

(** * Theorems *)

(** ** The state monad *)

Lemma set_trace_nil (w : world) : set_trace (trace w ++ []) w = w.
Proof. destruct w; cbn. now rewrite app_nil_r. Qed.

Lemma set_trace_app (w : world) (l1 l2 : list event) :
  set_trace (trace (set_trace (trace w ++ l1) w) ++ l2) (set_trace (trace w ++ l1) w)
  = set_trace (trace w ++ (l1 ++ l2)) w.
Proof. destruct w; cbn. now rewrite app_assoc. Qed.

Lemma runs_ret {A : Type} (a : A) (w : world) : runs (ret a) w a [].
Proof. unfold runs, ret. now rewrite set_trace_nil. Qed.

Lemma runs_bind {A B : Type} (m : W A) (k : A -> W B) (w : world)
    (a : A) (b : B) (l1 l2 : list event) :
  runs m w a l1 ->
  runs (k a) (set_trace (trace w ++ l1) w) b l2 ->
  runs (bind m k) w b (l1 ++ l2).
Proof.
  unfold runs, bind. intros -> ->. now rewrite set_trace_app.
Qed.

(** ** [validate_config] *)

Lemma clamp_max_min (lo hi x : Z) :
  lo <= hi -> clamp lo hi x = Z.max lo (Z.min hi x).
Proof. unfold clamp. intros H. destruct (Z.ltb_spec x lo), (Z.gtb_spec x hi); lia. Qed.

Lemma clamp_idem (lo hi x : Z) :
  lo <= hi -> clamp lo hi (clamp lo hi x) = clamp lo hi x.
Proof. intros H. rewrite !clamp_max_min by assumption. lia. Qed.

(** A guarded update [if (out of range) { warn; field = bound; }] followed by
    nothing else: one warning at most, the world otherwise untouched. *)
Lemma runs_guarded {A : Type} (b : bool) (f : string) (args : list fmt_arg)
    (x y r : A) (w : world) :
  (if b then x else y) = r ->
  exists l, runs (if b then (bongocat_log_warning f args ;; ret x) else ret y) w r l
            /\ forallb is_warning l = true.
Proof.
  intros <-. destruct b.
  - exists [Log LOG_WARNING f args]. split; reflexivity.
  - exists []. split; [apply runs_ret | reflexivity].
Qed.

Section ValidateFacts.

Variable K : header_constants.

Ltac guarded_block :=
  intros c w; apply runs_guarded; destruct c; cbn; unfold clamp;
  repeat match goal with
         | |- context [?a <? ?b] => destruct (Z.ltb_spec a b)
         | |- context [?a >? ?b] => destruct (Z.gtb_spec a b)
         | |- context [?a >=? ?b] => destruct (Z.geb_spec a b)
         | |- context [?a =? ?b] => destruct (Z.eqb_spec a b)
         end; cbn; try reflexivity; try lia.

Lemma validate_cat_height_runs : forall c w,
  exists l, runs (validate_cat_height c) w
              (set_cat_height (clamp MIN_CAT_HEIGHT MAX_CAT_HEIGHT (cat_height c)) c) l
            /\ forallb is_warning l = true.
Proof. guarded_block. Qed.

Lemma validate_overlay_height_runs : forall c w,
  exists l, runs (validate_overlay_height c) w
              (set_overlay_height
                 (clamp MIN_OVERLAY_HEIGHT MAX_OVERLAY_HEIGHT (overlay_height c)) c) l
            /\ forallb is_warning l = true.
Proof. guarded_block. Qed.

Lemma validate_fps_runs : forall c w,
  exists l, runs (validate_fps c) w (set_fps (clamp MIN_FPS MAX_FPS (fps c)) c) l
            /\ forallb is_warning l = true.
Proof. guarded_block. Qed.

Lemma validate_keypress_duration_runs : forall c w,
  exists l, runs (validate_keypress_duration c) w
              (set_keypress_duration
                 (clamp MIN_DURATION MAX_DURATION (keypress_duration c)) c) l
            /\ forallb is_warning l = true.
Proof. guarded_block. Qed.

Lemma validate_test_animation_duration_runs : forall c w,
  exists l, runs (validate_test_animation_duration c) w
              (set_test_animation_duration
                 (clamp MIN_DURATION MAX_DURATION (test_animation_duration c)) c) l
            /\ forallb is_warning l = true.
Proof. guarded_block. Qed.

Lemma validate_test_animation_interval_runs : forall c w,
  exists l, runs (validate_test_animation_interval c) w
              (set_test_animation_interval
                 (clamp 0 MAX_INTERVAL (test_animation_interval c)) c) l
            /\ forallb is_warning l = true.
Proof. guarded_block. Qed.

Lemma validate_overlay_opacity_runs : forall c w,
  exists l, runs (validate_overlay_opacity c) w
              (set_overlay_opacity (clamp 0 255 (overlay_opacity c)) c) l
            /\ forallb is_warning l = true.
Proof. guarded_block. Qed.

Lemma validate_animation_index_runs : forall c w,
  exists l, runs (validate_animation_index K c) w
              (set_animation_index (final_animation_index K (animation_index c)) c) l
            /\ forallb is_warning l = true.
Proof. unfold final_animation_index. guarded_block. Qed.

Lemma validate_idle_frame_runs : forall c w,
  exists l, runs (validate_idle_frame K c) w
              (set_idle_frame
                 (if (idle_frame c <? 0)
                     || (idle_frame c >=? idle_frame_bound K (animation_index c))
                  then 0 else idle_frame c) c) l
            /\ forallb is_warning l = true.
Proof.
  intros c w. unfold validate_idle_frame, idle_frame_bound.
  destruct (animation_index c =? BONGOCAT_ANIM_INDEX K);
    apply runs_guarded; destruct c; cbn;
    match goal with |- context [?a || ?b] => destruct (a || b) end; reflexivity.
Qed.

Lemma validate_flags_runs : forall c w,
  exists l, runs (validate_flags c) w
              (set_invert_color (if invert_color c =? 0 then 0 else 1)
                 (set_enable_debug (if enable_debug c =? 0 then 0 else 1) c)) l
            /\ forallb is_warning l = true.
Proof.
  intros c w. exists []. split; [|reflexivity].
  unfold validate_flags. destruct c; cbn. apply runs_ret.
Qed.

Lemma validate_overlay_position_runs : forall c w,
  exists l, runs (validate_overlay_position c) w
              (set_overlay_position
                 (if (overlay_position c =? POSITION_TOP)
                     || (overlay_position c =? POSITION_BOTTOM)
                  then overlay_position c else POSITION_TOP) c) l
            /\ forallb is_warning l = true.
Proof.
  intros c w. apply runs_guarded. destruct c; cbn.
  destruct (_ =? POSITION_TOP), (_ =? POSITION_BOTTOM); reflexivity.
Qed.

Lemma validate_cat_x_offset_runs : forall c w,
  exists l, runs (validate_cat_x_offset c) w c l /\ forallb is_warning l = true.
Proof.
  intros c w. unfold validate_cat_x_offset, when.
  destruct (Z.abs (cat_x_offset c) >? screen_width c).
  - eexists. split; [reflexivity | reflexivity].
  - exists []. split; [|reflexivity]. unfold runs, bind, ret. now rewrite set_trace_nil.
Qed.

(** Sequencing two computations that only warn. *)
Lemma runs_bind_warn {A B : Type} (m : W A) (k : A -> W B) (w : world) (a : A) (b : B) :
  (exists l, runs m w a l /\ forallb is_warning l = true) ->
  (forall w', exists l, runs (k a) w' b l /\ forallb is_warning l = true) ->
  exists l, runs (bind m k) w b l /\ forallb is_warning l = true.
Proof.
  intros (l1 & R1 & W1) H.
  destruct (H (set_trace (trace w ++ l1) w)) as (l2 & R2 & W2).
  exists (l1 ++ l2). split.
  - eapply runs_bind; eassumption.
  - rewrite forallb_app, W1, W2. reflexivity.
Qed.

(** [validate_config] succeeds on every configuration, returns [sanitize]
    of it, and appends warnings only. *)
Lemma validate_config_runs (c : config_t) (w : world) :
  exists l, runs (validate_config K c) w (BONGOCAT_SUCCESS, sanitize K c) l
            /\ forallb is_warning l = true.
Proof.
  unfold validate_config.
  eapply runs_bind_warn; [apply validate_cat_height_runs | intros w1].
  eapply runs_bind_warn; [apply validate_overlay_height_runs | intros w2].
  eapply runs_bind_warn; [apply validate_fps_runs | intros w3].
  eapply runs_bind_warn; [apply validate_keypress_duration_runs | intros w4].
  eapply runs_bind_warn; [apply validate_test_animation_duration_runs | intros w5].
  eapply runs_bind_warn; [apply validate_test_animation_interval_runs | intros w6].
  eapply runs_bind_warn; [apply validate_overlay_opacity_runs | intros w7].
  eapply runs_bind_warn; [apply validate_animation_index_runs | intros w8].
  eapply runs_bind_warn; [apply validate_idle_frame_runs | intros w9].
  eapply runs_bind_warn; [apply validate_flags_runs | intros w10].
  eapply runs_bind_warn; [apply validate_overlay_position_runs | intros w11].
  eapply runs_bind_warn; [apply validate_cat_x_offset_runs | intros w12].
  exists []. split; [|reflexivity].
  destruct c; apply runs_ret.
Qed.

Lemma validate_sanitize (c : config_t) : validate K c = sanitize K c.
Proof.
  unfold validate. destruct (validate_config_runs c (process_start [] [])) as (l & R & _).
  now rewrite R.
Qed.

Lemma validate_world_independent (c : config_t) (w : world) :
  snd (fst (validate_config K c w)) = validate K c.
Proof.
  rewrite validate_sanitize.
  destruct (validate_config_runs c w) as (l & R & _). now rewrite R.
Qed.

End ValidateFacts.

(** ** Invariants of the configuration code *)

Section Triples.

Context {A B : Type}.
Variable P : world -> Prop.

Lemma triple_ret (a : A) (Q : A -> Prop) : Q a -> triple P (ret a) Q.
Proof. intros H w Hw. split; assumption. Qed.

Lemma triple_bind (m : W A) (k : A -> W B) (Q1 : A -> Prop) (Q2 : B -> Prop) :
  triple P m Q1 -> (forall a, Q1 a -> triple P (k a) Q2) -> triple P (bind m k) Q2.
Proof.
  intros Hm Hk w Hw. unfold bind.
  destruct (Hm w Hw) as [Ha Hw1]. destruct (m w) as [a w1]. cbn in *.
  exact (Hk a Ha w1 Hw1).
Qed.

Lemma triple_bind_any (m : W A) (k : A -> W B) (Q : B -> Prop) :
  triple P m (fun _ => True) -> (forall a, triple P (k a) Q) -> triple P (bind m k) Q.
Proof. intros Hm Hk. eapply triple_bind; [exact Hm | intros a _; apply Hk]. Qed.

End Triples.

Create HintDb triple.

Section StableInvariant.

Variable P : world -> Prop.
Hypothesis P_stable : config_stable P.

Lemma triple_get : triple P get (fun _ => True).
Proof. intros w Hw. split; [exact I | exact Hw]. Qed.

Lemma triple_log (level : log_level) (f : string) (args : list fmt_arg) :
  triple P (emit (Log level f args)) (fun _ => True).
Proof. intros w Hw. split; [exact I|]. cbn. now apply (stable_log P P_stable). Qed.

Lemma triple_log_error f args : triple P (bongocat_log_error f args) (fun _ => True).
Proof. apply triple_log. Qed.

Lemma triple_log_warning f args : triple P (bongocat_log_warning f args) (fun _ => True).
Proof. apply triple_log. Qed.

Lemma triple_log_info f args : triple P (bongocat_log_info f args) (fun _ => True).
Proof. apply triple_log. Qed.

Lemma triple_log_debug f args : triple P (bongocat_log_debug f args) (fun _ => True).
Proof.
  intros w Hw. unfold bongocat_log_debug, bind, get.
  destruct (debug_enabled w =? 0).
  - split; [exact I | exact Hw].
  - now apply triple_log.
Qed.

Lemma triple_set_devices p :
  triple P (modify (set_config_keyboard_devices p)) (fun _ => True).
Proof. intros w Hw. split; [exact I|]. now apply (stable_devices P P_stable). Qed.

Lemma triple_set_num n : triple P (modify (set_config_num_devices n)) (fun _ => True).
Proof. intros w Hw. split; [exact I|]. now apply (stable_num P P_stable). Qed.

Lemma triple_set_heap h : triple P (modify (set_heap h)) (fun _ => True).
Proof. intros w Hw. split; [exact I|]. now apply (stable_heap P P_stable). Qed.

Lemma triple_next_alloc : triple P next_alloc (fun _ => True).
Proof.
  intros w Hw. split; [exact I|]. unfold next_alloc.
  destruct (alloc_plan w) eqn:E; [exact Hw|]. cbn.
  now apply (stable_plan P P_stable w b l).
Qed.

Lemma triple_new_block n : triple P (new_block n) (fun _ => True).
Proof. intros w Hw. split; [exact I|]. now apply (stable_heap P P_stable). Qed.

Lemma triple_store_slot q i s : triple P (store_slot q i s) (fun _ => True).
Proof.
  intros w Hw. split; [exact I|]. unfold store_slot, modify. cbn.
  destruct (nth_error (heap w) q) as [[b|]|]; try exact Hw.
  now apply (stable_heap P P_stable).
Qed.

Hint Resolve triple_get triple_log_error triple_log_warning triple_log_info
  triple_log_debug triple_set_devices triple_set_num triple_set_heap
  triple_next_alloc triple_new_block triple_store_slot : triple.

(** Walks through a computation built from the primitives above. *)
Ltac triple_walk :=
  repeat first
    [ apply triple_ret; exact I
    | apply triple_bind_any; [ solve [auto with triple] | intros ]
    | solve [auto with triple]
    | match goal with
      | |- triple _ (if ?b then _ else _) _ => destruct b
      | |- triple _ (match ?x with _ => _ end) _ => destruct x
      | |- triple _ (when ?b _) _ => unfold when; destruct b
      end
    | apply triple_bind_any; [ | intros ] ].

Lemma triple_malloc_array n : triple P (malloc_array n) (fun _ => True).
Proof. unfold malloc_array. triple_walk. Qed.

Lemma triple_realloc_array p n : triple P (realloc_array p n) (fun _ => True).
Proof.
  unfold realloc_array.
  apply triple_bind_any; [auto with triple | intros ok].
  destruct ok; [|apply triple_ret; exact I].
  destruct p as [q|]; [|auto with triple].
  intros w Hw. unfold bind, get, modify, ret.
  destruct (nth_error (heap w) q) as [[b|]|]; cbn.
  - split; [exact I|]. now apply (stable_heap P P_stable).
  - now apply triple_new_block.
  - now apply triple_new_block.
Qed.

Hint Resolve triple_malloc_array triple_realloc_array : triple.

Lemma triple_add_keyboard_device value c r :
  triple P (add_keyboard_device value c r) (fun _ => True).
Proof. unfold add_keyboard_device. triple_walk. Qed.

Hint Resolve triple_add_keyboard_device : triple.

Lemma triple_parse_key_value K n key value c r :
  triple P (parse_key_value K n key value c r) (fun _ => True).
Proof. unfold parse_key_value. triple_walk. Qed.

Lemma triple_parse_line K n buf c r :
  triple P (parse_line K n buf c r) (fun _ => True).
Proof.
  unfold parse_line.
  destruct (line_is_skipped _); [apply triple_ret; exact I|].
  destruct (sscanf_key_value _) as [[k key] value].
  destruct (k =? 2); [apply triple_parse_key_value|].
  triple_walk.
Qed.

Lemma triple_parse_lines K fuel : forall file n c r,
  triple P (parse_lines K fuel file n c r) (fun _ => True).
Proof.
  induction fuel as [|fuel IH]; intros file n c r; cbn.
  - apply triple_ret; exact I.
  - destruct (fgets 512 file) as [[buf file']|]; [|apply triple_ret; exact I].
    apply triple_bind_any; [apply triple_parse_line|].
    intros [c' r']. apply IH.
Qed.

Lemma triple_parse_config_file K c path :
  triple P (parse_config_file K c path) (fun _ => True).
Proof.
  unfold parse_config_file.
  apply triple_bind_any; [auto with triple | intros w].
  destruct (fopen (fs w) _).
  - apply triple_bind_any; [apply triple_parse_lines | intros [c' r']].
    triple_walk.
  - triple_walk.
Qed.

Lemma triple_set_default_keyboard_device c :
  triple P (set_default_keyboard_device c) (fun _ => True).
Proof. unfold set_default_keyboard_device. triple_walk. Qed.

Lemma triple_validate_config K c : triple P (validate_config K c) (fun _ => True).
Proof.
  intros w Hw. split; [exact I|].
  destruct (validate_config_runs K c w) as (l & R & Hl). rewrite R. cbn.
  clear R. revert w Hw. induction l as [|e l IH]; intros w Hw.
  - now rewrite set_trace_nil.
  - cbn in Hl. apply andb_prop in Hl. destruct Hl as [He Hl].
    specialize (IH Hl (set_trace (trace w ++ [e]) w)).
    replace (set_trace (trace w ++ e :: l) w)
      with (set_trace (trace (set_trace (trace w ++ [e]) w) ++ l)
              (set_trace (trace w ++ [e]) w))
      by (destruct w; cbn; now rewrite <- app_assoc).
    apply IH. apply (stable_log P P_stable); [|exact Hw].
    destruct e; try discriminate. reflexivity.
Qed.

End StableInvariant.



Lemma only_config_and_logger_state_refl (w : world) :
  only_config_and_logger_state w w.
Proof.
  repeat split. exists []. split; [now rewrite app_nil_r | reflexivity].
Qed.

Lemma only_config_and_logger_state_stable (w0 : world) :
  config_stable (only_config_and_logger_state w0).
Proof.
  split.
  - intros w e He (H2 & H3 & H4 & H5 & H6 & l & Hl & Hf).
    destruct w; cbn in *. repeat split; try assumption.
    exists (l ++ [e]). split.
    + now rewrite Hl, app_assoc.
    + rewrite forallb_app, Hf. cbn. now rewrite He.
  - intros w h H. destruct w; exact H.
  - intros w q H. destruct w; exact H.
  - intros w n H. destruct w; exact H.
  - intros w ok rest _ H. destruct w; exact H.
Qed.

Lemma only_config_and_logger_state_debug (w0 w : world) (d : Z) :
  only_config_and_logger_state w0 w ->
  only_config_and_logger_state w0 (set_debug_enabled d w).
Proof. intros H. destruct w; exact H. Qed.

Lemma plan_ok_stable : config_stable plan_ok.
Proof.
  split; unfold plan_ok.
  - intros w e _ H. destruct w; exact H.
  - intros w h H. destruct w; exact H.
  - intros w q H. destruct w; exact H.
  - intros w n H. destruct w; exact H.
  - intros w ok rest E H. rewrite E in H. cbn in H.
    apply andb_prop in H. destruct w; cbn in *. tauto.
Qed.

(** ** Validation: the claims *)

Lemma config_ext (c d : config_t) :
  screen_width c = screen_width d -> bar_height c = bar_height d ->
  keyboard_devices c = keyboard_devices d ->
  num_keyboard_devices c = num_keyboard_devices d ->
  cat_x_offset c = cat_x_offset d -> cat_y_offset c = cat_y_offset d ->
  cat_height c = cat_height d -> overlay_height c = overlay_height d ->
  idle_frame c = idle_frame d -> keypress_duration c = keypress_duration d ->
  test_animation_duration c = test_animation_duration d ->
  test_animation_interval c = test_animation_interval d ->
  fps c = fps d -> overlay_opacity c = overlay_opacity d ->
  enable_debug c = enable_debug d -> layer c = layer d ->
  overlay_position c = overlay_position d -> animation_index c = animation_index d ->
  invert_color c = invert_color d -> crop_sprite c = crop_sprite d ->
  padding_x c = padding_x d -> padding_y c = padding_y d ->
  c = d.
Proof.
  destruct c, d; cbn; intros; subst; reflexivity.
Qed.

Lemma final_animation_index_idem (K : header_constants) (i : Z) :
  final_animation_index K (final_animation_index K i) = final_animation_index K i.
Proof.
  unfold final_animation_index.
  destruct ((i <? 0) || (i >=? TOTAL_ANIMATIONS K)) eqn:E1.
  - destruct ((0 <? 0) || (0 >=? TOTAL_ANIMATIONS K)); reflexivity.
  - now rewrite E1.
Qed.

Lemma sanitize_idem (K : header_constants) (c : config_t) :
  sanitize K (sanitize K c) = sanitize K c.
Proof.
  apply config_ext; cbn [sanitize cat_height overlay_height idle_frame
    keypress_duration test_animation_duration test_animation_interval fps
    overlay_opacity enable_debug overlay_position animation_index invert_color
    screen_width bar_height keyboard_devices num_keyboard_devices cat_x_offset
    cat_y_offset layer crop_sprite padding_x padding_y];
    try reflexivity; try (apply clamp_idem; discriminate).
  - (* idle_frame *)
    rewrite final_animation_index_idem.
    destruct ((idle_frame c <? 0) || (idle_frame c >=? _)) eqn:E1.
    + destruct ((0 <? 0) || (0 >=? _)); reflexivity.
    + now rewrite E1.
  - destruct (enable_debug c =? 0); reflexivity.
  - unfold POSITION_TOP, POSITION_BOTTOM.
    destruct (Z.eqb_spec (overlay_position c) 0) as [->|]; [reflexivity|].
    destruct (Z.eqb_spec (overlay_position c) 1) as [->|]; reflexivity.
  - apply final_animation_index_idem.
  - destruct (invert_color c =? 0); reflexivity.
Qed.

(** C2.  Whatever the configuration and whatever the state of the process,
    [validate_config] returns [BONGOCAT_SUCCESS], touches nothing but the
    log (warnings only), and leaves a configuration in which cat height,
    overlay height, fps, the two durations, the interval and the opacity are
    clamped to the nearest bound of [10,200], [20,300], [1,120], [10,5000],
    [0,3600] and [0,255]; [enable_debug] and [invert_color] are 0 or 1; an
    [overlay_position] that is neither top nor bottom is top; an animation
    index outside [0, TOTAL_ANIMATIONS) is 0, the index the code resets to.
    In particular fps 500 becomes 120, interval -5 becomes 0 and opacity 999
    becomes 255. *)
Theorem validate_config_total_and_clamping
    (K : header_constants) (c : config_t) (w : world) :
  exists (c' : config_t) (l : list event),
    validate_config K c w = ((BONGOCAT_SUCCESS, c'), set_trace (trace w ++ l) w)
    /\ forallb is_warning l = true
    /\ c' = validate K c
    /\ cat_height c' = Z.max 10 (Z.min 200 (cat_height c))
    /\ overlay_height c' = Z.max 20 (Z.min 300 (overlay_height c))
    /\ fps c' = Z.max 1 (Z.min 120 (fps c))
    /\ keypress_duration c' = Z.max 10 (Z.min 5000 (keypress_duration c))
    /\ test_animation_duration c' = Z.max 10 (Z.min 5000 (test_animation_duration c))
    /\ test_animation_interval c' = Z.max 0 (Z.min 3600 (test_animation_interval c))
    /\ overlay_opacity c' = Z.max 0 (Z.min 255 (overlay_opacity c))
    /\ enable_debug c' = (if enable_debug c =? 0 then 0 else 1)
    /\ invert_color c' = (if invert_color c =? 0 then 0 else 1)
    /\ overlay_position c'
       = (if (overlay_position c =? POSITION_TOP) || (overlay_position c =? POSITION_BOTTOM)
          then overlay_position c else POSITION_TOP)
    /\ animation_index c'
       = (if (0 <=? animation_index c) && (animation_index c <? TOTAL_ANIMATIONS K)
          then animation_index c else 0)
    /\ fps (validate K (set_fps 500 c)) = 120
    /\ test_animation_interval (validate K (set_test_animation_interval (-5) c)) = 0
    /\ overlay_opacity (validate K (set_overlay_opacity 999 c)) = 255.
Proof.
  destruct (validate_config_runs K c w) as (l & R & Hl).
  exists (sanitize K c), l.
  split; [exact R|]. split; [exact Hl|].
  rewrite !validate_sanitize.
  split; [reflexivity|].
  destruct c; cbn.
  repeat split; try (apply clamp_max_min; unfold MIN_CAT_HEIGHT, MAX_CAT_HEIGHT,
    MIN_OVERLAY_HEIGHT, MAX_OVERLAY_HEIGHT, MIN_DURATION, MAX_DURATION,
    MAX_INTERVAL, MIN_FPS, MAX_FPS; lia).
  unfold final_animation_index.
  destruct (Z.ltb_spec animation_index0 0), (Z.leb_spec 0 animation_index0),
    (Z.geb_spec animation_index0 (TOTAL_ANIMATIONS K)),
    (Z.ltb_spec animation_index0 (TOTAL_ANIMATIONS K)); cbn; try reflexivity; lia.
Qed.



(** C4.  Validating a validated configuration changes nothing, for every
    configuration and whatever the worlds the two calls run in. *)
Theorem validate_config_idempotent
    (K : header_constants) (c : config_t) (w w' : world) :
  snd (fst (validate_config K (snd (fst (validate_config K c w))) w'))
  = snd (fst (validate_config K c w)).
Proof.
  rewrite !validate_world_independent, !validate_sanitize. apply sanitize_idem.
Qed.

(** ** [load_config] *)

Lemma load_config_unfold (K : header_constants) (path : option string) (w : world) :
  load_config K path w =
  let (c1, w1) := set_default_keyboard_device (default_config K) w in
  let '((r, c2), w2) := parse_config_file K c1 path w1 in
  if is_success r then
    let cf := set_bar_height (overlay_height (sanitize K c2)) (sanitize K c2) in
    ((BONGOCAT_SUCCESS, cf),
     snd (log_loaded_config K cf
            (set_debug_enabled (enable_debug cf) (snd (validate_config K c2 w2)))))
  else
    ((r, c2),
     set_trace (trace w2 ++ [Log LOG_ERROR "Failed to parse configuration file: %s"
                               [ArgStr (bongocat_error_string r)]]) w2).
Proof.
  unfold load_config, bind.
  destruct (set_default_keyboard_device (default_config K) w) as [c1 w1].
  destruct (parse_config_file K c1 path w1) as [[r c2] w2].
  destruct (is_success r) eqn:E; cbn.
  - destruct (validate_config_runs K c2 w2) as (l & R & _). rewrite R. cbn.
    unfold bongocat_error_init, modify.
    destruct (log_loaded_config K _ _) as [u w5]. reflexivity.
  - reflexivity.
Qed.

Lemma triple_log_loaded_config (P : world -> Prop) (K : header_constants) (c : config_t) :
  config_stable P -> triple P (log_loaded_config K c) (fun _ => True).
Proof.
  intros HP. unfold log_loaded_config.
  repeat (apply triple_bind_any; [|intros _]);
    try (now apply triple_log_debug).
  destruct (_ =? _); now apply triple_log_debug.
Qed.


Lemma load_config_keeps (P : world -> Prop) (K : header_constants)
    (path : option string) (w : world) :
  config_stable P -> (forall w d, P w -> P (set_debug_enabled d w)) -> P w ->
  P (snd (load_config K path w)).
Proof.
  intros HP Hd Hw. rewrite load_config_unfold.
  pose proof (triple_set_default_keyboard_device P HP (default_config K) w Hw) as [_ H1].
  destruct (set_default_keyboard_device (default_config K) w) as [c1 w1]. cbn in H1.
  pose proof (triple_parse_config_file P HP K c1 path w1 H1) as [_ H2].
  destruct (parse_config_file K c1 path w1) as [[r c2] w2]. cbn in H2.
  destruct (is_success r); cbn.
  - apply (triple_log_loaded_config P K _ HP). apply Hd.
    now apply (triple_validate_config P HP K c2 w2).
  - now apply (stable_log P HP).
Qed.

Lemma clamp_bounds (lo hi x : Z) : lo <= hi -> lo <= clamp lo hi x <= hi.
Proof. intros H. rewrite clamp_max_min by assumption. lia. Qed.

(** C10.  When [load_config] succeeds, the configuration it hands back has
    [bar_height] equal to [overlay_height], hence within [20,300], whatever
    default or detected bar height there was. *)
Theorem load_config_bar_height
    (K : header_constants) (path : option string) (w w' : world) (c : config_t) :
  load_config K path w = ((BONGOCAT_SUCCESS, c), w') ->
  bar_height c = overlay_height c /\ 20 <= bar_height c <= 300.
Proof.
  rewrite load_config_unfold.
  destruct (set_default_keyboard_device (default_config K) w) as [c1 w1].
  destruct (parse_config_file K c1 path w1) as [[r c2] w2].
  destruct (is_success r) eqn:E; cbn.
  - intros H. injection H as <- _.
    destruct c2; cbn. split; [reflexivity|].
    apply clamp_bounds. unfold MIN_OVERLAY_HEIGHT, MAX_OVERLAY_HEIGHT. lia.
  - intros H. injection H as -> _ _. discriminate E.
Qed.

Lemma load_config_bar_height_witness :
  let w := process_start
             [("bongocat.conf", "overlay_height=1000" ++ String NEWLINE EmptyString)%string]
             [] in
  let r := load_config sample_constants None w in
  bar_height (snd (fst r)) = overlay_height (snd (fst r))
  /\ 20 <= bar_height (snd (fst r)) <= 300.
Proof.
  cbv zeta.
  set (w := process_start _ _).
  apply (load_config_bar_height sample_constants None w
           (snd (load_config sample_constants None w))
           (snd (fst (load_config sample_constants None w)))).
  vm_compute. reflexivity.
Defined.

(** ** Reload *)




(** ** Device comparison *)

Section DevicesChanged.

Variable h : list (option block).
Variables old_config new_config : config_t.

Lemma find_device_spec (i : nat) : forall (rounds j : nat) (found : bool),
  find_device h old_config new_config i j rounds = Some found ->
  (found = true ->
     exists k, (j <= k < j + rounds)%nat
               /\ device_at h old_config k = device_at h new_config i)
  /\ (found = false ->
       forall k, (j <= k < j + rounds)%nat ->
                 device_at h old_config k <> device_at h new_config i).
Proof.
  induction rounds as [|rounds IH]; intros j found; cbn.
  - intros H. injection H as <-. split; [discriminate|]. intros _ k Hk. lia.
  - destruct (device_at h new_config i) as [a|] eqn:Ea; [|discriminate].
    destruct (device_at h old_config j) as [b|] eqn:Eb; [|discriminate].
    destruct (String.eqb_spec a b) as [->|Hab].
    + intros H. injection H as <-. split; [|discriminate].
      intros _. exists j. split; [lia | exact Eb].
    + intros H. destruct (IH (S j) found H) as [Ht Hf]. split.
      * intros E. destruct (Ht E) as (k & Hk & Hd). exists k. split; [lia | exact Hd].
      * intros E k Hk. destruct (Nat.eq_dec k j) as [->|Hne].
        -- rewrite Eb. intros X. injection X as X. congruence.
        -- apply (Hf E). lia.
Qed.

Lemma any_device_missing_spec : forall (rounds i : nat) (missing : bool),
  any_device_missing h old_config new_config i rounds = Some missing ->
  (missing = true ->
     exists k, (i <= k < i + rounds)%nat
               /\ forall j, (j < Z.to_nat (num_keyboard_devices old_config))%nat ->
                            device_at h old_config j <> device_at h new_config k)
  /\ (missing = false ->
       forall k, (i <= k < i + rounds)%nat ->
                 exists j, (j < Z.to_nat (num_keyboard_devices old_config))%nat
                           /\ device_at h old_config j = device_at h new_config k).
Proof.
  induction rounds as [|rounds IH]; intros i missing; cbn.
  - intros H. injection H as <-. split; [discriminate|]. intros _ k Hk. lia.
  - destruct (find_device h old_config new_config i 0 _) as [[|]|] eqn:Ef;
      [| |discriminate].
    + destruct (find_device_spec i _ _ _ Ef) as [Ht _].
      destruct (Ht eq_refl) as (j & Hj & Hd).
      intros H. destruct (IH (S i) missing H) as [Hm Hn]. split.
      * intros E. destruct (Hm E) as (k & Hk & Hall). exists k. split; [lia | exact Hall].
      * intros E k Hk. destruct (Nat.eq_dec k i) as [->|Hne].
        -- exists j. split; [lia | exact Hd].
        -- apply (Hn E). lia.
    + destruct (find_device_spec i _ _ _ Ef) as [_ Hf].
      intros H. injection H as <-. split; [|discriminate].
      intros _. exists i. split; [lia|]. intros j Hj. apply (Hf eq_refl). lia.
Qed.

(** [config_devices_changed] answers "changed" exactly when the two counts
    differ or some path of the new list is none of the old paths. *)
Lemma config_devices_changed_spec (changed : bool) :
  config_devices_changed h old_config new_config = Some changed ->
  (changed = true <->
   num_keyboard_devices old_config <> num_keyboard_devices new_config
   \/ exists k, (k < Z.to_nat (num_keyboard_devices new_config))%nat
                /\ forall j, (j < Z.to_nat (num_keyboard_devices old_config))%nat ->
                             device_at h old_config j <> device_at h new_config k).
Proof.
  unfold config_devices_changed.
  destruct (Z.eqb_spec (num_keyboard_devices old_config)
              (num_keyboard_devices new_config)) as [E|E]; cbn.
  - intros H. destruct (any_device_missing_spec _ _ _ H) as [Hm Hn]. split.
    + intros C. right. destruct (Hm C) as (k & Hk & Hall). exists k. split; [lia | exact Hall].
    + intros [C|(k & Hk & Hall)]; [contradiction|].
      destruct changed; [reflexivity|].
      destruct (Hn eq_refl k) as (j & Hj & Hd); [lia|].
      exfalso. exact (Hall j Hj Hd).
  - intros H. injection H as <-. split; [intros _; now left | reflexivity].
Qed.

End DevicesChanged.

(** C8, as the code has it.  After a successful load of the candidate, the
    callback makes the candidate the live configuration, calls
    [wayland_update_config] once with it, whatever changed, and calls
    [input_restart_monitoring] once, with the candidate's device array,
    count and debug flag, exactly when [config_devices_changed] says so:
    when the two device counts differ or some path of the new list is none
    of the old paths.  Two configurations with the same array and the same
    count never lead to a restart. *)
Theorem reload_success_restarts_input_when_devices_changed
    (K : header_constants) (config_path : string) (w w1 : world)
    (temp : config_t) (changed : bool) :
  reload_attempt K config_path w = ((BONGOCAT_SUCCESS, temp), w1) ->
  config_devices_changed (heap w1) (g_config w) temp = Some changed ->
  exists w',
    config_reload_callback K config_path w = Some w'
    /\ g_config w' = temp
    /\ (exists l, trace w1 = trace w ++ l /\ forallb is_log l = true)
    /\ trace w' = trace w1 ++ reload_events w1 temp changed
    /\ filter is_restart (reload_events w1 temp changed)
       = (if changed then
            [Call_input_restart_monitoring temp (keyboard_devices temp)
               (num_keyboard_devices temp) (enable_debug temp)]
          else [])
    /\ (changed = true <->
        num_keyboard_devices (g_config w) <> num_keyboard_devices temp
        \/ exists k, (k < Z.to_nat (num_keyboard_devices temp))%nat
                     /\ forall j, (j < Z.to_nat (num_keyboard_devices (g_config w)))%nat ->
                                  device_at (heap w1) (g_config w) j
                                  <> device_at (heap w1) temp k)
    /\ (keyboard_devices (g_config w) = keyboard_devices temp ->
        num_keyboard_devices (g_config w) = num_keyboard_devices temp ->
        changed = false).
Proof.
  intros Hload Hchg.
  pose proof (config_devices_changed_spec _ _ _ _ Hchg) as Hspec.
  unfold reload_attempt in Hload.
  unfold config_reload_callback.
  change (bongocat_log_info "Reloading configuration from: %s" [ArgStr config_path] w)
    with (tt, set_trace (trace w ++ [Log LOG_INFO "Reloading configuration from: %s"
                                       [ArgStr config_path]]) w) in *.
  cbn [snd] in Hload. cbv iota.
  set (w0 := set_trace _ w) in *.
  pose proof (only_config_and_logger_state_stable w) as HP.
  assert (H1 : only_config_and_logger_state w w1).
  { replace w1 with (snd (load_config K (Some config_path) w0)) by now rewrite Hload.
    apply load_config_keeps;
      [exact HP | intros; now apply only_config_and_logger_state_debug |].
    apply (stable_log _ HP); [reflexivity | apply only_config_and_logger_state_refl]. }
  rewrite Hload. cbn [is_success negb].
  destruct H1 as (_ & Hg & _ & _ & _ & l & Hl & Hf).
  assert (Hl' : exists l, trace w1 = trace w ++ l /\ forallb is_log l = true)
    by (exists l; now split).
  clear Hload w0 HP. destruct w1 as [t1 d1 kd1 n1 r1 g1 h1 p1 f1 z1 i1].
  cbn in Hg, Hchg, Hspec, Hl' |- *. subst g1. rewrite Hchg.
  eexists. split; [reflexivity|].
  split; [destruct changed; [destruct i1|]; reflexivity|].
  split; [exact Hl'|].
  split.
  { unfold reload_events.
    destruct changed; [destruct i1|]; cbn; rewrite <- ?app_assoc; reflexivity. }
  split; [destruct changed; [destruct i1|]; reflexivity|].
  split; [exact Hspec|].
  intros Ek En. destruct changed; [|reflexivity].
  destruct (proj1 Hspec eq_refl) as [C|(k & Hk & Hall)]; [contradiction|].
  exfalso. apply (Hall k); [lia|].
  unfold device_at. now rewrite Ek.
Qed.

Lemma reload_success_witness :
  let w := started_with (line "keyboard_device=/dev/input/event3") in
  exists w',
    config_reload_callback sample_constants "bongocat.conf" w = Some w'
    /\ g_config w' = snd (fst (reload_attempt sample_constants "bongocat.conf" w))
    /\ filter is_restart
         (reload_events (snd (reload_attempt sample_constants "bongocat.conf" w))
            (g_config w') true)
       = [Call_input_restart_monitoring (g_config w') (Some 0%nat) 3 1].
Proof.
  cbv zeta.
  destruct (reload_success_restarts_input_when_devices_changed
              sample_constants "bongocat.conf"
              (started_with (line "keyboard_device=/dev/input/event3"))
              (snd (reload_attempt sample_constants "bongocat.conf"
                      (started_with (line "keyboard_device=/dev/input/event3"))))
              (snd (fst (reload_attempt sample_constants "bongocat.conf"
                           (started_with (line "keyboard_device=/dev/input/event3")))))
              true)
    as (w' & Hcall & Hg & _ & _ & Hr & _).
  - vm_compute. reflexivity.
  - vm_compute. reflexivity.
  - exists w'. split; [exact Hcall|]. split; [exact Hg|].
    rewrite Hg. rewrite Hr. vm_compute. reflexivity.
Defined.

(** C8, the claim as worded, fails in both directions.  A process started on
    a file that names [/dev/input/event4] and reloaded from the same file
    has the one-path set before and after, yet the input monitor is
    restarted, because the counts differ.  And two arrays of two entries,
    [event3, event7] and [event3, event3], are different sets, yet
    [config_devices_changed] answers "unchanged", because the counts agree
    and every new path occurs among the old ones. *)
Lemma restart_decision_is_not_a_set_comparison :
  (let w := started_with (line "keyboard_device=/dev/input/event4") in
   exists w',
     config_reload_callback sample_constants "bongocat.conf" w = Some w'
     /\ same_device_set (heap w') (g_config w) (g_config w') = true
     /\ filter is_restart (skipn (List.length (trace w)) (trace w'))
        = [Call_input_restart_monitoring (g_config w') (Some 0%nat) 3 1])
  /\ (same_device_set two_arrays (config_with_devices 0%nat 2) (config_with_devices 1%nat 2) = false
      /\ config_devices_changed two_arrays (config_with_devices 0%nat 2)
           (config_with_devices 1%nat 2) = Some false).
Proof.
  split.
  - cbv zeta. eexists. split; [vm_compute; reflexivity|].
    split; vm_compute; reflexivity.
  - split; vm_compute; reflexivity.
Qed.

(** C5, on the code.  Two successive loads of one unchanged file do not give
    the same configuration.  With a file that names no device, the first
    load has the default device and the second has none (NULL, count 0);
    with a file that names one device, the first load has two entries and
    the second three.  The file system is the same after both. *)
Lemma load_config_twice_differs :
  (let w0 := process_start [("bongocat.conf", line "fps=30")] [] in
   let r1 := load_config sample_constants None w0 in
   let r2 := load_config sample_constants None (snd r1) in
   fst (fst r1) = BONGOCAT_SUCCESS /\ fst (fst r2) = BONGOCAT_SUCCESS
   /\ fs (snd r2) = fs w0
   /\ device_paths (heap (snd r1)) (snd (fst r1)) = [Some "/dev/input/event4"]
   /\ keyboard_devices (snd (fst r2)) = None
   /\ num_keyboard_devices (snd (fst r2)) = 0
   /\ snd (fst r1) <> snd (fst r2))
  /\ (let w0 := process_start
                  [("bongocat.conf", line "keyboard_device=/dev/input/event3")] [] in
      let r1 := load_config sample_constants None w0 in
      let r2 := load_config sample_constants None (snd r1) in
      fst (fst r1) = BONGOCAT_SUCCESS /\ fst (fst r2) = BONGOCAT_SUCCESS
      /\ device_paths (heap (snd r1)) (snd (fst r1))
         = [Some "/dev/input/event4"; Some "/dev/input/event3"]
      /\ device_paths (heap (snd r2)) (snd (fst r2))
         = [Some "/dev/input/event4"; Some "/dev/input/event3"; Some "/dev/input/event3"]
      /\ snd (fst r1) <> snd (fst r2)).
Proof.
  split; cbv zeta; repeat split; try (vm_compute; reflexivity);
    vm_compute; discriminate.
Qed.

(** ** Signals *)

Lemma reap_children_all : forall (zs : list positive) (w : world),
  zombies w = zs ->
  reap_children (S (List.length zs)) w
  = (tt, set_zombies []
           (set_trace (trace w ++ map (fun p => Sys_waitpid (Zpos p)) zs
                                ++ [Sys_waitpid 0]) w)).
Proof.
  induction zs as [|p zs IH]; intros w Hz.
  - destruct w; cbn in *; subst. reflexivity.
  - change (reap_children (S (List.length (p :: zs))) w)
      with (bind waitpid_nohang
              (fun r => if r >? 0 then reap_children (S (List.length zs)) else ret tt) w).
    assert (Hw : waitpid_nohang w
                 = (Zpos p, set_trace (trace w ++ [Sys_waitpid (Zpos p)])
                              (set_zombies zs w))).
    { unfold waitpid_nohang, bind, get. rewrite Hz. destruct w; reflexivity. }
    unfold bind at 1. rewrite Hw.
    change (Z.pos p >? 0) with true. cbv iota.
    rewrite IH by (destruct w; reflexivity).
    destruct w; cbn in *. rewrite <- app_assoc. reflexivity.
Qed.

(** C6, as the code has it.  On SIGINT and SIGTERM the handler prints an
    info line and clears [running]; on SIGCHLD it reaps every terminated
    child itself, with one non-blocking [waitpid] per child and a last one
    that finds none; on any other signal it prints a warning.  There is no
    reap flag. *)
Theorem signal_handler_effects (sig : Z) (w : world) :
  signal_handler sig w
  = (tt,
     if (sig =? SIGINT) || (sig =? SIGTERM) then
       set_running 0
         (set_trace (trace w ++ [Log LOG_INFO "Received signal %d, shutting down gracefully"
                                   [ArgInt sig]]) w)
     else if sig =? SIGCHLD then
       set_zombies []
         (set_trace (trace w ++ map (fun p => Sys_waitpid (Zpos p)) (zombies w)
                              ++ [Sys_waitpid 0]) w)
     else
       set_trace (trace w ++ [Log LOG_WARNING "Received unexpected signal %d"
                                [ArgInt sig]]) w).
Proof.
  unfold signal_handler.
  destruct ((sig =? SIGINT) || (sig =? SIGTERM)); [reflexivity|].
  destruct (sig =? SIGCHLD); [|reflexivity].
  unfold bind, get. now apply reap_children_all.
Qed.

(** C6, the claim as worded, fails: the handler run on SIGINT in a fresh
    process appends a log line to the trace, and run on SIGCHLD it reaps the
    terminated child itself. *)
Lemma signal_handler_logs_and_reaps :
  trace (snd (signal_handler SIGINT (process_start [] [])))
  = [Log LOG_INFO "Received signal %d, shutting down gracefully" [ArgInt 2]]
  /\ trace (snd (signal_handler SIGCHLD (set_zombies [7%positive] (process_start [] []))))
     = [Sys_waitpid 7; Sys_waitpid 0]
  /\ ~ handler_only_writes_flags.
Proof.
  split; [reflexivity|]. split; [reflexivity|].
  intros H. destruct (H SIGINT (process_start [] [])) as [Ht _]. discriminate Ht.
Qed.

(** ** Shutdown *)

(** C7, as the code has it.  [system_cleanup_and_exit] unlinks the PID file
    first, then cleans up the config watcher, the animation system, Wayland,
    the input system and the configuration, in this order and without any
    condition between them, and ends in [exit] with the code it was given. *)
Theorem system_cleanup_and_exit_order
    (K : header_constants) (exit_code : Z) (w : world) :
  trace (snd (system_cleanup_and_exit K exit_code w))
  = trace w
    ++ [Log LOG_INFO "Performing cleanup..." [];
        Sys_unlink PID_FILE;
        Call_config_watcher_cleanup;
        Call_animation_cleanup;
        Call_wayland_cleanup;
        Call_input_cleanup;
        Call_config_cleanup]
    ++ (if DISABLE_MEMORY_STATISTICS K then []
        else if enable_debug (g_config w) =? 0 then [] else [Call_memory_print_stats])
    ++ (if DEBUG K then [Call_memory_leak_check] else [])
    ++ [Log LOG_INFO "Cleanup complete, exiting with code %d" [ArgInt exit_code];
        Sys_exit exit_code].
Proof.
  destruct w as [t d kd n r g h p f z i].
  unfold system_cleanup_and_exit, config_cleanup, process_remove_pid_file, when,
    bongocat_log_info, emit, modify, bind, get, ret.
  destruct kd; destruct (DISABLE_MEMORY_STATISTICS K); destruct (DEBUG K);
    destruct (enable_debug g =? 0) eqn:E; cbn; rewrite ?E; cbn;
    repeat rewrite <- app_assoc; reflexivity.
Qed.

(** C7, the claim as worded, fails: the PID file is unlinked first, not
    last. *)
Lemma shutdown_unlinks_pid_file_first :
  filter is_cleanup_step
    (trace (snd (system_cleanup_and_exit sample_constants 0
                   (started_with (line "fps=30")))))
  = [Sys_unlink PID_FILE; Call_config_watcher_cleanup; Call_animation_cleanup;
     Call_wayland_cleanup; Call_input_cleanup; Call_config_cleanup]
  /\ filter is_cleanup_step
       (trace (snd (system_cleanup_and_exit sample_constants 0
                      (started_with (line "fps=30")))))
     <> claimed_shutdown_order.
Proof.
  split; [vm_compute; reflexivity|]. vm_compute. discriminate.
Qed.

(** ** Parsing *)

(** The loop of [parse_config_file] never stops for lack of fuel. *)
Lemma fgets_chars_length : forall (n : nat) (s l r : string),
  fgets_chars n s = (l, r) -> String.length s = (String.length l + String.length r)%nat.
Proof.
  induction n as [|n IH]; intros s l r; cbn.
  - destruct s; intros H; injection H as <- <-; reflexivity.
  - destruct s as [|c s]; [intros H; injection H as <- <-; reflexivity|].
    destruct (c =? NEWLINE)%char.
    + intros H; injection H as <- <-. reflexivity.
    + destruct (fgets_chars n s) as [l' r'] eqn:E.
      intros H; injection H as <- <-. cbn. now rewrite (IH s l' r' E).
Qed.

Lemma fgets_chars_nonempty (n : nat) (c : ascii) (s : string) :
  (1 <= String.length (fst (fgets_chars (S n) (String c s))))%nat.
Proof.
  cbn [fgets_chars]. destruct (c =? NEWLINE)%char.
  - cbn. lia.
  - destruct (fgets_chars n s). cbn. lia.
Qed.

Lemma fgets_shorter_any (size : nat) (file buf rest : string) :
  (2 <= size)%nat ->
  fgets size file = Some (buf, rest) -> (String.length rest < String.length file)%nat.
Proof.
  destruct size as [|[|n]]; [lia | lia | intros _].
  unfold fgets. destruct file as [|c file]; [discriminate|].
  replace (S (S n) - 1)%nat with (S n) by lia.
  intros H. injection H as H.
  pose proof (fgets_chars_length (S n) (String c file) buf rest H) as L.
  pose proof (fgets_chars_nonempty n c file) as N.
  change (fgets_chars (S n) (String c file) = (buf, rest)) in H.
  rewrite H in N. cbn [fst] in N. lia.
Qed.

Lemma fgets_shorter (file buf rest : string) :
  fgets 512 file = Some (buf, rest) -> (String.length rest < String.length file)%nat.
Proof. apply fgets_shorter_any. lia. Qed.

Lemma parse_lines_fuel (K : header_constants) : forall (fuel1 fuel2 : nat) (file : string)
    (n : Z) (c : config_t) (r : bongocat_error_t) (w : world),
  (String.length file <= fuel1)%nat -> (String.length file <= fuel2)%nat ->
  parse_lines K fuel1 file n c r w = parse_lines K fuel2 file n c r w.
Proof.
  induction fuel1 as [|fuel1 IH]; intros fuel2 file n c r w H1 H2.
  - destruct file; [|cbn in H1; lia]. destruct fuel2; reflexivity.
  - destruct fuel2 as [|fuel2].
    + destruct file; [reflexivity | cbn in H2; lia].
    + cbn. destruct (fgets 512 file) as [[buf rest]|] eqn:E; [|reflexivity].
      apply fgets_shorter in E. unfold bind.
      destruct (parse_line K (n + 1) buf c r w) as [[c' r'] w'].
      apply IH; lia.
Qed.

Lemma parse_lines_step (K : header_constants) (fuel : nat) (file buf rest : string)
    (n : Z) (c : config_t) (r : bongocat_error_t) (w : world) :
  fgets 512 file = Some (buf, rest) ->
  parse_lines K (S fuel) file n c r w
  = (let '((c', r'), w') := parse_line K (n + 1) buf c r w in
     parse_lines K fuel rest (n + 1) c' r' w').
Proof.
  intros E. cbn. rewrite E. unfold bind.
  destruct (parse_line K (n + 1) buf c r w) as [[c' r'] w']. reflexivity.
Qed.

Lemma parse_line_invalid (K : header_constants) (n : Z) (buf : string)
    (c : config_t) (r : bongocat_error_t) (w : world) :
  line_is_skipped (line_of buf) = false ->
  fst (fst (sscanf_key_value (line_of buf))) <> 2 ->
  runs (parse_line K n buf c r) w (c, r)
    [Log LOG_WARNING "Invalid configuration line %d: %s" [ArgInt n; ArgStr (line_of buf)]].
Proof.
  unfold parse_line, line_of. intros Hs Hn. rewrite Hs.
  destruct (sscanf_key_value _) as [[k key] value]. cbn in Hn.
  destruct (Z.eqb_spec k 2); [contradiction|].
  destruct (strip_newline (c_str buf)); [discriminate Hs|]. reflexivity.
Qed.

Lemma parse_line_unknown_key (K : header_constants) (n : Z) (buf key value : string)
    (c : config_t) (r : bongocat_error_t) (w : world) :
  line_is_skipped (line_of buf) = false ->
  sscanf_key_value (line_of buf) = (2, key, value) ->
  known_key (trim_key key) = false ->
  runs (parse_line K n buf c r) w (c, r)
    [Log LOG_WARNING "Unknown configuration key '%s' at line %d"
       [ArgStr (trim_key key); ArgInt n]].
Proof.
  unfold parse_line, line_of. intros Hs Hk Hu. rewrite Hs, Hk. cbn [Z.eqb Pos.eqb].
  unfold known_key in Hu. cbn [existsb] in Hu.
  repeat (apply orb_false_elim in Hu; destruct Hu as [?E Hu]).
  unfold parse_key_value.
  repeat match goal with
         | H : (trim_key key =? _)%string = false |- _ => rewrite H; clear H
         end.
  reflexivity.
Qed.

#[local] Hint Resolve plan_ok_stable triple_get triple_log_error triple_log_warning
  triple_log_info triple_set_devices triple_set_num triple_store_slot : triple.

Lemma next_alloc_plan_ok : triple plan_ok next_alloc (fun ok => ok = true).
Proof.
  intros w Hw. unfold next_alloc, plan_ok in *.
  destruct w as [t d kd n r g h p f z i]. cbn in *.
  destruct p as [|b l]; cbn in *.
  - split; reflexivity.
  - apply andb_prop in Hw. destruct Hw as [-> Hl]. split; [reflexivity | exact Hl].
Qed.

Lemma realloc_array_plan_ok (p : option ptr) (n : nat) :
  triple plan_ok (realloc_array p n) (fun q => q <> None).
Proof.
  unfold realloc_array.
  eapply triple_bind; [apply next_alloc_plan_ok | intros ok ->].
  intros w Hw. destruct p as [q|].
  - unfold bind, get, modify, ret, new_block.
    destruct (nth_error (heap w) q) as [[b|]|]; cbn;
      (split; [discriminate | destruct w; exact Hw]).
  - split; [discriminate | destruct w; exact Hw].
Qed.

(** With an allocator that does not fail, a [keyboard_device] line leaves
    the result code alone. *)
Lemma add_keyboard_device_plan_ok (value : string) (c : config_t) (r : bongocat_error_t) :
  triple plan_ok (add_keyboard_device value c r) (fun x => snd x = r).
Proof.
  unfold add_keyboard_device.
  apply triple_bind_any; [auto with triple | intros w].
  eapply triple_bind; [apply realloc_array_plan_ok | intros p Hp].
  apply triple_bind_any; [auto with triple | intros _].
  destruct p as [q|]; [|contradiction].
  eapply triple_bind; [apply next_alloc_plan_ok | intros ok ->].
  apply triple_bind_any; [auto with triple | intros _].
  apply triple_bind_any; [auto with triple | intros _].
  apply triple_ret. reflexivity.
Qed.

Ltac result_walk :=
  repeat first
    [ apply triple_ret; reflexivity
    | apply add_keyboard_device_plan_ok
    | apply triple_bind_any; [ solve [auto with triple] | intros ]
    | match goal with
      | |- triple _ (if ?b then _ else _) _ => destruct b
      end ].

Lemma parse_key_value_plan_ok (K : header_constants) (n : Z) (key value : string)
    (c : config_t) (r : bongocat_error_t) :
  triple plan_ok (parse_key_value K n key value c r) (fun x => snd x = r).
Proof. unfold parse_key_value. result_walk. Qed.

Lemma parse_line_plan_ok (K : header_constants) (n : Z) (buf : string)
    (c : config_t) (r : bongocat_error_t) :
  triple plan_ok (parse_line K n buf c r) (fun x => snd x = r).
Proof.
  unfold parse_line.
  destruct (line_is_skipped _); [apply triple_ret; reflexivity|].
  destruct (sscanf_key_value _) as [[k key] value].
  destruct (k =? 2); [apply parse_key_value_plan_ok|].
  result_walk.
Qed.

Lemma parse_lines_plan_ok (K : header_constants) (fuel : nat) : forall (file : string)
    (n : Z) (c : config_t) (r : bongocat_error_t),
  triple plan_ok (parse_lines K fuel file n c r) (fun x => snd x = r).
Proof.
  induction fuel as [|fuel IH]; intros file n c r; cbn.
  - apply triple_ret; reflexivity.
  - destruct (fgets 512 file) as [[buf file']|]; [|apply triple_ret; reflexivity].
    eapply triple_bind; [apply parse_line_plan_ok|].
    intros [c' r'] E. cbn in E. subst r'. apply IH.
Qed.

Lemma parse_config_file_plan_ok (K : header_constants) (c : config_t)
    (path : option string) :
  triple plan_ok (parse_config_file K c path) (fun x => fst x = BONGOCAT_SUCCESS).
Proof.
  unfold parse_config_file.
  apply triple_bind_any; [auto with triple | intros w].
  destruct (fopen (fs w) _).
  - eapply triple_bind; [apply parse_lines_plan_ok|].
    intros [c' r'] E. cbn in E. subst r'. cbn [is_success when].
    apply triple_bind_any; [auto with triple | intros _].
    apply triple_ret. reflexivity.
  - apply triple_bind_any; [auto with triple | intros _].
    apply triple_ret. reflexivity.
Qed.

Lemma parse_config_file_missing (K : header_constants) (c : config_t)
    (path : option string) (w : world) :
  fopen (fs w) (file_path_of path) = None ->
  runs (parse_config_file K c path) w (BONGOCAT_SUCCESS, c)
    [Log LOG_INFO "Config file '%s' not found, using defaults"
       [ArgStr (file_path_of path)]].
Proof.
  intros H. unfold runs, parse_config_file, bind, get.
  fold (file_path_of path). rewrite H. reflexivity.
Qed.

Lemma load_config_missing_file (K : header_constants) (path : option string)
    (files : list (string * string)) :
  fopen files (file_path_of path) = None ->
  fst (load_config K path (process_start files [])) = (BONGOCAT_SUCCESS, loaded_defaults K).
Proof.
  intros H. rewrite load_config_unfold.
  change (set_default_keyboard_device (default_config K) (process_start files []))
    with (set_num_keyboard_devices 1 (set_keyboard_devices (Some 0%nat) (default_config K)),
          set_heap [Some [Some "/dev/input/event4"]]
            (set_config_num_devices 1
               (set_config_keyboard_devices (Some 0%nat) (process_start files [])))).
  cbv iota beta.
  rewrite parse_config_file_missing by exact H.
  cbn [is_success fst]. f_equal.
  apply config_ext; try reflexivity.
  cbn. destruct (0 >=? _); reflexivity.
Qed.

(** C9.  [parse_config_file] treats everything but a failed allocation as
    recoverable.  (1) When the file cannot be opened it returns
    [BONGOCAT_SUCCESS], leaves the configuration as it got it and prints one
    info line; [load_config] in a fresh process then returns the defaults.
    (2) A line that is neither skipped nor of the form [key = value] costs
    one warning that carries the line number and the line, and the loop goes
    on with the rest of the file, the configuration and the result code
    unchanged.  (3) So does a line whose key is none of the known keys; the
    warning carries the key and the line number.  (4) As long as no
    allocation fails the result is [BONGOCAT_SUCCESS], whatever the file
    holds.  (5) The file [foo=bar], [cat_height=55] sets [cat_height] to 55
    and prints exactly one warning, for [foo] at line 1. *)
Theorem parse_config_file_tolerant (K : header_constants) :
  (forall (c : config_t) (path : option string) (w : world),
     fopen (fs w) (file_path_of path) = None ->
     runs (parse_config_file K c path) w (BONGOCAT_SUCCESS, c)
       [Log LOG_INFO "Config file '%s' not found, using defaults"
          [ArgStr (file_path_of path)]])
  /\ (forall (path : option string) (files : list (string * string)),
        fopen files (file_path_of path) = None ->
        fst (load_config K path (process_start files []))
        = (BONGOCAT_SUCCESS, loaded_defaults K))
  /\ (forall (fuel : nat) (file buf rest : string) (n : Z) (c : config_t)
             (r : bongocat_error_t) (w : world),
        fgets 512 file = Some (buf, rest) ->
        line_is_skipped (line_of buf) = false ->
        fst (fst (sscanf_key_value (line_of buf))) <> 2 ->
        parse_lines K (S fuel) file n c r w
        = parse_lines K fuel rest (n + 1) c r
            (set_trace (trace w ++ [Log LOG_WARNING "Invalid configuration line %d: %s"
                                      [ArgInt (n + 1); ArgStr (line_of buf)]]) w))
  /\ (forall (fuel : nat) (file buf rest key value : string) (n : Z) (c : config_t)
             (r : bongocat_error_t) (w : world),
        fgets 512 file = Some (buf, rest) ->
        line_is_skipped (line_of buf) = false ->
        sscanf_key_value (line_of buf) = (2, key, value) ->
        known_key (trim_key key) = false ->
        parse_lines K (S fuel) file n c r w
        = parse_lines K fuel rest (n + 1) c r
            (set_trace (trace w ++ [Log LOG_WARNING
                                      "Unknown configuration key '%s' at line %d"
                                      [ArgStr (trim_key key); ArgInt (n + 1)]]) w))
  /\ (forall (c : config_t) (path : option string) (w : world),
        plan_ok w ->
        fst (fst (parse_config_file K c path w)) = BONGOCAT_SUCCESS)
  /\ (forall (c : config_t) (path : option string) (w : world),
        fopen (fs w) (file_path_of path) = Some (line "foo=bar" ++ line "cat_height=55")%string ->
        runs (parse_config_file K c path) w (BONGOCAT_SUCCESS, set_cat_height 55 c)
          [Log LOG_WARNING "Unknown configuration key '%s' at line %d"
             [ArgStr "foo"; ArgInt 1];
           Log LOG_INFO "Loaded configuration from bongocat.conf" []]).
Proof.
  repeat apply conj.
  - intros c path w H. now apply parse_config_file_missing.
  - intros path files H. apply (load_config_missing_file K path files H).
  - intros fuel file buf rest n c r w Hf Hs Hn.
    rewrite (parse_lines_step K fuel file buf rest n c r w Hf).
    now rewrite (parse_line_invalid K (n + 1) buf c r w Hs Hn).
  - intros fuel file buf rest key value n c r w Hf Hs Hk Hu.
    rewrite (parse_lines_step K fuel file buf rest n c r w Hf).
    now rewrite (parse_line_unknown_key K (n + 1) buf key value c r w Hs Hk Hu).
  - intros c path w Hw. apply (parse_config_file_plan_ok K c path w Hw).
  - intros c path w H. unfold runs, parse_config_file, bind, get.
    fold (file_path_of path). rewrite H.
    destruct c, w. cbv -[app]. rewrite <- app_assoc. reflexivity.
Qed.

Lemma parse_config_file_tolerant_witness :
  let w := process_start
             [("bongocat.conf", (line "foo=bar" ++ line "cat_height=55")%string)] [] in
  runs (parse_config_file sample_constants (default_config sample_constants) None) w
    (BONGOCAT_SUCCESS, set_cat_height 55 (default_config sample_constants))
    [Log LOG_WARNING "Unknown configuration key '%s' at line %d"
       [ArgStr "foo"; ArgInt 1];
     Log LOG_INFO "Loaded configuration from bongocat.conf" []]
  /\ fst (load_config sample_constants (Some "missing.conf") w)
     = (BONGOCAT_SUCCESS, loaded_defaults sample_constants).
Proof.
  cbv zeta.
  destruct (parse_config_file_tolerant sample_constants)
    as (_ & Hmissing & _ & _ & _ & Hexample).
  split.
  - apply Hexample. reflexivity.
  - apply Hmissing. reflexivity.
Defined.

(** ** Device counts across loads *)

Ltac counts_frame :=
  match goal with
  | c : config_t, w : world |- _ =>
      destruct c, w; unfold counts_devices in *; cbn in *; assumption || lia
  end.

Lemma add_keyboard_device_counts (n0 : Z) (value : string) (c : config_t)
    (r : bongocat_error_t) (w : world) :
  counts_devices n0 c w ->
  counts_devices n0 (fst (fst (add_keyboard_device value c r w)))
    (snd (add_keyboard_device value c r w)).
Proof.
  intros H.
  unfold add_keyboard_device, realloc_array, next_alloc, new_block, store_slot,
    bongocat_log_error, emit, bind, get, modify, ret.
  destruct c, w as [t d kd n rn g h p f z i].
  unfold counts_devices in *. cbn in *.
  repeat match goal with
         | |- context [match ?x with _ => _ end] => is_var x; destruct x; cbn
         | |- context [match nth_error ?l ?q with _ => _ end] =>
             destruct (nth_error l q) as [[?|]|]; cbn
         end; lia.
Qed.

Lemma keeps_bind {A B : Type} (P : world -> Prop) (m : W A) (k : A -> W B) (w : world) :
  P (snd (m w)) -> (forall a w', P w' -> P (snd (k a w'))) -> P (snd (bind m k w)).
Proof. unfold bind. destruct (m w) as [a w1]. cbn. auto. Qed.

Lemma log_debug_keeps (P : world -> Prop) (f : string) (args : list fmt_arg) (w : world) :
  (forall w e, is_log e = true -> P w -> P (set_trace (trace w ++ [e]) w)) ->
  P w -> P (snd (bongocat_log_debug f args w)).
Proof.
  intros HP Hw. unfold bongocat_log_debug, bind, get.
  destruct (debug_enabled w =? 0); [exact Hw|]. now apply HP.
Qed.

Lemma log_loaded_config_keeps (P : world -> Prop) (K : header_constants)
    (c : config_t) (w : world) :
  (forall w e, is_log e = true -> P w -> P (set_trace (trace w ++ [e]) w)) ->
  P w -> P (snd (log_loaded_config K c w)).
Proof.
  intros HP Hw. unfold log_loaded_config.
  apply keeps_bind; [now apply log_debug_keeps | intros _ w1 H1].
  apply keeps_bind; [now apply log_debug_keeps | intros _ w2 H2].
  apply keeps_bind; [destruct (_ =? _); now apply log_debug_keeps | intros _ w3 H3].
  apply keeps_bind; [now apply log_debug_keeps | intros _ w4 H4].
  now apply log_debug_keeps.
Qed.

Lemma parse_key_value_counts (K : header_constants) (n0 n : Z) (key value : string)
    (c : config_t) (r : bongocat_error_t) (w : world) :
  counts_devices n0 c w ->
  counts_devices n0 (fst (fst (parse_key_value K n key value c r w)))
    (snd (parse_key_value K n key value c r w)).
Proof.
  intros H. unfold parse_key_value.
  repeat match goal with
         | |- context [if ?b then _ else _] => destruct b
         end;
    try (now apply add_keyboard_device_counts);
    unfold bind, bongocat_log_warning, emit, modify, ret; cbn; counts_frame.
Qed.

Lemma parse_line_counts (K : header_constants) (n0 n : Z) (buf : string)
    (c : config_t) (r : bongocat_error_t) (w : world) :
  counts_devices n0 c w ->
  counts_devices n0 (fst (fst (parse_line K n buf c r w)))
    (snd (parse_line K n buf c r w)).
Proof.
  intros H. unfold parse_line.
  destruct (line_is_skipped _); [exact H|].
  destruct (sscanf_key_value _) as [[k key] value].
  destruct (k =? 2); [now apply parse_key_value_counts|].
  destruct (0 <? _)%nat; [|exact H].
  unfold bind, bongocat_log_warning, emit, modify, ret; cbn. counts_frame.
Qed.

Lemma parse_lines_counts (K : header_constants) (n0 : Z) (fuel : nat) :
  forall (file : string) (n : Z) (c : config_t) (r : bongocat_error_t) (w : world),
    counts_devices n0 c w ->
    counts_devices n0 (fst (fst (parse_lines K fuel file n c r w)))
      (snd (parse_lines K fuel file n c r w)).
Proof.
  induction fuel as [|fuel IH]; intros file n c r w H; cbn [parse_lines].
  - exact H.
  - destruct (fgets 512 file) as [[buf file']|]; [|exact H].
    unfold bind.
    pose proof (parse_line_counts K n0 (n + 1) buf c r w H) as H1.
    destruct (parse_line K (n + 1) buf c r w) as [[c' r'] w'].
    now apply IH.
Qed.

Lemma parse_config_file_counts (K : header_constants) (n0 : Z) (c : config_t)
    (path : option string) (w : world) :
  counts_devices n0 c w ->
  counts_devices n0 (snd (fst (parse_config_file K c path w)))
    (snd (parse_config_file K c path w)).
Proof.
  intros H. unfold parse_config_file, bind, get.
  destruct (fopen (fs w) _) as [file|].
  - pose proof (parse_lines_counts K n0 (String.length file) file 0 c
                  BONGOCAT_SUCCESS w H) as H1.
    destruct (parse_lines K _ file 0 c BONGOCAT_SUCCESS w) as [[c' r'] w'].
    cbn in H1. destruct (is_success r'); cbn; [|exact H1].
    clear H. revert H1. generalize c' w'. intros c0 w0 H1. counts_frame.
  - cbn. counts_frame.
Qed.

Lemma set_default_keyboard_device_counts (c : config_t) (w : world) :
  num_keyboard_devices c = 0 ->
  counts_devices (config_num_devices w)
    (fst (set_default_keyboard_device c w)) (snd (set_default_keyboard_device c w)).
Proof.
  intros H.
  unfold set_default_keyboard_device, malloc_array, next_alloc, new_block, store_slot,
    bind, get, modify, ret, counts_devices.
  destruct c, w as [t d kd n rn g h p f z i]. cbn in *.
  destruct (Z.eqb_spec n 0) as [->|Hn]; cbn; [|lia].
  repeat match goal with
         | |- context [match ?x with _ => _ end] => is_var x; destruct x; cbn
         | |- context [match nth_error ?l ?q with _ => _ end] =>
             destruct (nth_error l q) as [[?|]|]; cbn
         end; lia.
Qed.

(** Whatever its outcome, [load_config] hands back a configuration that
    counts no device or counts all the static array holds, which is then
    more than before the load. *)
Lemma load_config_counts (K : header_constants) (path : option string) (w : world) :
  counts_devices (config_num_devices w)
    (snd (fst (load_config K path w))) (snd (load_config K path w)).
Proof.
  rewrite load_config_unfold.
  pose proof (set_default_keyboard_device_counts (default_config K) w eq_refl) as H1.
  destruct (set_default_keyboard_device (default_config K) w) as [c1 w1]. cbn in H1.
  pose proof (parse_config_file_counts K _ c1 path w1 H1) as H2.
  destruct (parse_config_file K c1 path w1) as [[r c2] w2]. cbn in H2.
  destruct (is_success r); cbv zeta; cbn [fst snd].
  - destruct (validate_config_runs K c2 w2) as (l & R & _). rewrite R. cbn [snd].
    set (cf := set_bar_height _ _).
    assert (H3 : counts_devices (config_num_devices w) cf
                   (set_debug_enabled (enable_debug cf) (set_trace (trace w2 ++ l) w2))).
    { subst cf. clear R H1. revert H2. generalize c2 w2. intros c0 w0 H2. counts_frame. }
    apply log_loaded_config_keeps; [|exact H3].
    intros w0 e _ X. destruct w0; exact X.
  - clear H1. revert H2. generalize c2 w2. intros c0 w0 H2. counts_frame.
Qed.

Lemma config_devices_changed_counts (h : list (option block)) (old_config c : config_t)
    (n0 : Z) (w1 : world) :
  num_keyboard_devices old_config <= n0 ->
  counts_devices n0 c w1 ->
  config_devices_changed h old_config c
  = Some (negb (num_keyboard_devices old_config =? num_keyboard_devices c)).
Proof.
  intros Hold [Hn Hc]. unfold config_devices_changed.
  destruct (Z.eqb_spec (num_keyboard_devices old_config) (num_keyboard_devices c))
    as [E|E]; cbn; [|reflexivity].
  destruct Hc as [Hc|[Hc1 Hc2]]; [|lia].
  rewrite Hc. reflexivity.
Qed.

Lemma g_config_stable (g : config_t) : config_stable (fun w => g_config w = g).
Proof.
  split; [intros w e _ X | intros w h X | intros w q X | intros w m X
         | intros w ok rest _ X]; destruct w; exact X.
Qed.

Lemma load_config_g_config (K : header_constants) (path : option string) (w : world) :
  g_config (snd (load_config K path w)) = g_config w.
Proof.
  apply (load_config_keeps (fun w' => g_config w' = g_config w));
    [apply g_config_stable | intros w0 d X; destruct w0; exact X | reflexivity].
Qed.

(** Loading reads the file system and leaves it as it is. *)
Lemma load_config_fs (K : header_constants) (path : option string) (w : world) :
  fs (snd (load_config K path w)) = fs w.
Proof.
  apply (load_config_keeps (fun w' => fs w' = fs w)); [|intros w0 d X; destruct w0; exact X
                                                       |reflexivity].
  split; [intros w0 e _ X | intros w0 h X | intros w0 q X | intros w0 m X
         | intros w0 ok rest _ X]; destruct w0; exact X.
Qed.

(** X11.  [main] leaves a consistent world behind when it has loaded the
    configuration, whether the load succeeded or not: the live configuration
    never counts more devices than the static array holds. *)
Lemma main_load_config_consistent (K : header_constants) (path : option string)
    (w : world) :
  0 <= config_num_devices w -> consistent (snd (main_load_config K path w)).
Proof.
  intros H0. unfold main_load_config, bind.
  pose proof (load_config_counts K path w) as Hc.
  destruct (load_config K path w) as [[r c] w1]. cbn [fst snd] in Hc.
  unfold consistent, counts_devices in *.
  destruct w1 as [t d kd n rn g h p f z i]. cbn in Hc.
  destruct (is_success r); cbn; lia.
Qed.

(** X12.  In a consistent world the reload callback never reads an invalid
    pointer: it returns, and the world it leaves is consistent again.  When
    the candidate loads, the input monitor is restarted unless both the old
    and the new configuration count the same number of devices, which then
    is zero. *)
Lemma config_reload_callback_total (K : header_constants) (config_path : string)
    (w : world) :
  consistent w ->
  exists w',
    config_reload_callback K config_path w = Some w'
    /\ consistent w'
    /\ (fst (fst (reload_attempt K config_path w)) = BONGOCAT_SUCCESS ->
        config_devices_changed (heap (snd (reload_attempt K config_path w)))
          (g_config w) (snd (fst (reload_attempt K config_path w)))
        = Some (negb (num_keyboard_devices (g_config w)
                      =? num_keyboard_devices
                           (snd (fst (reload_attempt K config_path w)))))).
Proof.
  intros [H0 Hg].
  unfold config_reload_callback, reload_attempt.
  change (bongocat_log_info "Reloading configuration from: %s" [ArgStr config_path] w)
    with (tt, set_trace (trace w ++ [Log LOG_INFO "Reloading configuration from: %s"
                                       [ArgStr config_path]]) w).
  cbn [snd]. cbv iota.
  set (w0 := set_trace _ w).
  assert (E0 : config_num_devices w0 = config_num_devices w) by (destruct w; reflexivity).
  assert (G0 : g_config w0 = g_config w) by (destruct w; reflexivity).
  pose proof (load_config_counts K (Some config_path) w0) as Hc.
  pose proof (load_config_g_config K (Some config_path) w0) as G1.
  rewrite E0 in Hc. rewrite G0 in G1. clearbody w0.
  destruct (load_config K (Some config_path) w0) as [[r temp] w1].
  cbn [fst snd] in *.
  pose proof (config_devices_changed_counts (heap w1) (g_config w) temp
                (config_num_devices w) w1 Hg Hc) as Hd.
  destruct (is_success r) eqn:Er; cbn [negb].
  - destruct w1 as [t d kd n rn g h p f z i]. cbn in G1, Hd, Hc |- *. subst g.
    rewrite Hd.
    eexists. split; [reflexivity|]. split.
    + unfold consistent, counts_devices in *. cbn in Hc.
      destruct (negb _); [destruct i|]; cbn; lia.
    + intros _. reflexivity.
  - eexists. split; [reflexivity|]. split.
    + destruct w1 as [t d kd n rn g h p f z i]. cbn in G1, Hc |- *. subst g.
      unfold consistent, counts_devices in *. cbn in *. lia.
    + intros ->. discriminate Er.
Qed.

(** What the statics that survive a load do to a reload.  A process started
    on a file that holds only [fps=30] is reloaded after the file was changed
    to [fps=60]: the candidate has no device at all, the counts differ, and
    the input monitor is restarted with a NULL array of zero devices. *)
Lemma reload_after_fps_edit_restarts_input :
  let w := set_fs [("bongocat.conf", line "fps=60")] (started_with (line "fps=30")) in
  exists w',
    config_reload_callback sample_constants "bongocat.conf" w = Some w'
    /\ fps (g_config w) = 30 /\ fps (g_config w') = 60
    /\ device_paths (heap w) (g_config w) = [Some "/dev/input/event4"]
    /\ device_paths (heap w') (g_config w') = []
    /\ filter is_restart (skipn (List.length (trace w)) (trace w'))
       = [Call_input_restart_monitoring (g_config w') None 0 1].
Proof.
  cbv zeta. eexists. split; [vm_compute; reflexivity|].
  repeat split; vm_compute; reflexivity.
Qed.

(** ** Scanning a line *)

Lemma string_forall_app (p : ascii -> bool) (s t : string) :
  string_forall p (s ++ t)%string = string_forall p s && string_forall p t.
Proof.
  induction s as [|c s IH]; cbn; [reflexivity|]. rewrite IH. now rewrite andb_assoc.
Qed.

Lemma string_forall_weaken (p q : ascii -> bool) (s : string) :
  (forall c, p c = true -> q c = true) ->
  string_forall p s = true -> string_forall q s = true.
Proof.
  intros H. induction s as [|c s IH]; cbn; [reflexivity|].
  intros E. apply andb_prop in E. destruct E as [E1 E2].
  now rewrite (H c E1), (IH E2).
Qed.

Lemma string_app_assoc (a b c : string) : ((a ++ b) ++ c = a ++ (b ++ c))%string.
Proof. induction a as [|x a IH]; cbn; [reflexivity | now rewrite IH]. Qed.

Lemma string_length_app (a b : string) :
  String.length (a ++ b)%string = (String.length a + String.length b)%nat.
Proof. induction a as [|x a IH]; cbn; [reflexivity | now rewrite IH]. Qed.

Lemma is_blank_isspace (c : ascii) : is_blank c = true -> isspace c = true.
Proof.
  unfold is_blank, isspace. intros H. apply orb_prop in H. destruct H as [-> | ->].
  - reflexivity.
  - now rewrite orb_true_r.
Qed.

Lemma skip_space_spaces (ws s : string) :
  string_forall isspace ws = true -> skip_space (ws ++ s)%string = skip_space s.
Proof.
  induction ws as [|c ws IH]; cbn; [reflexivity|].
  intros E. apply andb_prop in E. destruct E as [-> E]. now apply IH.
Qed.

Lemma skip_space_token (c : ascii) (s : string) :
  isspace c = false -> skip_space (String c s) = String c s.
Proof. intros E. cbn. now rewrite E. Qed.

Lemma scan_until_equals_body (body s : string) : forall n : nat,
  string_forall (fun c => negb (c =? "=")%char) body = true ->
  (String.length body <= n)%nat ->
  scan_until_equals n (body ++ String "=" s)%string = (body, String "=" s).
Proof.
  induction body as [|c body IH]; intros n Hb Hn.
  - destruct n; reflexivity.
  - cbn in Hb, Hn. apply andb_prop in Hb. destruct Hb as [Hc Hb].
    destruct n as [|n]; [lia|]. cbn.
    apply negb_true_iff in Hc. rewrite Hc.
    rewrite (IH n Hb) by lia. reflexivity.
Qed.

Lemma scan_word_token (value rest : string) : forall n : nat,
  string_forall (fun c => negb (isspace c)) value = true ->
  (String.length value <= n)%nat ->
  match rest with EmptyString => True | String c _ => isspace c = true end ->
  scan_word n (value ++ rest)%string = (value, rest).
Proof.
  induction value as [|c value IH]; intros n Hv Hn Hr.
  - cbn. destruct n; [reflexivity|]. destruct rest as [|c r]; [reflexivity|].
    cbn. now rewrite Hr.
  - cbn in Hv, Hn. apply andb_prop in Hv. destruct Hv as [Hc Hv].
    destruct n as [|n]; [lia|]. cbn.
    apply negb_true_iff in Hc. rewrite Hc.
    rewrite (IH n Hv) by (assumption || lia). reflexivity.
Qed.

(** [sscanf] on [<spaces> body = <spaces> value <rest>]: two conversions,
    the key buffer holds everything before [=], the value buffer the first
    token after it. *)
Lemma sscanf_key_value_shape (ws1 body ws3 value rest : string) (c0 : ascii) (body' : string) :
  string_forall isspace ws1 = true ->
  body = String c0 body' -> isspace c0 = false ->
  string_forall (fun c => negb (c =? "=")%char) body = true ->
  (String.length body <= 255)%nat ->
  string_forall isspace ws3 = true ->
  value <> EmptyString ->
  string_forall (fun c => negb (isspace c)) value = true ->
  (String.length value <= 255)%nat ->
  match rest with EmptyString => True | String c _ => isspace c = true end ->
  sscanf_key_value (ws1 ++ body ++ "=" ++ ws3 ++ value ++ rest)%string = (2, body, value).
Proof.
  intros H1 Hb Hc0 Hbody Hlen H3 Hne Hv Hvl Hr.
  unfold sscanf_key_value.
  rewrite (skip_space_spaces ws1) by exact H1.
  assert (E : skip_space (body ++ "=" ++ ws3 ++ value ++ rest)%string
              = (body ++ String "=" (ws3 ++ value ++ rest))%string).
  { subst body. cbn. now rewrite Hc0. }
  rewrite E. clear E.
  assert (E : (body ++ String "=" (ws3 ++ value ++ rest))%string
              = String c0 (body' ++ String "=" (ws3 ++ value ++ rest))%string)
    by now subst body.
  rewrite E at 1. rewrite <- E. clear E.
  rewrite (scan_until_equals_body body _ 255 Hbody Hlen).
  subst body. cbn [skip_space isspace].
  change (isspace "=") with false. cbv iota.
  change ("=" =? "=")%char with true. cbv iota.
  rewrite (skip_space_spaces ws3) by exact H3.
  destruct value as [|v0 value']; [contradiction|].
  cbn in Hv. apply andb_prop in Hv. destruct Hv as [Hv0 Hv'].
  apply negb_true_iff in Hv0.
  change (String v0 value' ++ rest)%string with (String v0 (value' ++ rest)%string).
  rewrite (skip_space_token v0 _ Hv0).
  change (String v0 (value' ++ rest)%string) with (String v0 value' ++ rest)%string.
  rewrite (scan_word_token (String v0 value') rest 255); try assumption.
  - reflexivity.
  - cbn. now rewrite Hv0, Hv'.
Qed.

Lemma string_app_nil_r (s : string) : (s ++ "")%string = s.
Proof. induction s as [|c s IH]; cbn; [reflexivity | now rewrite IH]. Qed.

Lemma cut_trailing_blank_blanks (b : string) :
  is_blank_text b = true -> cut_trailing_blank b = EmptyString.
Proof.
  unfold is_blank_text. induction b as [|c b IH]; cbn; [reflexivity|].
  intros E. apply andb_prop in E. destruct E as [Ec Eb].
  now rewrite (IH Eb), Ec.
Qed.

Lemma cut_trailing_blank_token (s b : string) :
  string_forall (fun c => negb (is_blank c)) s = true ->
  is_blank_text b = true ->
  cut_trailing_blank (s ++ b)%string = s.
Proof.
  intros Hs Hb. induction s as [|c s IH]; cbn.
  - now apply cut_trailing_blank_blanks.
  - cbn in Hs. apply andb_prop in Hs. destruct Hs as [Hc Hs].
    apply negb_true_iff in Hc. rewrite (IH Hs), Hc. now destruct s.
Qed.

Lemma token_char_not_blank (c : ascii) : is_token_char c = true -> is_blank c = false.
Proof.
  unfold is_token_char. intros H. apply andb_prop in H. destruct H as [H _].
  apply negb_true_iff in H. destruct (is_blank c) eqn:E; [|reflexivity].
  apply is_blank_isspace in E. congruence.
Qed.

Lemma is_key_text_facts (key : string) :
  is_key_text key = true ->
  exists c0 key',
    key = String c0 key'
    /\ (c0 =? "#")%char = false
    /\ isspace c0 = false
    /\ is_blank c0 = false
    /\ string_forall (fun c => is_token_char c && negb (c =? "=")%char) key = true
    /\ (String.length key <= 255)%nat.
Proof.
  unfold is_key_text. destruct key as [|c0 key']; [discriminate|].
  intros H. apply andb_prop in H. destruct H as [H Hl].
  apply andb_prop in H. destruct H as [Hh Hf].
  exists c0, key'. split; [reflexivity|].
  apply negb_true_iff in Hh. split; [exact Hh|].
  pose proof Hf as Hf'. cbn in Hf'. apply andb_prop in Hf'. destruct Hf' as [Hc _].
  apply andb_prop in Hc. destruct Hc as [Hc _].
  split.
  - unfold is_token_char in Hc. apply andb_prop in Hc. destruct Hc as [Hc _].
    now apply negb_true_iff in Hc.
  - split; [now apply token_char_not_blank|].
    split; [exact Hf|]. now apply Nat.leb_le.
Qed.

(** [trim_key] gives back a key that [sscanf] read with blanks behind it. *)
Lemma trim_key_blanks (key b : string) :
  is_key_text key = true -> is_blank_text b = true -> trim_key (key ++ b)%string = key.
Proof.
  intros Hk Hb.
  destruct (is_key_text_facts key Hk) as (c0 & key' & -> & _ & _ & Hbl & Hf & _).
  unfold trim_key. cbn. rewrite Hbl.
  rewrite cut_trailing_blank_token; [reflexivity | | exact Hb].
  cbn in Hf. apply andb_prop in Hf. destruct Hf as [_ Hf].
  revert Hf. apply string_forall_weaken.
  intros c H. apply andb_prop in H. destruct H as [H _].
  now rewrite (token_char_not_blank c H).
Qed.

Lemma c_str_no_nul (s : string) :
  string_forall (fun c => negb (c =? NUL)%char) s = true -> c_str s = s.
Proof.
  induction s as [|c s IH]; cbn; [reflexivity|].
  intros E. apply andb_prop in E. destruct E as [Ec Es].
  apply negb_true_iff in Ec. now rewrite Ec, (IH Es).
Qed.

Lemma strip_newline_line (s : string) :
  strip_newline (s ++ String NEWLINE EmptyString)%string = s.
Proof.
  induction s as [|c s IH]; [reflexivity|].
  change (String c s ++ String NEWLINE "")%string
    with (String c (s ++ String NEWLINE "")%string).
  cbn [strip_newline]. rewrite IH. now destruct s.
Qed.

Lemma strspn_blanks (b : string) (c : ascii) (s : string) :
  is_blank_text b = true -> is_blank c = false ->
  strspn (b ++ String c s)%string (String " " (String TAB EmptyString)) = String.length b.
Proof.
  unfold is_blank_text. intros Hb Hc. induction b as [|x b IH]; cbn.
  - unfold is_blank in Hc. rewrite orb_false_r. now rewrite Hc.
  - cbn in Hb. apply andb_prop in Hb. destruct Hb as [Hx Hb].
    unfold is_blank in Hx. rewrite orb_false_r, Hx. now rewrite (IH Hb).
Qed.

Lemma blank_not_hash (c : ascii) : is_blank c = true -> (c =? "#")%char = false.
Proof.
  unfold is_blank. intros H. apply orb_prop in H.
  destruct H as [H|H]; apply Ascii.eqb_eq in H; subst; reflexivity.
Qed.

Lemma line_not_skipped (b key tail : string) :
  is_blank_text b = true -> is_key_text key = true ->
  line_is_skipped (b ++ key ++ tail)%string = false.
Proof.
  intros Hb Hk.
  destruct (is_key_text_facts key Hk) as (c0 & key' & -> & Hh & _ & Hbl & _ & _).
  change (String c0 key' ++ tail)%string with (String c0 (key' ++ tail)%string).
  assert (Hs : (strspn (b ++ String c0 (key' ++ tail))%string
                  (String " " (String TAB EmptyString))
                =? String.length (b ++ String c0 (key' ++ tail))%string)%nat = false).
  { rewrite (strspn_blanks b c0 _ Hb Hbl), string_length_app. cbn.
    apply Nat.eqb_neq. lia. }
  unfold line_is_skipped.
  destruct b as [|x b].
  - cbn [append]. cbn [append] in Hs. now rewrite Hh, Hs.
  - change (String x b ++ String c0 (key' ++ tail))%string
      with (String x (b ++ String c0 (key' ++ tail))%string) in *.
    unfold is_blank_text in Hb. cbn in Hb. apply andb_prop in Hb. destruct Hb as [Hx _].
    now rewrite (blank_not_hash x Hx), Hs.
Qed.

Lemma token_forall_no_nul (s : string) :
  string_forall is_token_char s = true ->
  string_forall (fun c => negb (c =? NUL)%char) s = true.
Proof.
  apply string_forall_weaken. intros c H. unfold is_token_char in H.
  apply andb_prop in H. now destruct H.
Qed.

Lemma blank_forall_no_nul (s : string) :
  is_blank_text s = true -> string_forall (fun c => negb (c =? NUL)%char) s = true.
Proof.
  apply string_forall_weaken. intros c H. unfold is_blank in H. apply orb_prop in H.
  destruct H as [H|H]; apply Ascii.eqb_eq in H; subst; reflexivity.
Qed.

Lemma is_trailing_text_facts (rest : string) :
  is_trailing_text rest = true ->
  string_forall (fun c => negb (c =? NUL)%char) rest = true
  /\ match rest with EmptyString => True | String c _ => isspace c = true end.
Proof.
  unfold is_trailing_text. destruct rest as [|c rest]; [now split|].
  intros H. apply andb_prop in H. destruct H as [Hc Hf]. split; [|exact Hc].
  revert Hf. apply string_forall_weaken. intros x Hx.
  apply andb_prop in Hx. now destruct Hx.
Qed.

Lemma is_value_text_facts (value : string) :
  is_value_text value = true ->
  value <> EmptyString
  /\ string_forall is_token_char value = true
  /\ (String.length value <= 255)%nat.
Proof.
  unfold is_value_text. destruct value as [|c v]; [discriminate|].
  intros H. apply andb_prop in H. destruct H as [Hf Hl].
  split; [discriminate|]. split; [exact Hf | now apply Nat.leb_le].
Qed.

(** The text of a [key = value] buffer, and how the loop body dispatches
    it. *)
Lemma line_of_key_value_buffer (b1 key b2 b3 value rest : string) :
  is_blank_text b1 = true -> is_key_text key = true -> is_blank_text b2 = true ->
  is_blank_text b3 = true -> is_value_text value = true -> is_trailing_text rest = true ->
  line_of (key_value_buffer b1 key b2 b3 value rest)
  = (b1 ++ key ++ b2 ++ "=" ++ b3 ++ value ++ rest)%string.
Proof.
  intros H1 Hk H2 H3 Hv Hr.
  destruct (is_key_text_facts key Hk) as (c0 & key' & Ek & _ & _ & _ & Hkf & _).
  destruct (is_value_text_facts value Hv) as (_ & Hvf & _).
  destruct (is_trailing_text_facts rest Hr) as (Hrn & _).
  unfold line_of, key_value_buffer.
  rewrite c_str_no_nul.
  - replace (b1 ++ key ++ b2 ++ "=" ++ b3 ++ value ++ rest ++ String NEWLINE "")%string
      with ((b1 ++ key ++ b2 ++ "=" ++ b3 ++ value ++ rest) ++ String NEWLINE "")%string
      by (now rewrite !string_app_assoc).
    apply strip_newline_line.
  - rewrite !string_forall_app.
    rewrite (blank_forall_no_nul b1 H1), (blank_forall_no_nul b2 H2),
      (blank_forall_no_nul b3 H3), (token_forall_no_nul value Hvf), Hrn.
    assert (Hkn : string_forall (fun c => negb (c =? NUL)%char) key = true).
    { revert Hkf. apply string_forall_weaken. intros c H.
      apply andb_prop in H. destruct H as [H _]. unfold is_token_char in H.
      apply andb_prop in H. now destruct H. }
    rewrite Hkn. reflexivity.
Qed.

(** ** Lines of the form [key = value] *)

(** What [sscanf] finds in the text of a [key = value] buffer. *)
Lemma sscanf_key_value_buffer (b1 key b2 b3 value rest : string) :
  is_blank_text b1 = true -> is_key_text key = true -> is_blank_text b2 = true ->
  is_blank_text b3 = true -> is_value_text value = true -> is_trailing_text rest = true ->
  (String.length key + String.length b2 <= 255)%nat ->
  sscanf_key_value (b1 ++ key ++ b2 ++ "=" ++ b3 ++ value ++ rest)%string
  = (2, (key ++ b2)%string, value).
Proof.
  intros H1 Hk H2 H3 Hv Hr Hlen.
  destruct (is_key_text_facts key Hk) as (c0 & key' & Ek & _ & Hsp & _ & Hkf & _).
  destruct (is_value_text_facts value Hv) as (Hne & Hvf & Hvl).
  destruct (is_trailing_text_facts rest Hr) as (_ & Hr').
  replace (b1 ++ key ++ b2 ++ "=" ++ b3 ++ value ++ rest)%string
    with (b1 ++ (key ++ b2) ++ "=" ++ b3 ++ value ++ rest)%string
    by (now rewrite !string_app_assoc).
  apply (sscanf_key_value_shape b1 (key ++ b2) b3 value rest c0 (key' ++ b2)%string).
  - revert H1. apply string_forall_weaken. exact is_blank_isspace.
  - now subst key.
  - exact Hsp.
  - rewrite string_forall_app. apply andb_true_intro. split.
    + revert Hkf. apply string_forall_weaken. intros x Hx.
      apply andb_prop in Hx. now destruct Hx.
    + revert H2. apply string_forall_weaken. intros x Hx.
      unfold is_blank in Hx. apply orb_prop in Hx.
      destruct Hx as [Hx|Hx]; apply Ascii.eqb_eq in Hx; subst; reflexivity.
  - rewrite string_length_app. exact Hlen.
  - revert H3. apply string_forall_weaken. exact is_blank_isspace.
  - exact Hne.
  - revert Hvf. apply string_forall_weaken. intros x Hx. unfold is_token_char in Hx.
    apply andb_prop in Hx. now destruct Hx.
  - exact Hvl.
  - exact Hr'.
Qed.

(** X1.  Blanks before the key, around [=] and before the value, and
    whatever follows the first token of the value, do not matter: the loop
    body handles the buffer exactly as it handles the pair (key, value). *)
Theorem parse_line_ignores_blanks
    (K : header_constants) (n : Z) (b1 key b2 b3 value rest : string)
    (c : config_t) (r : bongocat_error_t) (w : world) :
  is_blank_text b1 = true -> is_key_text key = true -> is_blank_text b2 = true ->
  is_blank_text b3 = true -> is_value_text value = true -> is_trailing_text rest = true ->
  (String.length key + String.length b2 <= 255)%nat ->
  parse_line K n (key_value_buffer b1 key b2 b3 value rest) c r w
  = parse_key_value K n key value c r w.
Proof.
  intros H1 Hk H2 H3 Hv Hr Hlen.
  unfold parse_line. cbv zeta.
  change (strip_newline (c_str (key_value_buffer b1 key b2 b3 value rest)))
    with (line_of (key_value_buffer b1 key b2 b3 value rest)).
  rewrite (line_of_key_value_buffer b1 key b2 b3 value rest H1 Hk H2 H3 Hv Hr).
  rewrite (line_not_skipped b1 key _ H1 Hk).
  rewrite (sscanf_key_value_buffer b1 key b2 b3 value rest H1 Hk H2 H3 Hv Hr Hlen).
  change (2 =? 2) with true. cbv iota.
  now rewrite (trim_key_blanks key b2 Hk H2).
Qed.

Lemma parse_line_ignores_blanks_witness :
  parse_line sample_constants 7
    (key_value_buffer "  " "fps" " " (String TAB EmptyString) "30" " frames per second")
    (default_config sample_constants) BONGOCAT_SUCCESS (process_start [] [])
  = parse_key_value sample_constants 7 "fps" "30"
      (default_config sample_constants) BONGOCAT_SUCCESS (process_start [] []).
Proof.
  apply (parse_line_ignores_blanks sample_constants 7 "  " "fps" " "
           (String TAB EmptyString) "30" " frames per second");
    try reflexivity.
  cbn. lia.
Defined.

Lemma strtol_range (s : string) : LONG_MIN <= strtol s <= LONG_MAX.
Proof.
  unfold strtol.
  destruct (match skip_space s with
            | EmptyString => (false, skip_space s)
            | String c rest =>
                if (c =? "-")%char then (true, rest)
                else if (c =? "+")%char then (false, rest) else (false, skip_space s)
            end) as [negative s'].
  set (v := if negative then - digits_value s' 0 else digits_value s' 0).
  unfold LONG_MIN, LONG_MAX.
  destruct (Z.gtb_spec v 9223372036854775807); [lia|].
  destruct (Z.ltb_spec v (-9223372036854775808)); lia.
Qed.

Lemma int_of_long_range (v : Z) : INT_MIN <= int_of_long v <= INT_MAX.
Proof.
  unfold int_of_long, INT_MIN, INT_MAX.
  pose proof (Z.mod_pos_bound (v + 2147483648) 4294967296 eq_refl). lia.
Qed.

Lemma int_of_long_small (v : Z) : INT_MIN <= v <= INT_MAX -> int_of_long v = v.
Proof.
  unfold int_of_long, INT_MIN, INT_MAX. intros H.
  rewrite Z.mod_small by lia. lia.
Qed.

Lemma strtol_not_a_number (c0 : ascii) (rest : string) :
  isspace c0 = false -> isdigit c0 = false ->
  (c0 =? "-")%char = false -> (c0 =? "+")%char = false ->
  strtol (String c0 rest) = 0.
Proof.
  intros Hs Hd Hm Hp. unfold strtol. cbn [skip_space]. rewrite Hs, Hm, Hp.
  cbn [digits_value]. rewrite Hd. reflexivity.
Qed.

(** X2.  The twelve integer keys never reject a value.  Whatever the value
    token, the line stores [(int)strtol(value)] in the key's field, prints
    nothing and leaves the result code alone; the stored number lies in the
    range of [int]; and a token that starts with neither a digit nor a sign
    is stored as 0. *)
Theorem integer_key_accepts_any_value
    (K : header_constants) (n : Z) (key value : string)
    (set : Z -> config_t -> config_t)
    (c : config_t) (r : bongocat_error_t) (w : world) :
  In (key, set) integer_keys ->
  parse_key_value K n key value c r w = ((set (int_of_long (strtol value)) c, r), w)
  /\ INT_MIN <= int_of_long (strtol value) <= INT_MAX
  /\ (forall c0 rest,
        value = String c0 rest ->
        isspace c0 = false -> isdigit c0 = false ->
        (c0 =? "-")%char = false -> (c0 =? "+")%char = false ->
        parse_key_value K n key value c r w = ((set 0 c, r), w)).
Proof.
  intros Hin.
  assert (E : parse_key_value K n key value c r w
              = ((set (int_of_long (strtol value)) c, r), w)).
  { unfold integer_keys in Hin. cbn [In] in Hin.
    repeat (destruct Hin as [Hin|Hin]; [injection Hin as <- <-; reflexivity|]).
    contradiction. }
  split; [exact E|]. split; [apply int_of_long_range|].
  intros c0 rest -> Hs Hd Hm Hp. rewrite E.
  now rewrite (strtol_not_a_number c0 rest Hs Hd Hm Hp).
Qed.

Lemma integer_key_accepts_any_value_witness :
  parse_key_value sample_constants 1 "fps" "fast"
    (default_config sample_constants) BONGOCAT_SUCCESS (process_start [] [])
  = ((set_fps 0 (default_config sample_constants), BONGOCAT_SUCCESS), process_start [] []).
Proof.
  destruct (integer_key_accepts_any_value sample_constants 1 "fps" "fast" set_fps
              (default_config sample_constants) BONGOCAT_SUCCESS (process_start [] []))
    as (_ & _ & H).
  - cbn. tauto.
  - apply (H "f"%char "ast"); reflexivity.
Defined.

(** ** Files *)

Lemma fgets_chars_line (text rest : string) : forall n : nat,
  string_forall (fun c => negb (c =? NEWLINE)%char) text = true ->
  (String.length text < n)%nat ->
  fgets_chars n (text ++ String NEWLINE rest)%string
  = ((text ++ String NEWLINE EmptyString)%string, rest).
Proof.
  induction text as [|c text IH]; intros n Ht Hn.
  - destruct n; [cbn in Hn; lia|]. reflexivity.
  - cbn in Ht, Hn. apply andb_prop in Ht. destruct Ht as [Hc Ht].
    apply negb_true_iff in Hc.
    destruct n as [|n]; [lia|]. cbn. rewrite Hc.
    rewrite (IH n Ht) by lia. reflexivity.
Qed.

Lemma is_line_text_facts (text : string) :
  is_line_text text = true ->
  string_forall (fun c => negb (c =? NUL)%char) text = true
  /\ string_forall (fun c => negb (c =? NEWLINE)%char) text = true
  /\ (String.length text <= 510)%nat.
Proof.
  unfold is_line_text. intros H. apply andb_prop in H. destruct H as [Hf Hl].
  split; [|split].
  - revert Hf. apply string_forall_weaken. intros c Hc. apply andb_prop in Hc. tauto.
  - revert Hf. apply string_forall_weaken. intros c Hc. apply andb_prop in Hc. tauto.
  - now apply Nat.leb_le.
Qed.

(** [fgets] takes a line of the file with its newline, in one piece. *)
Lemma fgets_line (text rest : string) :
  is_line_text text = true ->
  fgets 512 (text ++ String NEWLINE rest)%string
  = Some ((text ++ String NEWLINE EmptyString)%string, rest).
Proof.
  intros H. destruct (is_line_text_facts text H) as (_ & Hn & Hl).
  unfold fgets.
  destruct (text ++ String NEWLINE rest)%string eqn:E.
  - destruct text; discriminate E.
  - rewrite <- E. f_equal.
    change (512 - 1)%nat with 511%nat.
    apply fgets_chars_line; [exact Hn | lia].
Qed.


Lemma file_of_lines_cons (text : string) (rest : list string) :
  file_of_lines (text :: rest) = (text ++ String NEWLINE (file_of_lines rest))%string.
Proof. reflexivity. Qed.




(** ** The device array across loads *)

Lemma list_update_length {A : Type} (i : nat) (v : A) (l : list A) :
  List.length (list_update i v l) = List.length l.
Proof.
  revert i. induction l as [|x l IH]; intros [|i]; cbn; try reflexivity.
  now rewrite IH.
Qed.

Lemma nth_error_list_update_eq {A : Type} (i : nat) (v : A) (l : list A) :
  (i < List.length l)%nat -> nth_error (list_update i v l) i = Some v.
Proof.
  revert i. induction l as [|x l IH]; intros [|i] H; cbn in *; try lia.
  - reflexivity.
  - apply IH. lia.
Qed.

Lemma list_update_twice {A : Type} (i : nat) (u v : A) (l : list A) :
  list_update i v (list_update i u l) = list_update i v l.
Proof.
  revert i. induction l as [|x l IH]; intros [|i]; cbn; try reflexivity.
  now rewrite IH.
Qed.

Lemma list_update_last {A : Type} (b : list A) (x y : A) :
  list_update (List.length b) x (b ++ [y]) = b ++ [x].
Proof. induction b as [|z b IH]; cbn; [reflexivity | now rewrite IH]. Qed.

Lemma resize_grow (b : block) : resize (S (List.length b)) b = b ++ [None].
Proof.
  unfold resize. rewrite firstn_all2 by lia.
  replace (S (List.length b) - List.length b)%nat with 1%nat by lia. reflexivity.
Qed.

Lemma nth_error_some_lt {A : Type} (l : list A) (i : nat) (x : A) :
  nth_error l i = Some x -> (i < List.length l)%nat.
Proof. intros H. apply nth_error_Some. congruence. Qed.

(** With an allocator that does not fail, a [keyboard_device] line appends
    its value to the static array, prints nothing, and hands the array and
    the new count to the configuration. *)
Lemma add_keyboard_device_appends (d : string) (c : config_t) (r : bongocat_error_t)
    (w : world) (l : list string) :
  store_holds w l -> plan_ok w ->
  exists c' w',
    add_keyboard_device d c r w = ((c', r), w')
    /\ store_holds w' (l ++ [d]) /\ plan_ok w'
    /\ trace w' = trace w /\ fs w' = fs w
    /\ config_keyboard_devices w' = config_keyboard_devices w
    /\ c' = with_devices w' c.
Proof.
  intros (q & Hq & Hb & Hn) Hp.
  pose proof (nth_error_some_lt _ _ _ Hb) as Hlt.
  destruct w as [t dbg kd n rn g h p f z i]. cbn in Hq, Hb, Hn, Hlt. subst kd n.
  assert (Hplan : exists p2,
             forallb (fun ok => ok) p2 = true
             /\ add_keyboard_device d c r
                  (mk_world t dbg (Some q) (Z.of_nat (List.length l)) rn g h p f z i)
                = ((set_num_keyboard_devices (Z.of_nat (List.length l) + 1)
                      (set_keyboard_devices (Some q) c), r),
                   mk_world t dbg (Some q) (Z.of_nat (List.length l) + 1) rn g
                     (list_update q (Some (map Some l ++ [Some d])) h) p2 f z i)).
  { unfold plan_ok in Hp. cbn in Hp.
    assert (Hsz : Z.to_nat (Z.of_nat (List.length l) + 1) = S (List.length (map Some l)))
      by (rewrite length_map; lia).
    assert (Hupd : list_update (Z.to_nat (Z.of_nat (List.length l))) (Some d)
                     (map Some l ++ [None])
                   = map Some l ++ [Some d]).
    { rewrite Nat2Z.id. rewrite <- (length_map Some l) at 1. apply list_update_last. }
    unfold add_keyboard_device, realloc_array, next_alloc, new_block, store_slot,
      bind, get, modify, ret.
    destruct p as [|b1 [|b2 p2]]; cbn [alloc_plan set_alloc_plan heap set_heap
      config_keyboard_devices config_num_devices set_config_keyboard_devices
      set_config_num_devices] in *.
    - exists []. split; [reflexivity|].
      rewrite Hb, Hsz, resize_grow.
      cbn [heap set_heap config_keyboard_devices config_num_devices
           set_config_keyboard_devices set_config_num_devices].
      cbv beta iota zeta.
      cbn [heap set_heap config_keyboard_devices config_num_devices
           set_config_keyboard_devices set_config_num_devices alloc_plan set_alloc_plan].
      rewrite (nth_error_list_update_eq q _ h Hlt).
      cbn [heap set_heap config_keyboard_devices config_num_devices
           set_config_keyboard_devices set_config_num_devices alloc_plan set_alloc_plan].
      rewrite list_update_twice, Hupd.
      reflexivity.
    - apply andb_prop in Hp. destruct Hp as [-> _].
      exists []. split; [reflexivity|].
      cbn [heap set_heap config_keyboard_devices config_num_devices
           set_config_keyboard_devices set_config_num_devices alloc_plan set_alloc_plan].
      rewrite Hb, Hsz, resize_grow.
      cbn [heap set_heap config_keyboard_devices config_num_devices
           set_config_keyboard_devices set_config_num_devices alloc_plan set_alloc_plan].
      cbv beta iota zeta.
      cbn [heap set_heap config_keyboard_devices config_num_devices
           set_config_keyboard_devices set_config_num_devices alloc_plan set_alloc_plan].
      rewrite (nth_error_list_update_eq q _ h Hlt).
      cbn [heap set_heap config_keyboard_devices config_num_devices
           set_config_keyboard_devices set_config_num_devices alloc_plan set_alloc_plan].
      rewrite list_update_twice, Hupd.
      reflexivity.
    - apply andb_prop in Hp. destruct Hp as [-> Hp].
      apply andb_prop in Hp. destruct Hp as [-> Hp].
      exists p2. split; [exact Hp|].
      cbn [heap set_heap config_keyboard_devices config_num_devices
           set_config_keyboard_devices set_config_num_devices alloc_plan set_alloc_plan].
      rewrite Hb, Hsz, resize_grow.
      cbn [heap set_heap config_keyboard_devices config_num_devices
           set_config_keyboard_devices set_config_num_devices alloc_plan set_alloc_plan].
      cbv beta iota zeta.
      cbn [heap set_heap config_keyboard_devices config_num_devices
           set_config_keyboard_devices set_config_num_devices alloc_plan set_alloc_plan].
      rewrite (nth_error_list_update_eq q _ h Hlt).
      cbn [heap set_heap config_keyboard_devices config_num_devices
           set_config_keyboard_devices set_config_num_devices alloc_plan set_alloc_plan].
      rewrite list_update_twice, Hupd.
      reflexivity. }
  destruct Hplan as (p2 & Hp2 & E).
  eexists. eexists. split; [exact E|].
  split.
  - exists q. cbn. split; [reflexivity|]. split.
    + rewrite (nth_error_list_update_eq q _ h Hlt). now rewrite map_app.
    + rewrite length_app. cbn. lia.
  - split; [exact Hp2|]. split; [reflexivity|]. split; [reflexivity|].
    split; reflexivity.
Qed.


Lemma with_devices_twice (w1 w2 : world) (c : config_t) :
  with_devices w2 (with_devices w1 c) = with_devices w2 c.
Proof. destruct c; reflexivity. Qed.

Lemma store_holds_log (w : world) (l : list string) (e : event) :
  store_holds w l -> store_holds (set_trace (trace w ++ [e]) w) l.
Proof. destruct w; exact (fun H => H). Qed.

Lemma device_text_line (d : string) :
  is_value_text d = true -> is_line_text (device_text d) = true.
Proof.
  intros H. destruct (is_value_text_facts d H) as (_ & Hf & Hl).
  unfold is_line_text, device_text. apply andb_true_intro. split.
  - rewrite string_forall_app. apply andb_true_intro. split; [reflexivity|].
    revert Hf. apply string_forall_weaken. intros x Hx. unfold is_token_char in Hx.
    apply andb_prop in Hx. destruct Hx as [Hs Hz]. rewrite Hz. cbn.
    destruct (Ascii.eqb_spec x NEWLINE) as [->|]; [discriminate Hs | reflexivity].
  - apply Nat.leb_le. rewrite string_length_app. cbn [String.length]. lia.
Qed.

Lemma parse_line_device (K : header_constants) (n : Z) (d : string)
    (c : config_t) (r : bongocat_error_t) (w : world) :
  is_value_text d = true ->
  parse_line K n (device_text d ++ String NEWLINE EmptyString)%string c r w
  = add_keyboard_device d c r w.
Proof.
  intros H.
  change (device_text d ++ String NEWLINE EmptyString)%string
    with (key_value_buffer "" "keyboard_device" "" "" d "").
  unfold parse_line. cbv zeta.
  change (strip_newline (c_str (key_value_buffer "" "keyboard_device" "" "" d "")))
    with (line_of (key_value_buffer "" "keyboard_device" "" "" d "")).
  rewrite (line_of_key_value_buffer "" "keyboard_device" "" "" d ""
             eq_refl eq_refl eq_refl eq_refl H eq_refl).
  rewrite (line_not_skipped "" "keyboard_device" _ eq_refl eq_refl).
  rewrite (sscanf_key_value_buffer "" "keyboard_device" "" "" d ""
             eq_refl eq_refl eq_refl eq_refl H eq_refl ltac:(cbn; lia)).
  reflexivity.
Qed.

Lemma device_file_length (ds : list string) :
  (List.length ds <= String.length (device_file ds))%nat.
Proof.
  unfold device_file. induction ds as [|d ds IH]; [apply Nat.le_refl|].
  cbn [map List.length]. rewrite file_of_lines_cons, string_length_app.
  cbn [String.length]. lia.
Qed.

(** The loop over a file of device lines: each line appends its path to the
    static array, prints nothing, and hands the array to the
    configuration. *)
Lemma parse_lines_devices (K : header_constants) : forall (ds : list string) (fuel : nat)
    (n : Z) (c : config_t) (r : bongocat_error_t) (w : world) (l : list string),
  Forall (fun d => is_value_text d = true) ds ->
  (List.length ds <= fuel)%nat ->
  store_holds w l -> plan_ok w ->
  exists c' w',
    parse_lines K fuel (device_file ds) n c r w = ((c', r), w')
    /\ store_holds w' (l ++ ds) /\ plan_ok w'
    /\ trace w' = trace w /\ fs w' = fs w
    /\ config_keyboard_devices w' = config_keyboard_devices w
    /\ c' = match ds with [] => c | _ => with_devices w' c end.
Proof.
  unfold device_file.
  induction ds as [|d ds IH]; intros fuel n c r w l Hds Hfuel Hs Hp.
  - exists c, w. rewrite app_nil_r. destruct fuel; repeat split; assumption.
  - inversion Hds as [|? ? Hd Hds']; subst.
    destruct fuel as [|fuel]; [cbn in Hfuel; lia|].
    cbn [map]. rewrite file_of_lines_cons.
    rewrite (parse_lines_step K fuel _ _ _ n c r w
               (fgets_line _ _ (device_text_line d Hd))).
    rewrite (parse_line_device K (n + 1) d c r w Hd).
    destruct (add_keyboard_device_appends d c r w l Hs Hp)
      as (c1 & w1 & E & Hs1 & Hp1 & Ht1 & Hf1 & Hk1 & Hc1).
    rewrite E. cbv iota.
    destruct (IH fuel (n + 1) c1 r w1 (l ++ [d]) Hds'
                ltac:(cbn in Hfuel; lia) Hs1 Hp1)
      as (c' & w' & E' & Hs' & Hp' & Ht' & Hf' & Hk' & Hc').
    exists c', w'. rewrite E'. rewrite <- app_assoc in Hs'.
    split; [reflexivity|]. split; [exact Hs'|]. split; [exact Hp'|].
    split; [congruence|]. split; [congruence|]. split; [congruence|].
    destruct ds as [|d2 ds].
    + destruct fuel; cbn in E'; injection E' as <- <-; exact Hc1.
    + rewrite Hc', Hc1. apply with_devices_twice.
Qed.

Lemma parse_config_file_devices (K : header_constants) (c : config_t)
    (path : option string) (w : world) (l ds : list string) :
  fopen (fs w) (file_path_of path) = Some (device_file ds) ->
  Forall (fun d => is_value_text d = true) ds ->
  store_holds w l -> plan_ok w ->
  exists c' w',
    parse_config_file K c path w = ((BONGOCAT_SUCCESS, c'), w')
    /\ store_holds w' (l ++ ds) /\ plan_ok w' /\ fs w' = fs w
    /\ trace w' = trace w ++ [Log LOG_INFO "Loaded configuration from bongocat.conf" []]
    /\ config_keyboard_devices w' = config_keyboard_devices w
    /\ c' = match ds with [] => c | _ => with_devices w' c end.
Proof.
  intros Hf Hds Hs Hp.
  destruct (parse_lines_devices K ds (String.length (device_file ds)) 0 c
              BONGOCAT_SUCCESS w l Hds (device_file_length ds) Hs Hp)
    as (c' & w' & E & Hs' & Hp' & Ht' & Hf' & Hk' & Hc').
  exists c', (set_trace (trace w' ++ [Log LOG_INFO "Loaded configuration from bongocat.conf" []]) w').
  split.
  - unfold parse_config_file, bind, get. fold (file_path_of path). rewrite Hf, E.
    reflexivity.
  - split; [now apply store_holds_log|].
    split; [destruct w'; exact Hp'|]. split; [destruct w'; exact Hf'|].
    split; [destruct w'; cbn in *; now rewrite Ht'|].
    split; destruct w'; assumption.
Qed.

Lemma set_default_keyboard_device_first (c : config_t) (w : world) :
  config_num_devices w = 0 -> plan_ok w ->
  exists w',
    set_default_keyboard_device c w = (with_devices w' c, w')
    /\ store_holds w' ["/dev/input/event4"] /\ plan_ok w'
    /\ trace w' = trace w /\ fs w' = fs w.
Proof.
  intros Hn Hp.
  destruct w as [t dbg kd n rn g h p f z i]. cbn in Hn. subst n.
  unfold plan_ok in Hp. cbn in Hp.
  assert (Hq : forall b : block,
             nth_error (h ++ [Some b]) (List.length h) = Some (Some b)).
  { intros b. rewrite nth_error_app2 by apply Nat.le_refl.
    now rewrite Nat.sub_diag. }
  assert (Hu : forall b b' : block,
             list_update (List.length h) (Some b') (h ++ [Some b]) = h ++ [Some b']).
  { intros b b'. clear. induction h as [|x h IH]; cbn; [reflexivity | now rewrite IH]. }
  assert (Hplan : exists p2,
             forallb (fun ok => ok) p2 = true
             /\ set_default_keyboard_device c
                  (mk_world t dbg kd 0 rn g h p f z i)
                = (set_num_keyboard_devices 1
                     (set_keyboard_devices (Some (List.length h)) c),
                   mk_world t dbg (Some (List.length h)) 1 rn g
                     (h ++ [Some [Some "/dev/input/event4"]]) p2 f z i)).
  { unfold set_default_keyboard_device, malloc_array, next_alloc, new_block, store_slot,
      bind, get, modify, ret.
    destruct p as [|b1 [|b2 p2]]; cbn [alloc_plan set_alloc_plan heap set_heap
      config_keyboard_devices config_num_devices set_config_keyboard_devices
      set_config_num_devices] in *.
    - exists []. split; [reflexivity|].
      cbn [Z.eqb]. cbv beta iota zeta.
      cbn [alloc_plan set_alloc_plan heap set_heap
           config_keyboard_devices config_num_devices set_config_keyboard_devices
           set_config_num_devices].
      rewrite Hq. cbn [repeat list_update].
      cbn [alloc_plan set_alloc_plan heap set_heap
           config_keyboard_devices config_num_devices set_config_keyboard_devices
           set_config_num_devices].
      rewrite Hu. reflexivity.
    - apply andb_prop in Hp. destruct Hp as [-> _].
      exists []. split; [reflexivity|].
      cbn [Z.eqb]. cbv beta iota zeta.
      cbn [alloc_plan set_alloc_plan heap set_heap
           config_keyboard_devices config_num_devices set_config_keyboard_devices
           set_config_num_devices].
      rewrite Hq. cbn [repeat list_update].
      cbn [alloc_plan set_alloc_plan heap set_heap
           config_keyboard_devices config_num_devices set_config_keyboard_devices
           set_config_num_devices].
      rewrite Hu. reflexivity.
    - apply andb_prop in Hp. destruct Hp as [-> Hp].
      apply andb_prop in Hp. destruct Hp as [-> Hp].
      exists p2. split; [exact Hp|].
      cbn [Z.eqb]. cbv beta iota zeta.
      cbn [alloc_plan set_alloc_plan heap set_heap
           config_keyboard_devices config_num_devices set_config_keyboard_devices
           set_config_num_devices].
      rewrite Hq. cbn [repeat list_update].
      cbn [alloc_plan set_alloc_plan heap set_heap
           config_keyboard_devices config_num_devices set_config_keyboard_devices
           set_config_num_devices].
      rewrite Hu. reflexivity. }
  destruct Hplan as (p2 & Hp2 & E).
  exists (mk_world t dbg (Some (List.length h)) 1 rn g
            (h ++ [Some [Some "/dev/input/event4"]]) p2 f z i).
  split; [exact E|].
  split.
  - exists (List.length h). cbn. split; [reflexivity|]. split; [apply Hq | reflexivity].
  - split; [exact Hp2|]. split; reflexivity.
Qed.

Lemma set_default_keyboard_device_later (c : config_t) (w : world) :
  config_num_devices w <> 0 -> set_default_keyboard_device c w = (c, w).
Proof.
  intros H. unfold set_default_keyboard_device, bind, get.
  destruct (Z.eqb_spec (config_num_devices w) 0); [contradiction | reflexivity].
Qed.

Lemma nth_error_seq_map (l : list string) : forall pre : list string,
  map (fun i => match nth_error (map Some (pre ++ l)) i with
                | Some (Some s) => Some s
                | _ => None
                end)
      (seq (List.length pre) (List.length l))
  = map Some l.
Proof.
  induction l as [|x l IH]; intros pre; [reflexivity|].
  cbn [List.length seq map]. f_equal.
  - rewrite nth_error_map, nth_error_app2 by apply Nat.le_refl.
    now rewrite Nat.sub_diag.
  - replace (pre ++ x :: l) with ((pre ++ [x]) ++ l) by (now rewrite <- app_assoc).
    replace (S (List.length pre)) with (List.length (pre ++ [x]))
      by (rewrite length_app; cbn; lia).
    apply IH.
Qed.

(** A configuration that has taken over the static array reads exactly the
    stored paths through [keyboard_devices]. *)
Lemma device_paths_store (w : world) (c : config_t) (l : list string) :
  store_holds w l ->
  keyboard_devices c = config_keyboard_devices w ->
  num_keyboard_devices c = config_num_devices w ->
  device_paths (heap w) c = map Some l.
Proof.
  intros (q & Hq & Hb & Hn) Hk Hc.
  unfold device_paths. rewrite Hc, Hn, Nat2Z.id.
  rewrite <- (nth_error_seq_map l []). cbn [List.length app].
  apply map_ext. intros i. unfold device_at. now rewrite Hk, Hq, Hb.
Qed.

Lemma sanitize_devices (K : header_constants) (c : config_t) :
  keyboard_devices (set_bar_height (overlay_height (sanitize K c)) (sanitize K c))
  = keyboard_devices c
  /\ num_keyboard_devices (set_bar_height (overlay_height (sanitize K c)) (sanitize K c))
     = num_keyboard_devices c.
Proof. destruct c; split; reflexivity. Qed.

(** [load_config] on a file of device lines, from the state the default
    device block has left. *)
Lemma load_config_devices (K : header_constants) (path : option string)
    (w w1 : world) (c1 : config_t) (l ds : list string) :
  set_default_keyboard_device (default_config K) w = (c1, w1) ->
  fopen (fs w1) (file_path_of path) = Some (device_file ds) ->
  Forall (fun d => is_value_text d = true) ds ->
  store_holds w1 l -> plan_ok w1 ->
  exists c w',
    load_config K path w = ((BONGOCAT_SUCCESS, c), w')
    /\ store_holds w' (l ++ ds) /\ plan_ok w' /\ fs w' = fs w1
    /\ config_keyboard_devices w' = config_keyboard_devices w1
    /\ keyboard_devices c
       = keyboard_devices (match ds with [] => c1 | _ => with_devices w' c1 end)
    /\ num_keyboard_devices c
       = num_keyboard_devices (match ds with [] => c1 | _ => with_devices w' c1 end).
Proof.
  intros E1 Hf Hds Hs Hp.
  destruct (parse_config_file_devices K c1 path w1 l ds Hf Hds Hs Hp)
    as (c2 & w2 & E2 & Hs2 & Hp2 & Hf2 & _ & Hk2 & Hc2).
  rewrite load_config_unfold, E1, E2. cbn [is_success].
  destruct (validate_config_runs K c2 w2) as (lg & R & _). rewrite R. cbn [snd].
  set (cf := set_bar_height _ _).
  set (w3 := set_debug_enabled _ _).
  assert (H3 : store_holds w3 (l ++ ds) /\ plan_ok w3 /\ fs w3 = fs w1
               /\ config_keyboard_devices w3 = config_keyboard_devices w2
               /\ config_num_devices w3 = config_num_devices w2).
  { subst w3. destruct w2. repeat split; assumption. }
  clearbody w3.
  pose proof (log_loaded_config_keeps
                (fun w' => store_holds w' (l ++ ds) /\ plan_ok w' /\ fs w' = fs w1
                           /\ config_keyboard_devices w' = config_keyboard_devices w2
                           /\ config_num_devices w' = config_num_devices w2)
                K cf w3 ltac:(intros w0 e _ X; destruct w0; exact X) H3)
    as (Hs4 & Hp4 & Hf4 & Hk4 & Hn4).
  exists cf, (snd (log_loaded_config K cf w3)).
  split; [reflexivity|]. split; [exact Hs4|]. split; [exact Hp4|]. split; [exact Hf4|].
  split; [congruence|].
  destruct (sanitize_devices K c2) as [Ek En]. fold cf in Ek, En.
  rewrite Ek, En, Hc2.
  destruct ds; [split; reflexivity|].
  unfold with_devices. destruct c1.
  cbn [keyboard_devices num_keyboard_devices set_keyboard_devices
       set_num_keyboard_devices].
  rewrite Hk4, Hn4. split; reflexivity.
Qed.

(** X4.  On the first load the default device is stored before the file is
    read and is never taken back: when the file names the devices [ds], the
    configuration lists [/dev/input/event4] first and then [ds] in file
    order, one more than the file names. *)
Theorem first_load_keeps_default_device
    (K : header_constants) (path : option string) (w : world) (ds : list string) :
  config_num_devices w = 0 -> plan_ok w ->
  fopen (fs w) (file_path_of path) = Some (device_file ds) ->
  Forall (fun d => is_value_text d = true) ds ->
  exists c w',
    load_config K path w = ((BONGOCAT_SUCCESS, c), w')
    /\ store_holds w' ("/dev/input/event4" :: ds)
    /\ device_paths (heap w') c = map Some ("/dev/input/event4" :: ds)
    /\ num_keyboard_devices c = 1 + Z.of_nat (List.length ds).
Proof.
  intros Hn Hp Hf Hds.
  destruct (set_default_keyboard_device_first (default_config K) w Hn Hp)
    as (w1 & E1 & Hs1 & Hp1 & _ & Hf1).
  rewrite <- Hf1 in Hf.
  destruct (load_config_devices K path w w1 _ ["/dev/input/event4"] ds E1 Hf Hds Hs1 Hp1)
    as (c & w' & E & Hs & _ & _ & Hkw & Hk & Hc).
  exists c, w'. split; [exact E|]. split; [exact Hs|].
  assert (Hkc : keyboard_devices c = config_keyboard_devices w'
                /\ num_keyboard_devices c = config_num_devices w').
  { rewrite Hk, Hc.
    destruct ds as [|d ds]; unfold with_devices; destruct (default_config K); cbn;
      [|tauto].
    destruct Hs as (q & _ & _ & Hm). destruct Hs1 as (q1 & _ & _ & Hm1).
    rewrite Hkw, Hm, Hm1. split; reflexivity. }
  destruct Hkc as [Hk' Hc'].
  split; [now apply device_paths_store|].
  destruct Hs as (q & _ & _ & Hm). rewrite Hc', Hm. cbn [List.length app]. lia.
Qed.

Lemma first_load_keeps_default_device_witness :
  let w := process_start
             [("bongocat.conf", device_file ["/dev/input/event3"; "/dev/input/event7"])]
             [] in
  exists c w',
    load_config sample_constants None w = ((BONGOCAT_SUCCESS, c), w')
    /\ store_holds w' ["/dev/input/event4"; "/dev/input/event3"; "/dev/input/event7"]
    /\ device_paths (heap w') c
       = [Some "/dev/input/event4"; Some "/dev/input/event3"; Some "/dev/input/event7"]
    /\ num_keyboard_devices c = 3.
Proof.
  cbv zeta.
  apply (first_load_keeps_default_device sample_constants None _
           ["/dev/input/event3"; "/dev/input/event7"]).
  - reflexivity.
  - reflexivity.
  - reflexivity.
  - repeat constructor.
Defined.

(** X5.  A reload appends.  When the static array already holds the paths
    [l] (at least one), loading a file that names [ds] leaves [l] followed
    by [ds] in the array; the configuration lists all of them when the file
    names a device, and none at all (NULL, count 0) when it names none. *)
Theorem reload_appends_devices
    (K : header_constants) (path : option string) (w : world) (l ds : list string) :
  store_holds w l -> l <> [] -> plan_ok w ->
  fopen (fs w) (file_path_of path) = Some (device_file ds) ->
  Forall (fun d => is_value_text d = true) ds ->
  exists c w',
    load_config K path w = ((BONGOCAT_SUCCESS, c), w')
    /\ store_holds w' (l ++ ds)
    /\ device_paths (heap w') c = match ds with [] => [] | _ => map Some (l ++ ds) end
    /\ num_keyboard_devices c
       = match ds with [] => 0 | _ => Z.of_nat (List.length l + List.length ds) end
    /\ (ds = [] -> keyboard_devices c = None).
Proof.
  intros Hs Hl Hp Hf Hds.
  assert (Hn : config_num_devices w <> 0).
  { destruct Hs as (q & _ & _ & Hm). rewrite Hm. destruct l; [contradiction | cbn; lia]. }
  pose proof (set_default_keyboard_device_later (default_config K) w Hn) as E1.
  destruct (load_config_devices K path w w _ l ds E1 Hf Hds Hs Hp)
    as (c & w' & E & Hs' & _ & _ & Hkw & Hk & Hc).
  exists c, w'. split; [exact E|]. split; [exact Hs'|].
  destruct ds as [|d ds].
  - cbn in Hk, Hc. unfold device_paths. rewrite Hc. cbn.
    split; [reflexivity|]. split; [reflexivity|]. intros _. exact Hk.
  - assert (Hkc : keyboard_devices c = config_keyboard_devices w'
                  /\ num_keyboard_devices c = config_num_devices w').
    { rewrite Hk, Hc. unfold with_devices. destruct (default_config K); cbn. tauto. }
    destruct Hkc as [Hk' Hc'].
    split; [now apply device_paths_store|].
    split; [|discriminate].
    destruct Hs' as (q & _ & _ & Hm). rewrite Hc', Hm, length_app. reflexivity.
Qed.

Lemma reload_appends_devices_witness :
  let w := set_fs [("bongocat.conf", device_file ["/dev/input/event3"])]
             (started_with (line "fps=30")) in
  exists c w',
    load_config sample_constants None w = ((BONGOCAT_SUCCESS, c), w')
    /\ store_holds w' ["/dev/input/event4"; "/dev/input/event3"]
    /\ device_paths (heap w') c = [Some "/dev/input/event4"; Some "/dev/input/event3"]
    /\ num_keyboard_devices c = 2
    /\ (["/dev/input/event3"] = [] -> keyboard_devices c = None).
Proof.
  cbv zeta.
  apply (reload_appends_devices sample_constants None _
           ["/dev/input/event4"] ["/dev/input/event3"]).
  - exists 0%nat. vm_compute. repeat split.
  - discriminate.
  - vm_compute. reflexivity.
  - vm_compute. reflexivity.
  - repeat constructor.
Defined.


(** ** One warning for each repair *)



Section ValidateCounts.

Variable K : header_constants.
Hypothesis animations : 0 < TOTAL_ANIMATIONS K.
Hypothesis bongocat_frames : 0 < BONGOCAT_NUM_FRAMES K.
Hypothesis max_frames : 0 < MAX_NUM_FRAMES K.















End ValidateCounts.




(** ** The device comparison as a comparison of sets *)

Lemma same_path_eq (a b : option string) : same_path a b = true <-> a = b.
Proof.
  destruct a as [s|], b as [t|]; cbn; try (split; [discriminate | congruence]).
  - rewrite String.eqb_eq. split; congruence.
  - tauto.
Qed.

Lemma existsb_same_path (a : option string) (l : list (option string)) :
  existsb (same_path a) l = true <-> In a l.
Proof.
  rewrite existsb_exists. split.
  - intros (x & Hx & E). apply same_path_eq in E. now subst.
  - intros H. exists a. split; [exact H | now apply same_path_eq].
Qed.

Lemma forallb_same_path (l1 l2 : list (option string)) :
  forallb (fun a => existsb (same_path a) l2) l1 = true <-> incl l1 l2.
Proof.
  rewrite forallb_forall. unfold incl.
  split; intros H a Ha; apply existsb_same_path; now apply H.
Qed.

Lemma in_device_paths (h : list (option block)) (c : config_t) (a : option string) :
  In a (device_paths h c)
  <-> exists k, (k < Z.to_nat (num_keyboard_devices c))%nat /\ device_at h c k = a.
Proof.
  unfold device_paths. rewrite in_map_iff. split.
  - intros (k & E & Hk). apply in_seq in Hk. exists k. split; [lia | exact E].
  - intros (k & Hk & E). exists k. split; [exact E|]. apply in_seq. lia.
Qed.

Lemma device_paths_length (h : list (option block)) (c : config_t) :
  List.length (device_paths h c) = Z.to_nat (num_keyboard_devices c).
Proof. unfold device_paths. now rewrite length_map, length_seq. Qed.

Section DevicesCompared.

Variable h : list (option block).
Variables old_config new_config : config_t.
Hypothesis old_valid : ~ In None (device_paths h old_config).
Hypothesis new_valid : ~ In None (device_paths h new_config).

Lemma device_at_valid (c : config_t) (k : nat) :
  ~ In None (device_paths h c) -> (k < Z.to_nat (num_keyboard_devices c))%nat ->
  exists s, device_at h c k = Some s.
Proof.
  intros Hv Hk. destruct (device_at h c k) as [s|] eqn:E; [now exists s|].
  contradiction Hv. apply in_device_paths. now exists k.
Qed.

Lemma find_device_total (i : nat) :
  (i < Z.to_nat (num_keyboard_devices new_config))%nat ->
  forall rounds j : nat,
    (j + rounds <= Z.to_nat (num_keyboard_devices old_config))%nat ->
    exists found, find_device h old_config new_config i j rounds = Some found.
Proof.
  intros Hi. destruct (device_at_valid new_config i new_valid Hi) as (a & Ea).
  induction rounds as [|rounds IH]; intros j Hj; cbn; [now exists false|].
  destruct (device_at_valid old_config j old_valid ltac:(lia)) as (b & Eb).
  rewrite Ea, Eb. destruct (a =? b)%string; [now exists true|].
  apply IH. lia.
Qed.

Lemma any_device_missing_total : forall rounds i : nat,
  (i + rounds <= Z.to_nat (num_keyboard_devices new_config))%nat ->
  exists missing, any_device_missing h old_config new_config i rounds = Some missing.
Proof.
  induction rounds as [|rounds IH]; intros i Hi; cbn; [now exists false|].
  destruct (find_device_total i ltac:(lia) (Z.to_nat (num_keyboard_devices old_config)) 0
              ltac:(lia)) as ([|] & E); rewrite E.
  - apply IH. lia.
  - now exists true.
Qed.

Lemma config_devices_changed_total :
  exists changed, config_devices_changed h old_config new_config = Some changed.
Proof.
  unfold config_devices_changed.
  destruct (negb _); [now exists true|].
  apply any_device_missing_total. lia.
Qed.

End DevicesCompared.

(** X7.  When every entry of both arrays is a stored string and neither
    array lists a path twice, [config_devices_changed] returns, and it
    answers "changed" exactly when the two arrays are different sets of
    paths: the order of the entries does not matter. *)
Theorem config_devices_changed_compares_sets
    (h : list (option block)) (old_config new_config : config_t) :
  0 <= num_keyboard_devices old_config -> 0 <= num_keyboard_devices new_config ->
  ~ In None (device_paths h old_config) -> ~ In None (device_paths h new_config) ->
  NoDup (device_paths h old_config) -> NoDup (device_paths h new_config) ->
  config_devices_changed h old_config new_config
  = Some (negb (same_device_set h old_config new_config)).
Proof.
  intros Ho Hn Vo Vn Do Dn.
  destruct (config_devices_changed_total h old_config new_config Vo Vn) as (changed & E).
  rewrite E. f_equal.
  pose proof (config_devices_changed_spec h old_config new_config changed E) as Hspec.
  assert (Hmiss : (exists k, (k < Z.to_nat (num_keyboard_devices new_config))%nat
                             /\ forall j, (j < Z.to_nat (num_keyboard_devices old_config))%nat ->
                                          device_at h old_config j <> device_at h new_config k)
                  <-> ~ incl (device_paths h new_config) (device_paths h old_config)).
  { split.
    - intros (k & Hk & Hall) Hincl.
      assert (Hin : In (device_at h new_config k) (device_paths h new_config))
        by (apply in_device_paths; now exists k).
      apply Hincl, in_device_paths in Hin. destruct Hin as (j & Hj & Ej).
      exact (Hall j Hj Ej).
    - intros Hni.
      destruct (forallb (fun a => existsb (same_path a) (device_paths h old_config))
                  (device_paths h new_config)) eqn:F.
      + contradiction Hni. now apply forallb_same_path.
      + assert (Hex : exists a, In a (device_paths h new_config)
                                /\ ~ In a (device_paths h old_config)).
        { clear -F. induction (device_paths h new_config) as [|a l IH];
            [discriminate F|]. cbn in F. apply andb_false_iff in F.
          destruct F as [F|F].
          - exists a. split; [now left|]. intros Hin.
            apply existsb_same_path in Hin. congruence.
          - destruct (IH F) as (b & Hb & Hnb). exists b. split; [now right | exact Hnb]. }
        destruct Hex as (a & Ha & Hna). apply in_device_paths in Ha.
        destruct Ha as (k & Hk & Ek). exists k. split; [exact Hk|].
        intros j Hj Ej. apply Hna. apply in_device_paths. exists j.
        split; [exact Hj | congruence]. }
  unfold same_device_set.
  destruct (forallb (fun a => existsb (same_path a) (device_paths h old_config))
              (device_paths h new_config)) eqn:F1; cbn [andb].
  - apply forallb_same_path in F1.
    destruct (forallb (fun a => existsb (same_path a) (device_paths h new_config))
                (device_paths h old_config)) eqn:F2; cbn [negb].
    + apply forallb_same_path in F2.
      pose proof (NoDup_incl_length Do F2) as L1.
      pose proof (NoDup_incl_length Dn F1) as L2.
      rewrite !device_paths_length in L1, L2.
      destruct changed; [|reflexivity].
      destruct Hspec as [Hspec _]. destruct (Hspec eq_refl) as [Hc|Hc]; [lia|].
      apply Hmiss in Hc. contradiction.
    + destruct changed; [reflexivity|]. exfalso.
      assert (Heq : num_keyboard_devices old_config = num_keyboard_devices new_config).
      { destruct (Z.eq_dec (num_keyboard_devices old_config)
                    (num_keyboard_devices new_config)) as [e|ne]; [exact e|].
        destruct Hspec as [_ Hspec]. discriminate (Hspec (or_introl ne)). }
      assert (F2' : incl (device_paths h old_config) (device_paths h new_config)).
      { apply (NoDup_length_incl Dn); [|exact F1].
        rewrite !device_paths_length, Heq. apply Nat.le_refl. }
      apply forallb_same_path in F2'. congruence.
  - cbn [negb]. destruct changed; [reflexivity|]. exfalso.
    destruct Hspec as [_ Hspec].
    assert (Hni : ~ incl (device_paths h new_config) (device_paths h old_config)).
    { intros Hi. apply forallb_same_path in Hi. congruence. }
    apply Hmiss in Hni. discriminate (Hspec (or_intror Hni)).
Qed.

Lemma config_devices_changed_compares_sets_witness :
  let h := [Some [Some "/dev/input/event3"; Some "/dev/input/event7"];
            Some [Some "/dev/input/event7"; Some "/dev/input/event3"]] in
  config_devices_changed h (config_with_devices 0%nat 2) (config_with_devices 1%nat 2)
  = Some (negb (same_device_set h (config_with_devices 0%nat 2)
                  (config_with_devices 1%nat 2))).
Proof.
  cbv zeta.
  apply config_devices_changed_compares_sets.
  - discriminate.
  - discriminate.
  - cbn. intros [H|[H|[]]]; discriminate H.
  - cbn. intros [H|[H|[]]]; discriminate H.
  - cbn. apply NoDup_cons; [cbn; intros [H|[]]; discriminate H|].
    apply NoDup_cons; [cbn; tauto | apply NoDup_nil].
  - cbn. apply NoDup_cons; [cbn; intros [H|[]]; discriminate H|].
    apply NoDup_cons; [cbn; tauto | apply NoDup_nil].
Defined.


(** ** Failed allocations *)

Lemma add_keyboard_device_result (value : string) (c : config_t)
    (r : bongocat_error_t) (w : world) :
  snd (fst (add_keyboard_device value c r w)) = r
  \/ snd (fst (add_keyboard_device value c r w)) = BONGOCAT_ERROR_MEMORY.
Proof.
  unfold add_keyboard_device, realloc_array, next_alloc, new_block, store_slot,
    bongocat_log_error, emit, bind, get, modify, ret.
  destruct w as [t d kd n rn g h p f z i]. cbn.
  repeat match goal with
         | |- context [match ?x with _ => _ end] => is_var x; destruct x; cbn
         | |- context [match nth_error ?l ?q with _ => _ end] =>
             destruct (nth_error l q) as [[?|]|]; cbn
         end; auto.
Qed.

Lemma parse_key_value_result (K : header_constants) (n : Z) (key value : string)
    (c : config_t) (r : bongocat_error_t) (w : world) :
  snd (fst (parse_key_value K n key value c r w)) = r
  \/ snd (fst (parse_key_value K n key value c r w)) = BONGOCAT_ERROR_MEMORY.
Proof.
  unfold parse_key_value.
  repeat match goal with
         | |- context [if ?b then _ else _] => destruct b
         end;
    try apply add_keyboard_device_result; left; reflexivity.
Qed.

Lemma parse_line_result (K : header_constants) (n : Z) (buf : string)
    (c : config_t) (r : bongocat_error_t) (w : world) :
  snd (fst (parse_line K n buf c r w)) = r
  \/ snd (fst (parse_line K n buf c r w)) = BONGOCAT_ERROR_MEMORY.
Proof.
  unfold parse_line.
  destruct (line_is_skipped _); [now left|].
  destruct (sscanf_key_value _) as [[k key] value].
  destruct (k =? 2); [apply parse_key_value_result|].
  destruct (0 <? _)%nat; now left.
Qed.

(** The result code of the loop is the one it started with, or
    [BONGOCAT_ERROR_MEMORY]; an error, once set, stays. *)
Lemma parse_lines_result (K : header_constants) (fuel : nat) :
  forall (file : string) (n : Z) (c : config_t) (r : bongocat_error_t) (w : world),
    snd (fst (parse_lines K fuel file n c r w)) = r
    \/ snd (fst (parse_lines K fuel file n c r w)) = BONGOCAT_ERROR_MEMORY.
Proof.
  induction fuel as [|fuel IH]; intros file n c r w; cbn [parse_lines]; [now left|].
  destruct (fgets 512 file) as [[buf file']|]; [|now left].
  unfold bind.
  pose proof (parse_line_result K (n + 1) buf c r w) as H1.
  destruct (parse_line K (n + 1) buf c r w) as [[c' r'] w']. cbn [fst snd] in H1.
  destruct (IH file' (n + 1) c' r' w') as [H2|H2]; [|now right].
  rewrite H2. exact H1.
Qed.

Lemma parse_config_file_result (K : header_constants) (c : config_t)
    (path : option string) (w : world) :
  fst (fst (parse_config_file K c path w)) = BONGOCAT_SUCCESS
  \/ fst (fst (parse_config_file K c path w)) = BONGOCAT_ERROR_MEMORY.
Proof.
  unfold parse_config_file, bind, get.
  destruct (fopen (fs w) _) as [file|]; [|now left].
  pose proof (parse_lines_result K (String.length file) file 0 c BONGOCAT_SUCCESS w) as H.
  destruct (parse_lines K _ file 0 c BONGOCAT_SUCCESS w) as [[c' r'] w'].
  cbn [fst snd] in H. destruct (is_success r'); exact H.
Qed.

Lemma plan_ok_or_failure (w : world) : plan_ok w \/ In false (alloc_plan w).
Proof.
  unfold plan_ok. induction (alloc_plan w) as [|b l IH]; [now left|].
  destruct b; [|right; now left].
  destruct IH as [IH|IH]; [left; exact IH | right; now right].
Qed.

Lemma load_config_plan_ok (K : header_constants) (path : option string) (w : world) :
  plan_ok w -> fst (fst (load_config K path w)) = BONGOCAT_SUCCESS.
Proof.
  intros Hw. rewrite load_config_unfold.
  pose proof (triple_set_default_keyboard_device plan_ok plan_ok_stable
                (default_config K) w Hw) as [_ H1].
  destruct (set_default_keyboard_device (default_config K) w) as [c1 w1]. cbn in H1.
  pose proof (parse_config_file_plan_ok K c1 path w1 H1) as [H2 _].
  destruct (parse_config_file K c1 path w1) as [[r c2] w2]. cbn in H2. subst r.
  reflexivity.
Qed.

(** X8.  [load_config] can fail in one way only.  When it does not return
    [BONGOCAT_SUCCESS] it returns [BONGOCAT_ERROR_MEMORY], some allocation
    has failed, and the last line it printed is the error line that names
    the memory error; a missing file, a malformed line, an unknown key or an
    out-of-range value never makes it fail. *)
Theorem load_config_fails_only_on_allocation
    (K : header_constants) (path : option string) (w : world) :
  fst (fst (load_config K path w)) <> BONGOCAT_SUCCESS ->
  fst (fst (load_config K path w)) = BONGOCAT_ERROR_MEMORY
  /\ In false (alloc_plan w)
  /\ exists t,
       trace (snd (load_config K path w))
       = t ++ [Log LOG_ERROR "Failed to parse configuration file: %s"
                 [ArgStr "Memory allocation error"]].
Proof.
  intros Hfail.
  assert (Hplan : In false (alloc_plan w)).
  { destruct (plan_ok_or_failure w) as [Hp|Hp]; [|exact Hp].
    contradiction Hfail. now apply load_config_plan_ok. }
  revert Hfail. rewrite load_config_unfold.
  destruct (set_default_keyboard_device (default_config K) w) as [c1 w1].
  pose proof (parse_config_file_result K c1 path w1) as Hr.
  destruct (parse_config_file K c1 path w1) as [[r c2] w2]. cbn [fst snd] in Hr.
  destruct Hr as [->| ->]; cbn [is_success fst snd]; intros Hfail.
  - now contradiction Hfail.
  - split; [reflexivity|]. split; [exact Hplan|].
    exists (trace w2). destruct w2; reflexivity.
Qed.

Lemma load_config_fails_only_on_allocation_witness :
  let w := process_start
             [("bongocat.conf", device_file ["/dev/input/event3"])]
             [true; true; false] in
  fst (fst (load_config sample_constants None w)) = BONGOCAT_ERROR_MEMORY
  /\ In false (alloc_plan w)
  /\ exists t,
       trace (snd (load_config sample_constants None w))
       = t ++ [Log LOG_ERROR "Failed to parse configuration file: %s"
                 [ArgStr "Memory allocation error"]].
Proof.
  cbv zeta.
  apply (load_config_fails_only_on_allocation sample_constants None).
  vm_compute. discriminate.
Defined.

(** X9.  A failed [realloc] loses the device array.  When the static array
    holds the paths [l] and the allocator refuses to grow it, the
    [keyboard_device] line prints one error, returns
    [BONGOCAT_ERROR_MEMORY] and leaves the configuration as it was; the
    static pointer is NULL while the count still is the length of [l], the
    block is still allocated, and [config_cleanup] then frees nothing. *)
Theorem realloc_failure_loses_device_array
    (d : string) (c : config_t) (r : bongocat_error_t) (w : world)
    (l : list string) (rest : list bool) :
  store_holds w l -> alloc_plan w = false :: rest ->
  exists w',
    add_keyboard_device d c r w = ((c, BONGOCAT_ERROR_MEMORY), w')
    /\ config_keyboard_devices w' = None
    /\ config_num_devices w' = Z.of_nat (List.length l)
    /\ heap w' = heap w
    /\ (exists q, config_keyboard_devices w = Some q
                  /\ nth_error (heap w') q = Some (Some (map Some l)))
    /\ trace w'
       = trace w ++ [Log LOG_ERROR "Failed to allocate memory for keyboard_devices" []]
    /\ config_cleanup w' = (tt, w').
Proof.
  intros (q & Hq & Hb & Hn) Hp.
  destruct w as [t dbg kd n rn g h p f z i]. cbn in Hq, Hb, Hn, Hp. subst kd n p.
  eexists. split; [reflexivity|]. cbn.
  split; [reflexivity|]. split; [reflexivity|]. split; [reflexivity|].
  split; [exists q; split; [reflexivity | exact Hb]|].
  split; reflexivity.
Qed.

Lemma realloc_failure_loses_device_array_witness :
  let w := set_alloc_plan [false]
             (started_with (line "keyboard_device=/dev/input/event3")) in
  exists w',
    add_keyboard_device "/dev/input/event7" (g_config w) BONGOCAT_SUCCESS w
    = ((g_config w, BONGOCAT_ERROR_MEMORY), w')
    /\ config_keyboard_devices w' = None
    /\ config_num_devices w' = 2
    /\ heap w' = heap w
    /\ (exists q, config_keyboard_devices w = Some q
                  /\ nth_error (heap w') q
                     = Some (Some (map Some ["/dev/input/event4"; "/dev/input/event3"])))
    /\ trace w'
       = trace w ++ [Log LOG_ERROR "Failed to allocate memory for keyboard_devices" []]
    /\ config_cleanup w' = (tt, w').
Proof.
  cbv zeta.
  apply (realloc_failure_loses_device_array "/dev/input/event7" _ BONGOCAT_SUCCESS _
           ["/dev/input/event4"; "/dev/input/event3"] []).
  - exists 0%nat. vm_compute. repeat split.
  - vm_compute. reflexivity.
Defined.

(** Computations that only append events of one kind to the trace. *)
Lemma appends_ret {A : Type} (Q : event -> bool) (a : A) : appends Q (ret a).
Proof. intros w. exists []. split; [symmetry; apply set_trace_nil | reflexivity]. Qed.







(** ** Concrete instances of the consistency lemmas *)

Lemma main_load_config_consistent_witness :
  consistent (snd (main_load_config sample_constants None
                     (process_start [("bongocat.conf", device_file ["/dev/input/event3"])]
                        [true; true; false]))).
Proof.
  apply (main_load_config_consistent sample_constants None). cbn. lia.
Defined.

Lemma config_reload_callback_total_witness :
  let w := started_with (line "fps=30") in
  exists w',
    config_reload_callback sample_constants "bongocat.conf" w = Some w'
    /\ consistent w'
    /\ (fst (fst (reload_attempt sample_constants "bongocat.conf" w)) = BONGOCAT_SUCCESS ->
        config_devices_changed
          (heap (snd (reload_attempt sample_constants "bongocat.conf" w)))
          (g_config w) (snd (fst (reload_attempt sample_constants "bongocat.conf" w)))
        = Some (negb (num_keyboard_devices (g_config w)
                      =? num_keyboard_devices
                           (snd (fst (reload_attempt sample_constants "bongocat.conf" w)))))).
Proof.
  cbv zeta.
  apply (config_reload_callback_total sample_constants "bongocat.conf").
  split; vm_compute; discriminate.
Defined.

(** ** error.c: the message of an error code *)

(** X13.  The messages of [bongocat_error_string] are pairwise distinct: the
    text printed for a failure identifies its error code. *)
Theorem bongocat_error_string_injective (a b : bongocat_error_t) :
  bongocat_error_string a = bongocat_error_string b -> a = b.
Proof.
  destruct a, b; intros H; try reflexivity; discriminate H.
Qed.

Lemma bongocat_error_string_injective_witness :
  BONGOCAT_ERROR_MEMORY = BONGOCAT_ERROR_MEMORY.
Proof.
  apply (bongocat_error_string_injective BONGOCAT_ERROR_MEMORY BONGOCAT_ERROR_MEMORY).
  reflexivity.
Defined.


(** ** The command line *)

Lemma option_spellings (arg : string) :
  (is_help_option arg = true -> is_version_option arg = false
     /\ is_config_option arg = false /\ is_watch_option arg = false
     /\ is_toggle_option arg = false)
  /\ (is_version_option arg = true -> is_config_option arg = false
        /\ is_watch_option arg = false /\ is_toggle_option arg = false)
  /\ (is_config_option arg = true -> is_watch_option arg = false
        /\ is_toggle_option arg = false)
  /\ (is_watch_option arg = true -> is_toggle_option arg = false).
Proof.
  unfold is_help_option, is_version_option, is_config_option, is_watch_option,
    is_toggle_option.
  split; [intros E | split; [intros E | split; intros E]];
    apply orb_prop in E; destruct E as [E|E]; apply String.eqb_eq in E; subst;
    repeat split; reflexivity.
Qed.

Lemma cli_parse_loop_flags : forall (rest : list string) (args : cli_args_t) (w : world),
  existsb is_config_option rest = false ->
  runs (cli_parse_loop rest args) w
    (0, mk_cli_args (config_file args)
          (watch_config args || existsb is_watch_option rest)
          (toggle_mode args || existsb is_toggle_option rest)
          (show_help args || existsb is_help_option rest)
          (show_version args || existsb is_version_option rest))
    (map unknown_argument_warning (filter is_unknown_argument rest)).
Proof.
  induction rest as [|arg rest IH]; intros args w Hc.
  - cbn. rewrite !orb_false_r. destruct args. apply runs_ret.
  - cbn [existsb] in Hc. apply orb_false_elim in Hc. destruct Hc as [Hc Hrest].
    destruct (option_spellings arg) as (S1 & S2 & _ & S4).
    cbn [cli_parse_loop existsb filter].
    change ((arg =? "--help") || (arg =? "-h"))%string with (is_help_option arg).
    change ((arg =? "--version") || (arg =? "-v"))%string with (is_version_option arg).
    change ((arg =? "--config") || (arg =? "-c"))%string with (is_config_option arg).
    change ((arg =? "--watch-config") || (arg =? "-w"))%string with (is_watch_option arg).
    change ((arg =? "--toggle") || (arg =? "-t"))%string with (is_toggle_option arg).
    unfold is_unknown_argument at 1. rewrite Hc.
    destruct (is_help_option arg) eqn:Eh.
    { destruct (S1 eq_refl) as (-> & _ & -> & ->). cbn [orb negb].
      specialize (IH (set_show_help true args) w Hrest).
      destruct args. cbn in IH |- *. rewrite !orb_true_r. exact IH. }
    destruct (is_version_option arg) eqn:Ev.
    { destruct (S2 eq_refl) as (_ & -> & ->). cbn [orb negb].
      specialize (IH (set_show_version true args) w Hrest).
      destruct args. cbn in IH |- *. rewrite !orb_true_r. exact IH. }
    destruct (is_watch_option arg) eqn:Ew.
    { rewrite (S4 eq_refl). cbn [orb negb].
      specialize (IH (set_watch_config true args) w Hrest).
      destruct args. cbn in IH |- *. rewrite !orb_true_r. exact IH. }
    destruct (is_toggle_option arg) eqn:Et.
    { cbn [orb negb].
      specialize (IH (set_toggle_mode true args) w Hrest).
      destruct args. cbn in IH |- *. rewrite !orb_true_r. exact IH. }
    cbn [orb negb map].
    change (unknown_argument_warning arg :: ?l) with ([unknown_argument_warning arg] ++ l).
    eapply runs_bind; [reflexivity|]. apply IH. exact Hrest.
Qed.

(** X14.  Without a [--config] option the command line is a set of flags:
    [cli_parse_arguments] returns 0, leaves [config_file] NULL, sets each
    flag exactly when one of its two spellings occurs after the program
    name, and prints one warning, in order, for every other argument.  The
    order and the repetition of the flags do not matter. *)
Theorem cli_flags_without_config (argv : list string) (w : world) :
  existsb is_config_option (tl argv) = false ->
  runs (cli_parse_arguments argv) w
    (0, mk_cli_args None
          (existsb is_watch_option (tl argv))
          (existsb is_toggle_option (tl argv))
          (existsb is_help_option (tl argv))
          (existsb is_version_option (tl argv)))
    (map unknown_argument_warning (filter is_unknown_argument (tl argv))).
Proof.
  intros H. unfold cli_parse_arguments.
  exact (cli_parse_loop_flags (tl argv) (mk_cli_args None false false false false) w H).
Qed.

Lemma cli_flags_without_config_witness :
  runs (cli_parse_arguments ["bongocat"; "-t"; "--fast"; "-w"; "-t"]) (process_start [] [])
    (0, mk_cli_args None true true false false)
    [Log LOG_WARNING "Unknown argument: %s" [ArgStr "--fast"]].
Proof.
  apply (cli_flags_without_config ["bongocat"; "-t"; "--fast"; "-w"; "-t"]).
  reflexivity.
Defined.

Lemma cli_parse_loop_outcome (n : nat) : forall (rest : list string) (args : cli_args_t)
    (w : world),
  (List.length rest <= n)%nat ->
  (fst (fst (cli_parse_loop rest args w)) = 0
   /\ forall p, config_file (snd (fst (cli_parse_loop rest args w))) = Some p ->
                config_file args = Some p
                \/ exists l1 c l2, rest = l1 ++ c :: p :: l2 /\ is_config_option c = true)
  \/ (fst (fst (cli_parse_loop rest args w)) = EXIT_FAILURE
      /\ (exists init a, rest = init ++ [a] /\ is_config_option a = true)
      /\ exists t,
           trace (snd (cli_parse_loop rest args w))
           = t ++ [Log LOG_ERROR "--config option requires a file path" []]).
Proof.
  induction n as [|n IH]; intros rest args w Hn.
  - destruct rest; [|cbn in Hn; lia]. left. cbn. split; [reflexivity | auto].
  - destruct rest as [|arg rest]; [left; cbn; split; [reflexivity | auto]|].
    cbn [List.length] in Hn.
    assert (Hstep : forall (args' : cli_args_t) (w' : world),
               config_file args' = config_file args ->
               (fst (fst (cli_parse_loop rest args' w')) = 0
                /\ forall p, config_file (snd (fst (cli_parse_loop rest args' w'))) = Some p ->
                             config_file args = Some p
                             \/ exists l1 c l2, arg :: rest = l1 ++ c :: p :: l2
                                                /\ is_config_option c = true)
               \/ (fst (fst (cli_parse_loop rest args' w')) = EXIT_FAILURE
                   /\ (exists init a, arg :: rest = init ++ [a] /\ is_config_option a = true)
                   /\ exists t,
                        trace (snd (cli_parse_loop rest args' w'))
                        = t ++ [Log LOG_ERROR "--config option requires a file path" []])).
    { intros args' w' Ha.
      destruct (IH rest args' w' ltac:(lia)) as [[H0 Hp]|(H1 & (init & a & -> & Hc) & Ht)].
      - left. split; [exact H0|]. intros p Hpp.
        destruct (Hp p Hpp) as [Hq|(l1 & c & l2 & -> & Hc)].
        + left. congruence.
        + right. exists (arg :: l1), c, l2. split; [reflexivity | exact Hc].
      - right. split; [exact H1|]. split; [|exact Ht].
        exists (arg :: init), a. split; [reflexivity | exact Hc]. }
    cbn [cli_parse_loop].
    destruct ((arg =? "--help") || (arg =? "-h"))%string;
      [apply Hstep; destruct args; reflexivity|].
    destruct ((arg =? "--version") || (arg =? "-v"))%string;
      [apply Hstep; destruct args; reflexivity|].
    destruct ((arg =? "--config") || (arg =? "-c"))%string eqn:Ec.
    + destruct rest as [|path rest].
      * right. cbn. split; [reflexivity|]. split.
        -- exists [], arg. split; [reflexivity | exact Ec].
        -- exists (trace w). destruct w; reflexivity.
      * cbn [List.length] in Hn.
        destruct (IH rest (set_config_file (Some path) args) w ltac:(lia))
          as [[H0 Hp]|(H1 & (init & a & -> & Hc) & Ht)].
        -- left. split; [exact H0|]. intros p Hpp.
           destruct (Hp p Hpp) as [Hq|(l1 & c & l2 & -> & Hc)].
           ++ right. exists [], arg, rest. destruct args; cbn in Hq.
              injection Hq as ->. split; [reflexivity | exact Ec].
           ++ right. exists (arg :: path :: l1), c, l2. split; [reflexivity | exact Hc].
        -- right. split; [exact H1|]. split; [|exact Ht].
           exists (arg :: path :: init), a. split; [reflexivity | exact Hc].
    + destruct ((arg =? "--watch-config") || (arg =? "-w"))%string;
        [apply Hstep; destruct args; reflexivity|].
      destruct ((arg =? "--toggle") || (arg =? "-t"))%string;
        [apply Hstep; destruct args; reflexivity|].
      unfold bind, bongocat_log_warning, emit, modify. cbv iota beta.
      apply Hstep. reflexivity.
Qed.

(** X15.  [cli_parse_arguments] fails in one case only.  It returns 0 or
    [EXIT_FAILURE]; it returns [EXIT_FAILURE] only when the last argument is
    [--config] or [-c] with no path after it, and then the last line it
    printed is the error that says so; and whenever it reports a configuration
    file, that path stands on the command line right after a [--config] or
    [-c]. *)
Theorem cli_parse_fails_only_on_missing_path (argv : list string) (w : world) :
  (fst (fst (cli_parse_arguments argv w)) = 0
   /\ forall p, config_file (snd (fst (cli_parse_arguments argv w))) = Some p ->
                exists l1 c l2, tl argv = l1 ++ c :: p :: l2 /\ is_config_option c = true)
  \/ (fst (fst (cli_parse_arguments argv w)) = EXIT_FAILURE
      /\ (exists init a, tl argv = init ++ [a] /\ is_config_option a = true)
      /\ exists t,
           trace (snd (cli_parse_arguments argv w))
           = t ++ [Log LOG_ERROR "--config option requires a file path" []]).
Proof.
  unfold cli_parse_arguments.
  destruct (cli_parse_loop_outcome (List.length (tl argv)) (tl argv)
              (mk_cli_args None false false false false) w (Nat.le_refl _))
    as [[H0 Hp]|H1]; [left | right; exact H1].
  split; [exact H0|]. intros p Hpp.
  destruct (Hp p Hpp) as [Hq|Hq]; [discriminate Hq | exact Hq].
Qed.


(** ** The PID file *)

Lemma skipn_app_exact {A : Type} (l x : list A) : skipn (List.length l) (l ++ x) = x.
Proof. induction l as [|a l IH]; [reflexivity | exact IH]. Qed.

Lemma calls_since_app (w w' : world) (e e' : Z) (ans ans' : list answer)
    (calls l : list (system_call * answer)) :
  calls_since (mk_process w e ans calls) (mk_process w' e' ans' (calls ++ l)) = l.
Proof. unfold calls_since. cbn [proc_calls]. apply skipn_app_exact. Qed.


Ltac process_state :=
  cbv beta iota zeta;
  cbn [proc_world proc_errno proc_answers proc_calls fst snd].

(** Symbolic execution of a computation without loops: unfold the monad,
    then split on every test. *)
Ltac run_process :=
  unfold mbind, mret, call, errno, lift, read_result, bongocat_log_error,
    bongocat_log_info, bongocat_log_warning, process_remove_pid_file, emit, modify;
  process_state;
  repeat match goal with
         | |- context [if ?b then _ else _] => destruct b eqn:?; process_state
         end.

Ltac since_calls :=
  unfold makes_calls; process_state;
  rewrite <- ?app_assoc; rewrite ?calls_since_app;
  cbn [app opened closed signals_sent sleeps handlers_installed signals_ignored];
  repeat match goal with
         | H : ?b = _ |- context [if ?b then _ else _] => rewrite H
         end.

Ltac to_Z :=
  repeat match goal with
         | H : (_ <? _) = true |- _ => apply Z.ltb_lt in H
         | H : (_ <? _) = false |- _ => apply Z.ltb_ge in H
         | H : (_ <=? _) = true |- _ => apply Z.leb_le in H
         | H : (_ <=? _) = false |- _ => apply Z.leb_gt in H
         | H : (_ >? _) = true |- _ => rewrite Z.gtb_ltb in H; apply Z.ltb_lt in H
         | H : (_ >? _) = false |- _ => rewrite Z.gtb_ltb in H; apply Z.ltb_ge in H
         | H : (_ =? _) = true |- _ => apply Z.eqb_eq in H
         | H : (_ =? _) = false |- _ => apply Z.eqb_neq in H
         end.

(** X16.  [process_create_pid_file] returns -1, -2 or the descriptor.  When it
    returns the descriptor, it has made four calls, [open], [flock],
    [getpid] and [write] of the decimal PID and a newline, none of which
    failed; the descriptor is left open, holding the lock, and nothing was
    printed.  When it fails, every descriptor it opened is closed again and
    exactly one line is printed; it returns -2 only with [errno] equal to
    [EWOULDBLOCK]. *)
Theorem process_create_pid_file_descriptors (strerror : Z -> string) (s : process) :
  let r := fst (process_create_pid_file strerror s) in
  let s' := snd (process_create_pid_file strerror s) in
  let l := calls_since s s' in
  (r = -1 \/ r = -2 \/ 0 <= r)
  /\ (0 <= r ->
      (exists a1 a2 pid a4,
         l = [(Os_open PID_FILE (O_CREAT_WRONLY_TRUNC 420), a1);
              (Os_flock r LOCK_EX_NB, a2);
              (Os_getpid, pid);
              (Os_write r (snprintf_pid (ans_value pid)), a4)]
         /\ ans_value a1 = r /\ 0 <= ans_value a2 /\ 0 <= ans_value a4)
      /\ opened l = [r] /\ closed l = []
      /\ proc_world s' = proc_world s)
  /\ (r < 0 ->
      opened l = closed l
      /\ exists e, trace (proc_world s') = trace (proc_world s) ++ [e] /\ is_log e = true)
  /\ (r = -2 -> proc_errno s' = EWOULDBLOCK).
Proof.
  destruct s as [w e ans calls]. cbv zeta.
  unfold process_create_pid_file. run_process.
  all: since_calls; to_Z.
  all: repeat match goal with
              | |- _ /\ _ => split
              | |- _ -> _ => intros ?; try lia
              | |- exists e0, trace _ = _ ++ [e0] /\ _ =>
                  eexists; split; [destruct w; reflexivity | reflexivity]
              | |- exists a1 a2 pid a4, _ = _ /\ _ =>
                  do 4 eexists; split; [reflexivity|]
              end; try reflexivity; try lia; auto.
Qed.

(** What [process_get_running_pid] does, as a list of calls. *)
Lemma process_get_running_pid_calls (s : process) :
  exists l,
    makes_calls process_get_running_pid s l
    /\ (fst (process_get_running_pid s) = -1 \/ 0 < fst (process_get_running_pid s))
    /\ opened l = closed l
    /\ sleeps l = []
    /\ (0 < fst (process_get_running_pid s) ->
        signals_sent l = [(fst (process_get_running_pid s), 0)]
        /\ proc_world (snd (process_get_running_pid s)) = proc_world s)
    /\ (fst (process_get_running_pid s) = -1 ->
        (signals_sent l = []
         /\ proc_world (snd (process_get_running_pid s)) = proc_world s)
        \/ (exists pid, 0 < pid /\ signals_sent l = [(pid, 0)]
            /\ proc_world (snd (process_get_running_pid s))
               = set_trace (trace (proc_world s) ++ [Sys_unlink PID_FILE]) (proc_world s))).
Proof.
  destruct s as [w e ans calls].
  unfold makes_calls, process_get_running_pid, read_running_pid. run_process.
  all: eexists; split; [since_calls; reflexivity|].
  all: since_calls; to_Z.
  all: repeat match goal with
              | |- _ /\ _ => split
              | |- _ -> _ => intros ?; try lia
              end; try reflexivity; try lia; auto.
  all: try (left; split; reflexivity).
  all: right; eexists; split; [eassumption|]; split; reflexivity.
Qed.



(** ** Toggling *)

Lemma makes_calls_bind {A B : Type} (m : M A) (k : A -> M B) (s : process)
    (l1 l2 : list (system_call * answer)) :
  makes_calls m s l1 -> makes_calls (k (fst (m s))) (snd (m s)) l2 ->
  makes_calls (mbind m k) s (l1 ++ l2).
Proof.
  unfold makes_calls, mbind. destruct (m s) as [a s1]. cbn [fst snd].
  intros H1 H2. rewrite H2, H1. now rewrite app_assoc.
Qed.

Lemma signals_sent_app (l1 l2 : list (system_call * answer)) :
  signals_sent (l1 ++ l2) = signals_sent l1 ++ signals_sent l2.
Proof.
  induction l1 as [|[c a] l1 IH]; [reflexivity|].
  destruct c; cbn; rewrite ?IH; reflexivity.
Qed.

Lemma sleeps_app (l1 l2 : list (system_call * answer)) :
  sleeps (l1 ++ l2) = sleeps l1 ++ sleeps l2.
Proof.
  induction l1 as [|[c a] l1 IH]; [reflexivity|].
  destruct c; cbn; rewrite ?IH; reflexivity.
Qed.

Lemma opened_app (l1 l2 : list (system_call * answer)) :
  opened (l1 ++ l2) = opened l1 ++ opened l2.
Proof.
  induction l1 as [|[c a] l1 IH]; [reflexivity|].
  destruct c; cbn; rewrite ?IH; try reflexivity.
  destruct (ans_value a <? 0); reflexivity.
Qed.

Lemma closed_app (l1 l2 : list (system_call * answer)) :
  closed (l1 ++ l2) = closed l1 ++ closed l2.
Proof.
  induction l1 as [|[c a] l1 IH]; [reflexivity|].
  destruct c; cbn; rewrite ?IH; reflexivity.
Qed.

Lemma wait_for_exit_step (running_pid : Z) (rounds : nat) (w : world) (e : Z)
    (ans : list answer) (calls : list (system_call * answer)) :
  wait_for_exit (S rounds) running_pid (mk_process w e ans calls)
  = if ans_value (hd no_answer ans) =? 0 then
      wait_for_exit rounds running_pid
        (mk_process w
           (if ans_value (hd no_answer (tl ans)) <? 0
            then ans_errno (hd no_answer (tl ans))
            else if ans_value (hd no_answer ans) <? 0
                 then ans_errno (hd no_answer ans) else e)
           (tl (tl ans))
           ((calls ++ [(Os_kill running_pid 0, hd no_answer ans)])
            ++ [(Os_usleep 100000, hd no_answer (tl ans))]))
    else
      (true,
       mk_process
         (set_trace (trace w ++ [Log LOG_INFO "Bongocat stopped successfully" []]) w)
         (if ans_value (hd no_answer ans) <? 0 then ans_errno (hd no_answer ans) else e)
         (tl ans)
         (calls ++ [(Os_kill running_pid 0, hd no_answer ans)])).
Proof.
  cbn [wait_for_exit]. unfold mbind at 1. unfold call at 1. process_state.
  destruct (ans_value (hd no_answer ans) =? 0); cbn [negb]; reflexivity.
Qed.

(** The waiting loop: [k] probes, all but possibly the last answered 0, with
    a sleep of 100 ms after each probe that was answered 0. *)
Lemma wait_for_exit_calls (running_pid : Z) : forall (rounds : nat) (s : process),
  exists (l : list (system_call * answer)) (k : nat),
    makes_calls (wait_for_exit rounds running_pid) s l
    /\ (k <= rounds)%nat
    /\ signals_sent l = repeat (running_pid, 0) k
    /\ opened l = [] /\ closed l = []
    /\ (fst (wait_for_exit rounds running_pid s) = false ->
        k = rounds /\ sleeps l = repeat 100000 k
        /\ proc_world (snd (wait_for_exit rounds running_pid s)) = proc_world s)
    /\ (fst (wait_for_exit rounds running_pid s) = true ->
        (0 < k)%nat /\ sleeps l = repeat 100000 (k - 1)
        /\ proc_world (snd (wait_for_exit rounds running_pid s))
           = set_trace (trace (proc_world s)
                        ++ [Log LOG_INFO "Bongocat stopped successfully" []])
               (proc_world s)).
Proof.
  induction rounds as [|rounds IH]; intros s.
  - exists [], 0%nat. unfold makes_calls. cbn. rewrite app_nil_r.
    repeat split; try reflexivity; discriminate.
  - destruct s as [w e ans calls].
    unfold makes_calls. rewrite wait_for_exit_step.
    destruct (ans_value (hd no_answer ans) =? 0) eqn:E.
    + match goal with |- context [wait_for_exit rounds running_pid ?st] =>
        destruct (IH st) as (l & k & Hl & Hk & Hs & Ho & Hc & Hf & Ht) end.
      unfold makes_calls in Hl. cbn [proc_calls proc_world] in Hl, Hf, Ht.
      exists ((Os_kill running_pid 0, hd no_answer ans)
              :: (Os_usleep 100000, hd no_answer (tl ans)) :: l), (S k).
      cbn [proc_calls proc_world].
      split; [rewrite Hl, <- !app_assoc; reflexivity|].
      split; [lia|]. cbn [signals_sent sleeps opened closed repeat].
      rewrite Hs, Ho, Hc.
      split; [reflexivity|]. split; [reflexivity|]. split; [reflexivity|].
      split.
      * intros X. destruct (Hf X) as (-> & -> & ->). repeat split.
      * intros X. destruct (Ht X) as (Hk0 & -> & ->).
        split; [lia|]. split; [|reflexivity].
        replace (S k - 1)%nat with (S (k - 1)) by lia. reflexivity.
    + exists [(Os_kill running_pid 0, hd no_answer ans)], 1%nat.
      cbn [fst snd proc_calls proc_world].
      split; [reflexivity|]. split; [lia|].
      repeat split; try reflexivity; try discriminate; lia.
Qed.



(** What [process_handle_toggle] does, as a list of calls. *)
Lemma process_handle_toggle_calls (strerror : Z -> string) (s : process) :
  exists r s' l,
    process_handle_toggle strerror s = (r, s')
    /\ proc_calls s' = proc_calls s ++ l
    /\ opened l = closed l
    /\ (r = -1
        /\ Forall (fun ps => 0 < fst ps /\ snd ps = 0) (signals_sent l)
        /\ sleeps l = []
        \/ r = 1
           /\ (exists pid, 0 < pid /\ signals_sent l = [(pid, 0); (pid, SIGTERM)])
           /\ sleeps l = []
        \/ r = 0
           /\ exists pid k,
                0 < pid /\ (1 <= k <= 50)%nat
                /\ (signals_sent l = (pid, 0) :: (pid, SIGTERM) :: repeat (pid, 0) k
                    /\ sleeps l = repeat 100000 (k - 1)
                    \/ k = 50%nat
                       /\ signals_sent l
                          = (pid, 0) :: (pid, SIGTERM) :: repeat (pid, 0) 50
                            ++ [(pid, SIGKILL)]
                       /\ sleeps l = repeat 100000 50)).
Proof.
  destruct (process_get_running_pid_calls s) as (l1 & Hl1 & Hr & Hoc & Hsl & Hpos & Hneg).
  unfold makes_calls in *. unfold process_handle_toggle.
  unfold mbind at 1.
  destruct (process_get_running_pid s) as [pid s1]. cbn [fst snd] in *.
  destruct s1 as [w1 e1 ans1 calls1]. cbn [proc_calls proc_world] in *. subst calls1.
  destruct (pid >? 0) eqn:Ep.
  - assert (Hp : 0 < pid) by (rewrite Z.gtb_ltb in Ep; now apply Z.ltb_lt).
    destruct (Hpos Hp) as [Hs1 _]. clear Hpos Hneg Hr.
    unfold mbind at 1. unfold lift at 1.
    unfold bongocat_log_info at 1. unfold emit, modify. process_state.
    unfold mbind at 1. unfold call at 1. process_state.
    destruct (ans_value (hd no_answer ans1) =? 0) eqn:Et.
    + unfold mbind at 1.
      match goal with |- context [wait_for_exit 50 pid ?st] =>
        destruct (wait_for_exit_calls pid 50 st)
          as (l3 & k & Hl3 & Hk & Hs3 & Ho3 & Hc3 & Hf & Ht);
        unfold makes_calls in Hl3;
        destruct (wait_for_exit 50 pid st) as [stopped s3] end.
      cbn [fst snd proc_calls proc_world] in *.
      destruct s3 as [w3 e3 ans3 calls3]. cbn [proc_calls proc_world] in *. subst calls3.
      destruct stopped.
      * destruct (Ht eq_refl) as (Hk0 & Hsl3 & _).
        unfold mret.
        eexists _, _, (l1 ++ (Os_kill pid SIGTERM, hd no_answer ans1) :: l3).
        split; [reflexivity|]. cbn [proc_calls].
        split; [now rewrite <- !app_assoc|].
        rewrite opened_app, closed_app, signals_sent_app, sleeps_app.
        cbn [opened closed signals_sent sleeps].
        rewrite Ho3, Hc3, Hoc, Hs1, Hsl, Hs3, Hsl3.
        split; [reflexivity|]. right. right. split; [reflexivity|].
        exists pid, k. split; [exact Hp|]. split; [lia|]. left. split; reflexivity.
      * destruct (Hf eq_refl) as (-> & Hsl3 & _).
        unfold mbind, mret, lift, call, bongocat_log_warning, bongocat_log_info,
          emit, modify. process_state.
        eexists _, _, (l1 ++ (Os_kill pid SIGTERM, hd no_answer ans1)
                         :: l3 ++ [(Os_kill pid SIGKILL, hd no_answer ans3)]).
        split; [reflexivity|]. cbn [proc_calls].
        split; [now rewrite <- !app_assoc|].
        rewrite opened_app, closed_app, signals_sent_app, sleeps_app.
        cbn [opened closed signals_sent sleeps].
        rewrite opened_app, closed_app, signals_sent_app, sleeps_app.
        cbn [opened closed signals_sent sleeps].
        rewrite Ho3, Hc3, Hoc, Hs1, Hsl, Hs3, Hsl3, !app_nil_r.
        split; [reflexivity|]. right. right. split; [reflexivity|].
        exists pid, 50%nat. split; [exact Hp|]. split; [lia|]. right.
        split; [reflexivity|]. split; reflexivity.
    + unfold mbind, mret, lift, errno, bongocat_log_error, emit, modify. process_state.
      eexists _, _, (l1 ++ [(Os_kill pid SIGTERM, hd no_answer ans1)]).
      split; [reflexivity|]. cbn [proc_calls].
      split; [now rewrite <- !app_assoc|].
      rewrite opened_app, closed_app, signals_sent_app, sleeps_app.
      cbn [opened closed signals_sent sleeps].
      rewrite Hoc, Hs1, Hsl, !app_nil_r.
      split; [reflexivity|]. right. left. split; [reflexivity|].
      split; [|reflexivity]. exists pid. split; [exact Hp | reflexivity].
  - assert (Hp : pid <= 0) by (rewrite Z.gtb_ltb in Ep; now apply Z.ltb_ge).
    destruct Hr as [Hr|Hr]; [|lia].
    unfold mbind, mret, lift, bongocat_log_info, emit, modify. process_state.
    eexists _, _, l1.
    split; [reflexivity|]. cbn [proc_calls].
    split; [reflexivity|]. split; [exact Hoc|].
    left. split; [reflexivity|]. split; [|exact Hsl].
    destruct (Hneg Hr) as [[Hs _]|(p & Hp0 & Hs & _)]; rewrite Hs.
    + constructor.
    + constructor; [cbn; split; [exact Hp0 | reflexivity] | constructor].
Qed.



(** ** Signal handlers *)

(** X19.  [signal_setup_handlers] installs the handler for [SIGINT],
    [SIGTERM] and [SIGCHLD], in this order, and stops at the first
    [sigaction] that returns -1.  It returns [BONGOCAT_SUCCESS] exactly when
    all three are installed, and only then is [SIGPIPE] ignored; otherwise it
    returns [BONGOCAT_ERROR_THREAD] after one error line, with the handlers
    installed so far left in place. *)
Theorem signal_setup_handlers_outcome (strerror : Z -> string) (s : process) :
  let r := fst (signal_setup_handlers strerror s) in
  let s' := snd (signal_setup_handlers strerror s) in
  let l := calls_since s s' in
  (r = BONGOCAT_SUCCESS
   /\ handlers_installed l = [SIGINT; SIGTERM; SIGCHLD]
   /\ signals_ignored l = [SIGPIPE]
   /\ proc_world s' = proc_world s)
  \/ (r = BONGOCAT_ERROR_THREAD
      /\ signals_ignored l = []
      /\ (handlers_installed l = [] \/ handlers_installed l = [SIGINT]
          \/ handlers_installed l = [SIGINT; SIGTERM])
      /\ exists e, trace (proc_world s') = trace (proc_world s) ++ [e]
                   /\ is_error e = true).
Proof.
  destruct s as [w e ans calls]. cbv zeta.
  unfold signal_setup_handlers. run_process.
  all: since_calls.
  all: try (left; repeat split; reflexivity).
  all: right; split; [reflexivity|]; split; [reflexivity|]; split; [auto|];
    eexists; split; [destruct w; reflexivity | reflexivity].
Qed.

(** ** The PID written and read back *)

Lemma digit_char (m : Z) :
  0 <= m < 10 ->
  isdigit (ascii_of_nat (48 + Z.to_nat m)) = true
  /\ Z.of_nat (nat_of_ascii (ascii_of_nat (48 + Z.to_nat m))) - 48 = m.
Proof.
  intros H.
  assert (C : m = 0 \/ m = 1 \/ m = 2 \/ m = 3 \/ m = 4 \/ m = 5 \/ m = 6 \/ m = 7
              \/ m = 8 \/ m = 9) by lia.
  repeat (destruct C as [->|C]; [split; reflexivity|]). subst. split; reflexivity.
Qed.

Lemma digits_value_digit (m : Z) (rest : string) (a : Z) :
  0 <= m < 10 ->
  digits_value (String (ascii_of_nat (48 + Z.to_nat m)) rest) a
  = digits_value rest (a * 10 + m).
Proof.
  intros H. destruct (digit_char m H) as [Hd Hv].
  cbn [digits_value]. now rewrite Hd, Hv.
Qed.

(** [decimal_digits] prepends the decimal digits of [n], most significant
    first; read back by [digits_value] they give [n] again. *)
Lemma decimal_digits_spec : forall (fuel : nat) (n : Z) (acc : string),
  0 <= n < 10 ^ Z.of_nat fuel ->
  exists ds,
    decimal_digits fuel n acc = (ds ++ acc)%string
    /\ (ds <> EmptyString \/ fuel = 0%nat)
    /\ string_forall isdigit ds = true
    /\ (String.length ds <= fuel)%nat
    /\ forall (rest : string) (a : Z),
         digits_value (ds ++ rest) a
         = digits_value rest (a * 10 ^ Z.of_nat (String.length ds) + n).
Proof.
  induction fuel as [|fuel IH]; intros n acc Hn.
  - exists EmptyString. cbn in *. repeat split; auto.
    intros rest a. f_equal. lia.
  - cbn [decimal_digits]. cbv zeta.
    assert (Hm : 0 <= n mod 10 < 10) by (apply Z.mod_pos_bound; lia).
    destruct (Z.ltb_spec n 10) as [Hlt|Hge].
    + exists (String (ascii_of_nat (48 + Z.to_nat (n mod 10))) EmptyString).
      split; [reflexivity|]. split; [left; discriminate|].
      destruct (digit_char (n mod 10) Hm) as [Hd _].
      split; [cbn [string_forall]; now rewrite Hd|]. split; [cbn; lia|].
      intros rest a. cbn [append String.length].
      rewrite digits_value_digit by exact Hm.
      rewrite Z.mod_small by lia. f_equal.
    + assert (Hq : 0 <= n / 10 < 10 ^ Z.of_nat fuel).
      { split; [apply Z.div_pos; lia|].
        apply Z.div_lt_upper_bound; [lia|].
        rewrite Nat2Z.inj_succ, Z.pow_succ_r in Hn by lia. lia. }
      destruct (IH (n / 10) (String (ascii_of_nat (48 + Z.to_nat (n mod 10))) acc) Hq)
        as (ds & E & Hne & Hf & Hl & Hv).
      exists (ds ++ String (ascii_of_nat (48 + Z.to_nat (n mod 10))) EmptyString)%string.
      split; [rewrite E, string_app_assoc; reflexivity|].
      split; [left; destruct ds; discriminate|].
      destruct (digit_char (n mod 10) Hm) as [Hd _].
      split; [rewrite string_forall_app, Hf; cbn [string_forall]; now rewrite Hd|].
      split; [rewrite string_length_app; cbn; lia|].
      intros rest a. rewrite string_app_assoc. cbn [append].
      rewrite Hv, digits_value_digit by exact Hm.
      f_equal. rewrite string_length_app. cbn [String.length].
      rewrite Nat2Z.inj_add, Z.pow_add_r by lia.
      change (10 ^ Z.of_nat 1) with 10.
      pose proof (Z.div_mod n 10 ltac:(lia)). lia.
Qed.

Lemma isdigit_facts (c : ascii) :
  isdigit c = true ->
  isspace c = false /\ (c =? "-")%char = false /\ (c =? "+")%char = false
  /\ (c =? NUL)%char = false /\ (c =? NEWLINE)%char = false.
Proof.
  destruct c as [[] [] [] [] [] [] [] []]; intros H; try discriminate H;
    repeat split; reflexivity.
Qed.

Lemma substring_whole (s : string) (n : nat) :
  (String.length s <= n)%nat -> substring 0 n s = s.
Proof.
  revert n. induction s as [|c s IH]; intros n H.
  - destruct n; reflexivity.
  - destruct n as [|n]; [cbn in H; lia|]. cbn. rewrite IH; [reflexivity | cbn in H; lia].
Qed.

(** The text [snprintf] leaves in the buffer for a positive PID: its digits
    and a newline. *)
Lemma snprintf_pid_digits (pid : Z) :
  0 < pid <= INT_MAX ->
  exists d ds,
    snprintf_pid pid = String d (ds ++ String NEWLINE EmptyString)%string
    /\ isdigit d = true /\ string_forall isdigit ds = true
    /\ digits_value (String d (ds ++ String NEWLINE EmptyString)%string) 0 = pid.
Proof.
  intros H. unfold INT_MAX in H. unfold snprintf_pid, print_int.
  destruct (Z.ltb_spec pid 0) as [Hneg|_]; [lia|].
  assert (B : 10 ^ Z.of_nat 20 = 100000000000000000000) by (vm_compute; reflexivity).
  destruct (decimal_digits_spec 20 pid EmptyString ltac:(rewrite B; lia))
    as (ds0 & E & Hne & Hf & Hl & Hv).
  rewrite E, string_app_nil_r.
  rewrite substring_whole by (rewrite string_length_app; cbn; lia).
  destruct Hne as [Hne|Hne]; [|discriminate Hne].
  destruct ds0 as [|d ds]; [contradiction|].
  cbn in Hf. apply andb_prop in Hf. destruct Hf as [Hd Hds].
  exists d, ds. split; [reflexivity|]. split; [exact Hd|]. split; [exact Hds|].
  change (String d (ds ++ String NEWLINE ""))%string
    with (String d ds ++ String NEWLINE "")%string.
  rewrite Hv, Z.mul_0_l, Z.add_0_l. reflexivity.
Qed.

Lemma atoi_snprintf_pid (pid : Z) : 0 < pid <= INT_MAX -> atoi (snprintf_pid pid) = pid.
Proof.
  intros H. destruct (snprintf_pid_digits pid H) as (d & ds & E & Hd & Hds & Hv).
  destruct (isdigit_facts d Hd) as (Hsp & Hm & Hp & Hz & _).
  unfold atoi. rewrite E.
  rewrite c_str_no_nul.
  - unfold strtol. cbn [skip_space]. rewrite Hsp, Hm, Hp. rewrite Hv.
    unfold LONG_MAX, LONG_MIN, INT_MAX in *.
    destruct (Z.gtb_spec pid 9223372036854775807); [lia|].
    destruct (Z.ltb_spec pid (-9223372036854775808)); [lia|].
    apply int_of_long_small. unfold INT_MIN, INT_MAX. lia.
  - cbn [string_forall]. rewrite Hz. cbn [negb andb].
    rewrite string_forall_app. apply andb_true_intro. split; [|reflexivity].
    revert Hds. apply string_forall_weaken. intros c Hc.
    destruct (isdigit_facts c Hc) as (_ & _ & _ & -> & _). reflexivity.
Qed.

(** X20.  What one instance writes, another reads.  When the PID file holds
    what [process_create_pid_file] writes for the PID [pid] (a positive
    [int]) and the probe [kill(pid, 0)] succeeds, the reading half of
    [process_get_running_pid] returns exactly [pid], removes nothing and
    closes the descriptor it was given; when the probe fails it returns -1
    and removes the PID file. *)
Theorem pid_file_round_trip (pid fd : Z) (s : process) (a_read a_close a_kill : answer)
    (rest : list answer) :
  0 < pid <= INT_MAX ->
  proc_answers s = a_read :: a_close :: a_kill :: rest ->
  0 <= ans_value a_read -> ans_bytes a_read = snprintf_pid pid ->
  atoi (snprintf_pid pid) = pid
  /\ calls_since s (snd (read_running_pid fd s))
     = [(Os_read fd 31, a_read); (Os_close fd, a_close); (Os_kill pid 0, a_kill)]
  /\ (ans_value a_kill = 0 ->
      fst (read_running_pid fd s) = pid
      /\ proc_world (snd (read_running_pid fd s)) = proc_world s)
  /\ (ans_value a_kill <> 0 ->
      fst (read_running_pid fd s) = -1
      /\ proc_world (snd (read_running_pid fd s))
         = set_trace (trace (proc_world s) ++ [Sys_unlink PID_FILE]) (proc_world s)).
Proof.
  intros Hpid Hans Hread Hbytes.
  pose proof (atoi_snprintf_pid pid Hpid) as Hatoi.
  split; [exact Hatoi|].
  destruct (snprintf_pid_digits pid Hpid) as (d & ds & E & Hd & Hds & _).
  assert (Hlen : (String.length (snprintf_pid pid) <= 31)%nat).
  { unfold snprintf_pid.
    destruct (print_int pid ++ String NEWLINE "")%string eqn:Ep; [cbn; lia|].
    rewrite <- Ep. clear. generalize (print_int pid ++ String NEWLINE "")%string.
    intros s0. generalize 31%nat. intros n. revert s0.
    induction n as [|n IH]; intros [|c s0]; cbn; try lia.
    specialize (IH s0). lia. }
  assert (Hpos : 0 < Z.of_nat (String.length (snprintf_pid pid))).
  { rewrite E. cbn. lia. }
  destruct s as [w e ans calls]. cbn [proc_answers] in Hans. subst ans.
  assert (E1 : (ans_value a_read <? 0) = false) by (apply Z.ltb_ge; lia).
  assert (E2 : (Z.of_nat (String.length (snprintf_pid pid)) <=? 0) = false)
    by (apply Z.leb_gt; lia).
  assert (E3 : (pid <=? 0) = false) by (apply Z.leb_gt; lia).
  unfold read_running_pid, mbind, call, mret, lift, read_result,
    process_remove_pid_file, emit, modify.
  process_state. cbn [hd tl].
  rewrite E1, Hbytes, (substring_whole _ 31 Hlen). process_state.
  rewrite E2, Hatoi, E3. process_state. cbn [hd tl].
  destruct (Z.eqb_spec (ans_value a_kill) 0) as [Hk|Hk]; process_state; since_calls.
  - split; [reflexivity|]. split; [intros _; split; reflexivity | intros X; contradiction].
  - split; [reflexivity|]. split; [intros X; contradiction | intros _; split; reflexivity].
Qed.

Lemma pid_file_round_trip_witness :
  let s := mk_process (process_start [] []) 0
             [mk_answer 5 0 (snprintf_pid 4321); mk_answer 0 0 ""; mk_answer 0 0 ""] [] in
  atoi (snprintf_pid 4321) = 4321
  /\ calls_since s (snd (read_running_pid 3 s))
     = [(Os_read 3 31, mk_answer 5 0 (snprintf_pid 4321));
        (Os_close 3, mk_answer 0 0 ""); (Os_kill 4321 0, mk_answer 0 0 "")]
  /\ (ans_value (mk_answer 0 0 "") = 0 ->
      fst (read_running_pid 3 s) = 4321
      /\ proc_world (snd (read_running_pid 3 s)) = proc_world s)
  /\ (ans_value (mk_answer 0 0 "") <> 0 ->
      fst (read_running_pid 3 s) = -1
      /\ proc_world (snd (read_running_pid 3 s))
         = set_trace (trace (proc_world s) ++ [Sys_unlink PID_FILE]) (proc_world s)).
Proof.
  cbv zeta.
  apply (pid_file_round_trip 4321 3 _ (mk_answer 5 0 (snprintf_pid 4321))
           (mk_answer 0 0 "") (mk_answer 0 0 "") []).
  - unfold INT_MAX. lia.
  - reflexivity.
  - cbn. lia.
  - reflexivity.
Defined.


(** ** [main] *)

Lemma trace_set_trace (t : list event) (w : world) : trace (set_trace t w) = t.
Proof. destruct w; reflexivity. Qed.

Lemma cli_parse_loop_runs (n : nat) : forall (rest : list string) (args : cli_args_t)
    (w w' : world),
  (List.length rest <= n)%nat ->
  fst (cli_parse_loop rest args w) = fst (cli_parse_loop rest args w')
  /\ exists l, snd (cli_parse_loop rest args w) = set_trace (trace w ++ l) w
               /\ forallb is_log l = true.
Proof.
  induction n as [|n IH]; intros rest args w w' Hn.
  - destruct rest; [|cbn in Hn; lia]. split; [reflexivity|].
    exists []. split; [symmetry; apply set_trace_nil | reflexivity].
  - destruct rest as [|arg rest].
    { split; [reflexivity|].
      exists []. split; [symmetry; apply set_trace_nil | reflexivity]. }
    cbn [List.length] in Hn. cbn [cli_parse_loop].
    destruct ((arg =? "--help") || (arg =? "-h"))%string; [apply IH; lia|].
    destruct ((arg =? "--version") || (arg =? "-v"))%string; [apply IH; lia|].
    destruct ((arg =? "--config") || (arg =? "-c"))%string.
    + destruct rest as [|path rest].
      * split; [reflexivity|]. eexists. split; [reflexivity | reflexivity].
      * apply IH. cbn [List.length] in Hn. lia.
    + destruct ((arg =? "--watch-config") || (arg =? "-w"))%string; [apply IH; lia|].
      destruct ((arg =? "--toggle") || (arg =? "-t"))%string; [apply IH; lia|].
      unfold bind, bongocat_log_warning, emit, modify. cbv iota beta.
      destruct (IH rest args
                  (set_trace (trace w ++ [Log LOG_WARNING "Unknown argument: %s"
                                            [ArgStr arg]]) w)
                  (set_trace (trace w' ++ [Log LOG_WARNING "Unknown argument: %s"
                                             [ArgStr arg]]) w')
                  ltac:(lia)) as (E & l & Hl & Hlog).
      split; [exact E|].
      exists ([Log LOG_WARNING "Unknown argument: %s" [ArgStr arg]] ++ l).
      rewrite Hl, set_trace_app. split; [reflexivity|].
      cbn. exact Hlog.
Qed.

Lemma cli_parse_arguments_runs (argv : list string) (w w' : world) :
  fst (cli_parse_arguments argv w) = fst (cli_parse_arguments argv w')
  /\ exists l, snd (cli_parse_arguments argv w) = set_trace (trace w ++ l) w
               /\ forallb is_log l = true.
Proof.
  unfold cli_parse_arguments. apply (cli_parse_loop_runs (List.length (tl argv))).
  apply Nat.le_refl.
Qed.

Lemma after_bind {A B : Type} (Q : world -> Prop) (m : W A) (k : A -> W B) (w : world) :
  (forall a w', Q (snd (k a w'))) -> Q (snd (bind m k w)).
Proof. unfold bind. destruct (m w) as [a w1]. auto. Qed.

Lemma tl_skipn {A : Type} (n : nat) (l : list A) : tl (skipn n l) = skipn (S n) l.
Proof.
  revert l. induction n as [|n IH]; intros [|a l]; try reflexivity.
  apply (IH l).
Qed.

Lemma printf_line_step {A : Type} (text : string) (k : unit -> M A) (w : world) (e : Z)
    (ans : list answer) (calls : list (system_call * answer)) :
  mbind (printf_line text) k (mk_process w e ans calls)
  = k tt (mk_process w
            (if ans_value (hd no_answer ans) <? 0 then ans_errno (hd no_answer ans) else e)
            (tl ans)
            (calls ++ [(Os_printf (text ++ String NEWLINE EmptyString), hd no_answer ans)])).
Proof. reflexivity. Qed.

Lemma printf_line_run (text : string) (w : world) (e : Z)
    (ans : list answer) (calls : list (system_call * answer)) :
  printf_line text (mk_process w e ans calls)
  = (tt, mk_process w
           (if ans_value (hd no_answer ans) <? 0 then ans_errno (hd no_answer ans) else e)
           (tl ans)
           (calls ++ [(Os_printf (text ++ String NEWLINE EmptyString), hd no_answer ans)])).
Proof. reflexivity. Qed.

Lemma cli_show_help_calls (program_name : string) (s : process) :
  exists l e',
    cli_show_help program_name s
    = (tt, mk_process (proc_world s) e' (skipn 9 (proc_answers s)) (proc_calls s ++ l))
    /\ forallb is_printf l = true /\ List.length l = 9%nat.
Proof.
  destruct s as [w e ans calls]. cbn [proc_world proc_answers proc_calls].
  unfold cli_show_help. rewrite !printf_line_step, printf_line_run.
  rewrite <- !app_assoc. cbn [app].
  change (tl ans) with (tl (skipn 0 ans)). rewrite !tl_skipn.
  eexists _, _. split; [reflexivity|]. split; reflexivity.
Qed.

Lemma cli_show_version_calls (version : string) (s : process) :
  exists l e',
    cli_show_version version s
    = (tt, mk_process (proc_world s) e' (skipn 2 (proc_answers s)) (proc_calls s ++ l))
    /\ forallb is_printf l = true /\ List.length l = 2%nat.
Proof.
  destruct s as [w e ans calls]. cbn [proc_world proc_answers proc_calls].
  unfold cli_show_version. rewrite !printf_line_step, printf_line_run.
  rewrite <- !app_assoc. cbn [app].
  change (tl ans) with (tl (skipn 0 ans)). rewrite !tl_skipn.
  eexists _, _. split; [reflexivity|]. split; reflexivity.
Qed.

Section MainFacts.

Variable strerror : Z -> string.
Variable K : header_constants.
Variable BONGOCAT_VERSION : string.
Variables wayland_init animation_init animation_start wayland_run : W bongocat_error_t.
Variable input_start_monitoring : option ptr -> Z -> Z -> W bongocat_error_t.
Variable config_watcher_init : string -> W Z.
Variable config_watcher_start : W unit.
Variable setup_assertions : W bool.

Local Abbreviation the_main :=
  (main strerror K BONGOCAT_VERSION wayland_init animation_init animation_start
     wayland_run input_start_monitoring config_watcher_init config_watcher_start
     setup_assertions).

Local Abbreviation the_main_startup :=
  (main_startup strerror K wayland_init animation_init animation_start
     wayland_run input_start_monitoring config_watcher_init config_watcher_start
     setup_assertions).

Local Abbreviation the_main_run :=
  (main_run K wayland_init animation_init animation_start
     wayland_run input_start_monitoring config_watcher_init config_watcher_start
     setup_assertions).

(** The state in which [main] reaches the tests of [show_help] and
    [show_version]. *)
Lemma main_prologue (argv : list string) (s : process) (status : Z) (args : cli_args_t) :
  fst (cli_parse_arguments argv (proc_world s)) = (status, args) ->
  exists l,
    forallb is_log l = true
    /\ the_main argv s
       = (if negb (status =? 0) then mret (Returned 1)
          else if show_help args then
            mbind (cli_show_help (hd EmptyString argv)) (fun _ => mret (Returned 0))
          else if show_version args then
            mbind (cli_show_version BONGOCAT_VERSION) (fun _ => mret (Returned 0))
          else if toggle_mode args then
            mbind (process_handle_toggle strerror)
              (fun toggle_result =>
                 if toggle_result >=? 0 then mret (Returned toggle_result)
                 else the_main_startup args)
          else the_main_startup args)
         (mk_process
            (set_trace (trace (proc_world s) ++ l) (set_debug_enabled 1 (proc_world s)))
            (proc_errno s) (proc_answers s) (proc_calls s)).
Proof.
  intros Hparse.
  destruct s as [w e ans calls]. cbn [proc_world proc_errno proc_answers proc_calls] in *.
  set (start := Log LOG_INFO ("Starting Bongo Cat Overlay v" ++ BONGOCAT_VERSION) []).
  set (w1 := set_trace (trace (set_debug_enabled 1 w) ++ [start]) (set_debug_enabled 1 w)).
  destruct (cli_parse_arguments_runs argv w1 w) as (E & l & Hl & Hlog).
  rewrite Hparse in E.
  exists (start :: l). split; [exact Hlog|].
  unfold main.
  unfold mbind at 1. unfold lift at 1. unfold bongocat_error_init, modify. process_state.
  unfold mbind at 1. unfold lift at 1. unfold bongocat_log_info at 1.
  unfold emit, modify. process_state.
  unfold mbind at 1. unfold lift at 1. process_state.
  fold start. fold w1.
  destruct (cli_parse_arguments argv w1) as [[status' args'] w2].
  cbn [fst snd] in E, Hl. injection E as -> ->. subst w2.
  process_state.
  replace (set_trace (trace w1 ++ l) w1)
    with (set_trace (trace w ++ start :: l) (set_debug_enabled 1 w)); [reflexivity|].
  subst w1. destruct w; cbn. now rewrite <- app_assoc.
Qed.

(** X21.  A request for help or for the version ends [main] before anything
    else happens.  When the command line parses and asks for help or, without
    help, for the version, [main] returns 0; the only calls it has made are
    the [printf]s of the text (nine lines of help, which win over the
    version, or two lines of version); it has installed no handler, touched
    no PID file, signalled nobody even if [--toggle] was given, and loaded no
    configuration: the world differs only by log lines and by the debug flag
    that [main] sets first. *)
Theorem main_help_and_version (argv : list string) (s : process) (args : cli_args_t) :
  fst (cli_parse_arguments argv (proc_world s)) = (0, args) ->
  show_help args || show_version args = true ->
  fst (the_main argv s) = Returned 0
  /\ forallb is_printf (calls_since s (snd (the_main argv s))) = true
  /\ List.length (calls_since s (snd (the_main argv s)))
     = (if show_help args then 9 else 2)%nat
  /\ proc_answers (snd (the_main argv s))
     = skipn (if show_help args then 9 else 2) (proc_answers s)
  /\ exists l,
       proc_world (snd (the_main argv s))
       = set_trace (trace (proc_world s) ++ l) (set_debug_enabled 1 (proc_world s))
       /\ forallb is_log l = true.
Proof.
  intros Hparse Hflag.
  destruct (main_prologue argv s 0 args Hparse) as (l & Hlog & E).
  rewrite E. clear E. change (negb (0 =? 0)) with false. cbv iota.
  destruct (show_help args).
  - unfold mbind.
    match goal with |- context [cli_show_help ?n ?st] =>
      destruct (cli_show_help_calls n st) as (lc & e' & Ec & Hp & Hn) end.
    rewrite Ec. unfold mret. cbn [fst snd proc_world proc_answers proc_calls].
    unfold calls_since. cbn [proc_calls]. rewrite skipn_app_exact.
    split; [reflexivity|]. split; [exact Hp|]. split; [exact Hn|].
    split; [reflexivity|]. exists l. split; [reflexivity | exact Hlog].
  - cbn [orb] in Hflag. rewrite Hflag. unfold mbind.
    match goal with |- context [cli_show_version ?n ?st] =>
      destruct (cli_show_version_calls n st) as (lc & e' & Ec & Hp & Hn) end.
    rewrite Ec. unfold mret. cbn [fst snd proc_world proc_answers proc_calls].
    unfold calls_since. cbn [proc_calls]. rewrite skipn_app_exact.
    split; [reflexivity|]. split; [exact Hp|]. split; [exact Hn|].
    split; [reflexivity|]. exists l. split; [reflexivity | exact Hlog].
Qed.

Lemma system_cleanup_and_exit_ends (exit_code : Z) (w : world) :
  exists t, trace (snd (system_cleanup_and_exit K exit_code w)) = t ++ [Sys_exit exit_code].
Proof.
  unfold system_cleanup_and_exit.
  repeat (apply (after_bind (fun w' => exists t, trace w' = t ++ [Sys_exit exit_code]));
          intros ? ?).
  unfold emit, modify. cbn [snd]. eexists. apply trace_set_trace.
Qed.

(** How the second half of [main] ends. *)
Lemma main_run_outcome (args : cli_args_t) (w : world) :
  exists o w',
    the_main_run args w = (o, w')
    /\ (o = Exited 0 \/ o = Exited 1 \/ o = Aborted)
    /\ (forall c, o = Exited c -> exists t, trace w' = t ++ [Sys_exit c]).
Proof.
  unfold main_run.
  unfold bind at 1. destruct (when _ _ w) as [u w1].
  unfold bind at 1.
  match goal with |- context [system_initialize_components ?a ?b ?c ?d ?x] =>
    destruct (system_initialize_components a b c d x) as [result w2] end.
  destruct (is_success result); cbn [negb].
  - unfold bind at 1. destruct (setup_assertions w2) as [ok w3].
    destruct ok; cbn [negb].
    + unfold bind at 1. unfold bongocat_log_info at 1. unfold emit at 1. unfold modify at 1.
      cbv iota beta.
      unfold bind at 1.
      match goal with |- context [wayland_run ?x] =>
        destruct (wayland_run x) as [res w4] end.
      destruct (is_success res); cbn [negb].
      * unfold bind at 1. unfold bongocat_log_info at 1. unfold emit at 1.
        unfold modify at 1. cbv iota beta.
        unfold bind at 1.
        match goal with |- context [system_cleanup_and_exit K 0 ?x] =>
          destruct (system_cleanup_and_exit_ends 0 x) as (t & Ht);
          destruct (system_cleanup_and_exit K 0 x) as [u5 w5] end.
        cbn [snd] in Ht. unfold ret. eexists _, _. split; [reflexivity|].
        split; [auto|]. intros c Hc. injection Hc as <-. now exists t.
      * unfold bind at 1. unfold bongocat_log_error at 1. unfold emit at 1.
        unfold modify at 1. cbv iota beta.
        unfold bind at 1.
        match goal with |- context [system_cleanup_and_exit K 1 ?x] =>
          destruct (system_cleanup_and_exit_ends 1 x) as (t & Ht);
          destruct (system_cleanup_and_exit K 1 x) as [u5 w5] end.
        cbn [snd] in Ht. unfold ret. eexists _, _. split; [reflexivity|].
        split; [auto|]. intros c Hc. injection Hc as <-. now exists t.
    + unfold ret. eexists _, _. split; [reflexivity|].
      split; [auto|]. intros c Hc. discriminate Hc.
  - unfold bind at 1.
    match goal with |- context [system_cleanup_and_exit K 1 ?x] =>
      destruct (system_cleanup_and_exit_ends 1 x) as (t & Ht);
      destruct (system_cleanup_and_exit K 1 x) as [u5 w5] end.
    cbn [snd] in Ht. unfold ret. eexists _, _. split; [reflexivity|].
    split; [auto|]. intros c Hc. injection Hc as <-. now exists t.
Qed.

(** How the start-up ends: with [EXIT_FAILURE], or in [main_run] with the
    handlers installed and the lock on the PID file held. *)
Lemma main_startup_outcome (args : cli_args_t) (s : process) :
  exists o s' l,
    the_main_startup args s = (o, s')
    /\ proc_calls s' = proc_calls s ++ l
    /\ (o = Returned EXIT_FAILURE
        \/ (o = Exited 0 \/ o = Exited 1 \/ o = Aborted) /\ holds_lock l)
    /\ (forall c, o = Exited c -> exists t, trace (proc_world s') = t ++ [Sys_exit c]).
Proof.
  destruct s as [w e ans calls].
  unfold main_startup, signal_setup_handlers, process_create_pid_file.
  run_process.
  all: try match goal with
           | H : negb (is_success _) = _ |- _ => cbn in H; discriminate H
           end.
  all: to_Z; try lia.
  all: try (eexists _, _, _; split; [reflexivity|]; since_calls;
            split; [reflexivity|]; split; [left; reflexivity|];
            intros c Hc; discriminate Hc).
  all: match goal with |- context [main_load_config K ?f ?x] =>
         destruct (main_load_config K f x) as [result w2] end.
  all: destruct (is_success result); cbn [negb]; process_state.
  all: try (eexists _, _, _; split; [reflexivity|]; since_calls;
            split; [reflexivity|]; split; [left; reflexivity|];
            intros c Hc; discriminate Hc).
  all: match goal with |- context [main_run ?k ?a ?b ?c ?d ?i ?wi ?ws ?sa ?ar ?x] =>
         destruct (main_run_outcome ar x) as (o & w3 & E & Ho & Hexit) end;
       rewrite E; process_state;
       eexists _, _, _; (split; [reflexivity|]); since_calls;
       (split; [reflexivity|]); split; [|exact Hexit];
       right; (split; [exact Ho|]);
       unfold holds_lock; do 9 eexists; (split; [reflexivity|]);
       repeat split; try assumption; try reflexivity.
Qed.

(** X22.  [main] ends in one of five ways: it returns 0 or 1, it leaves
    through [system_cleanup_and_exit] with status 0 or 1, or an assertion
    fails.  No other exit status exists, whatever the command line, the
    operating system and the other components do; and when it leaves through
    [system_cleanup_and_exit] the last event of the process is the [exit]
    with that status. *)
Theorem main_exit_status (argv : list string) (s : process) :
  (fst (the_main argv s) = Returned 0 \/ fst (the_main argv s) = Returned 1
   \/ fst (the_main argv s) = Exited 0 \/ fst (the_main argv s) = Exited 1
   \/ fst (the_main argv s) = Aborted)
  /\ (forall c, fst (the_main argv s) = Exited c ->
      exists t, trace (proc_world (snd (the_main argv s))) = t ++ [Sys_exit c]).
Proof.
  destruct (cli_parse_arguments argv (proc_world s)) as [[status args] wp] eqn:Hparse.
  destruct (main_prologue argv s status args ltac:(now rewrite Hparse)) as (l & _ & E).
  rewrite E. clear E Hparse.
  set (s0 := mk_process _ _ _ _).
  assert (Hstart : forall s1,
             (fst (the_main_startup args s1) = Returned 0
              \/ fst (the_main_startup args s1) = Returned 1
              \/ fst (the_main_startup args s1) = Exited 0
              \/ fst (the_main_startup args s1) = Exited 1
              \/ fst (the_main_startup args s1) = Aborted)
             /\ (forall c, fst (the_main_startup args s1) = Exited c ->
                 exists t, trace (proc_world (snd (the_main_startup args s1)))
                           = t ++ [Sys_exit c])).
  { intros s1. destruct (main_startup_outcome args s1) as (o & s' & l1 & E & _ & Ho & Hx).
    rewrite E. cbn [fst snd]. split; [|exact Hx].
    destruct Ho as [->|[[->|[->| ->]] _]]; auto. }
  destruct (negb (status =? 0)).
  { split; [auto|]. intros c Hc. discriminate Hc. }
  destruct (show_help args).
  { unfold mbind. destruct (cli_show_help _ s0) as [u s1].
    split; [auto|]. intros c Hc. discriminate Hc. }
  destruct (show_version args).
  { unfold mbind. destruct (cli_show_version _ s0) as [u s1].
    split; [auto|]. intros c Hc. discriminate Hc. }
  destruct (toggle_mode args); [|apply Hstart].
  unfold mbind.
  destruct (process_handle_toggle_calls strerror s0) as (r & s1 & lt & Et & _ & _ & Hr).
  rewrite Et.
  destruct Hr as [(-> & _)|[(-> & _)|(-> & _)]].
  - change (-1 >=? 0) with false. cbv iota. apply Hstart.
  - split; [auto|]. intros c Hc. discriminate Hc.
  - split; [auto|]. intros c Hc. discriminate Hc.
Qed.

(** X23.  [main] reaches the components only as the single instance.
    Whenever [main] does not end by returning from [main] (it left through
    [system_cleanup_and_exit] or an assertion failed, so the renderer, the
    animator and the input monitor were started), the calls it made end
    with: handlers for [SIGINT], [SIGTERM], [SIGCHLD], [SIGPIPE] ignored,
    the PID file opened, locked exclusively and written, every call
    successful and the descriptor still open.  Before these it has at most
    looked for a running instance: it leaked no descriptor and sent nothing
    but a probe. *)
Theorem main_runs_only_with_lock (argv : list string) (s : process) :
  (forall status, fst (the_main argv s) <> Returned status) ->
  exists l0 l1,
    calls_since s (snd (the_main argv s)) = l0 ++ l1
    /\ holds_lock l1
    /\ opened l0 = closed l0
    /\ Forall (fun ps => 0 < fst ps /\ snd ps = 0) (signals_sent l0).
Proof.
  destruct (cli_parse_arguments argv (proc_world s)) as [[status args] wp] eqn:Hparse.
  destruct (main_prologue argv s status args ltac:(now rewrite Hparse)) as (l & _ & E).
  rewrite E. clear E Hparse.
  destruct s as [w e ans calls]. cbn [proc_world proc_errno proc_answers proc_calls].
  set (s0 := mk_process _ e ans calls).
  assert (Hstart : forall (s1 : process) (l0 : list (system_call * answer)),
             proc_calls s1 = calls ++ l0 ->
             (forall status, fst (the_main_startup args s1) <> Returned status) ->
             exists l1,
               calls_since (mk_process w e ans calls) (snd (the_main_startup args s1))
               = l0 ++ l1
               /\ holds_lock l1).
  { intros s1 l0 Hc Hnot.
    destruct (main_startup_outcome args s1) as (o & s' & l1 & E & Hl & Ho & _).
    rewrite E in Hnot |- *. cbn [fst snd] in *.
    destruct Ho as [->|[_ Hlock]]; [now contradiction (Hnot EXIT_FAILURE)|].
    exists l1. split; [|exact Hlock].
    unfold calls_since. cbn [proc_calls]. rewrite Hl, Hc, <- app_assoc.
    apply skipn_app_exact. }
  destruct (negb (status =? 0)).
  { intros H. now contradiction (H 1). }
  destruct (show_help args).
  { unfold mbind. destruct (cli_show_help _ s0) as [u s1].
    intros H. now contradiction (H 0). }
  destruct (show_version args).
  { unfold mbind. destruct (cli_show_version _ s0) as [u s1].
    intros H. now contradiction (H 0). }
  destruct (toggle_mode args).
  - unfold mbind.
    destruct (process_handle_toggle_calls strerror s0)
      as (r & s1 & lt & Et & Hlt & Hoc & Hr).
    rewrite Et.
    destruct Hr as [(-> & Hsig & _)|[(-> & _)|(-> & _)]].
    + change (-1 >=? 0) with false. cbv iota. intros Hnot.
      destruct (Hstart s1 lt Hlt Hnot) as (l1 & E1 & Hlock).
      exists lt, l1. repeat split; assumption.
    + intros H. now contradiction (H 1).
    + intros H. now contradiction (H 0).
  - intros Hnot.
    destruct (Hstart s0 [] ltac:(cbn; now rewrite app_nil_r) Hnot) as (l1 & E1 & Hlock).
    exists [], l1. repeat split; try assumption. constructor.
Qed.

End MainFacts.

Lemma main_help_and_version_witness :
  let s := mk_process (process_start [] []) 0 [] [] in
  let m := main (fun _ => "error") sample_constants "1.2.3"
             (ret BONGOCAT_SUCCESS) (ret BONGOCAT_SUCCESS) (ret BONGOCAT_SUCCESS)
             (ret BONGOCAT_SUCCESS) (fun _ _ _ => ret BONGOCAT_SUCCESS)
             (fun _ => ret 0) (ret tt) (ret true)
             ["bongocat"; "--toggle"; "-h"; "--version"] in
  fst (m s) = Returned 0
  /\ forallb is_printf (calls_since s (snd (m s))) = true
  /\ List.length (calls_since s (snd (m s))) = 9%nat
  /\ proc_answers (snd (m s)) = skipn 9 (proc_answers s)
  /\ exists l,
       proc_world (snd (m s))
       = set_trace (trace (proc_world s) ++ l) (set_debug_enabled 1 (proc_world s))
       /\ forallb is_log l = true.
Proof.
  cbv zeta.
  apply (main_help_and_version (fun _ => "error") sample_constants "1.2.3"
           (ret BONGOCAT_SUCCESS) (ret BONGOCAT_SUCCESS) (ret BONGOCAT_SUCCESS)
           (ret BONGOCAT_SUCCESS) (fun _ _ _ => ret BONGOCAT_SUCCESS)
           (fun _ => ret 0) (ret tt) (ret true)
           ["bongocat"; "--toggle"; "-h"; "--version"]
           (mk_process (process_start [] []) 0 [] [])
           (mk_cli_args None false true true true)).
  - reflexivity.
  - reflexivity.
Defined.

Lemma main_runs_only_with_lock_witness :
  let s := mk_process (process_start [] []) 0 [] [] in
  let m := main (fun _ => "error") sample_constants "1.2.3"
             (ret BONGOCAT_SUCCESS) (ret BONGOCAT_SUCCESS) (ret BONGOCAT_SUCCESS)
             (ret BONGOCAT_SUCCESS) (fun _ _ _ => ret BONGOCAT_SUCCESS)
             (fun _ => ret 0) (ret tt) (ret true)
             ["bongocat"; "--toggle"; "-w"] in
  exists l0 l1,
    calls_since s (snd (m s)) = l0 ++ l1
    /\ holds_lock l1
    /\ opened l0 = closed l0
    /\ Forall (fun ps => 0 < fst ps /\ snd ps = 0) (signals_sent l0).
Proof.
  cbv zeta.
  apply (main_runs_only_with_lock (fun _ => "error") sample_constants "1.2.3"
           (ret BONGOCAT_SUCCESS) (ret BONGOCAT_SUCCESS) (ret BONGOCAT_SUCCESS)
           (ret BONGOCAT_SUCCESS) (fun _ _ _ => ret BONGOCAT_SUCCESS)
           (fun _ => ret 0) (ret tt) (ret true)).
  intros status. vm_compute. discriminate.
Defined.


(** ** What a successful load hands back *)

Lemma sanitize_set_bar_height (K : header_constants) (h : Z) (c : config_t) :
  sanitize K (set_bar_height h c) = set_bar_height h (sanitize K c).
Proof. destruct c; reflexivity. Qed.

Lemma load_config_success (K : header_constants) (path : option string)
    (w w' : world) (c : config_t) :
  load_config K path w = ((BONGOCAT_SUCCESS, c), w') ->
  exists c2 w3,
    c = set_bar_height (overlay_height (sanitize K c2)) (sanitize K c2)
    /\ w' = snd (log_loaded_config K c w3)
    /\ debug_enabled w3 = enable_debug c.
Proof.
  rewrite load_config_unfold.
  destruct (set_default_keyboard_device (default_config K) w) as [c1 w1].
  destruct (parse_config_file K c1 path w1) as [[r c2] w2].
  destruct (is_success r) eqn:E; cbn.
  - intros H. injection H as <- <-.
    eexists c2, _. split; [reflexivity|]. split; [reflexivity|].
    destruct (snd (validate_config K c2 w2)); reflexivity.
  - intros H. injection H as -> _ _. discriminate E.
Qed.

(** X24.  A configuration that [load_config] returns with [BONGOCAT_SUCCESS]
    is valid as it stands: validating it again changes nothing, every
    clamped field lies within its range, the flags are 0 or 1, the overlay
    position is top or bottom, the animation index is an index when there is
    an animation at all, and the logger's debug flag has been set to the
    [enable_debug] of that configuration. *)
Theorem load_config_result_is_valid
    (K : header_constants) (path : option string) (w w' : world) (c : config_t) :
  load_config K path w = ((BONGOCAT_SUCCESS, c), w') ->
  validate K c = c
  /\ 10 <= cat_height c <= 200 /\ 20 <= overlay_height c <= 300
  /\ 1 <= fps c <= 120
  /\ 10 <= keypress_duration c <= 5000 /\ 10 <= test_animation_duration c <= 5000
  /\ 0 <= test_animation_interval c <= 3600 /\ 0 <= overlay_opacity c <= 255
  /\ (enable_debug c = 0 \/ enable_debug c = 1)
  /\ (invert_color c = 0 \/ invert_color c = 1)
  /\ (overlay_position c = POSITION_TOP \/ overlay_position c = POSITION_BOTTOM)
  /\ (0 < TOTAL_ANIMATIONS K -> 0 <= animation_index c < TOTAL_ANIMATIONS K)
  /\ debug_enabled w' = enable_debug c.
Proof.
  intros H. destruct (load_config_success K path w w' c H) as (c2 & w3 & -> & -> & Hd).
  split.
  { rewrite validate_sanitize, sanitize_set_bar_height, sanitize_idem. reflexivity. }
  assert (Hdebug : debug_enabled
                     (snd (log_loaded_config K
                             (set_bar_height (overlay_height (sanitize K c2))
                                (sanitize K c2)) w3))
                   = debug_enabled w3).
  { apply (log_loaded_config_keeps (fun w0 => debug_enabled w0 = debug_enabled w3));
      [|reflexivity].
    intros w0 e _ X. destruct w0; exact X. }
  rewrite Hdebug, Hd. clear Hdebug Hd H.
  destruct c2; cbn.
  repeat match goal with
         | |- _ /\ _ => split
         end;
    try (apply clamp_bounds; unfold MIN_CAT_HEIGHT, MAX_CAT_HEIGHT, MIN_OVERLAY_HEIGHT,
           MAX_OVERLAY_HEIGHT, MIN_DURATION, MAX_DURATION, MAX_INTERVAL, MIN_FPS, MAX_FPS;
         lia);
    try reflexivity.
  - destruct (enable_debug0 =? 0); auto.
  - destruct (invert_color0 =? 0); auto.
  - unfold POSITION_TOP, POSITION_BOTTOM.
    destruct (Z.eqb_spec overlay_position0 0); [auto|].
    destruct (Z.eqb_spec overlay_position0 1); auto.
  - intros Ht. unfold final_animation_index.
    destruct (Z.ltb_spec animation_index0 0); cbn; [lia|].
    destruct (Z.geb_spec animation_index0 (TOTAL_ANIMATIONS K)); cbn; lia.
Qed.

Lemma load_config_result_is_valid_witness :
  let w := process_start
             [("bongocat.conf",
               file_of_lines ["fps=500"; "overlay_opacity=-3"; "enable_debug=7"])] [] in
  let c := snd (fst (load_config sample_constants None w)) in
  let w' := snd (load_config sample_constants None w) in
  validate sample_constants c = c
  /\ 10 <= cat_height c <= 200 /\ 20 <= overlay_height c <= 300
  /\ 1 <= fps c <= 120
  /\ 10 <= keypress_duration c <= 5000 /\ 10 <= test_animation_duration c <= 5000
  /\ 0 <= test_animation_interval c <= 3600 /\ 0 <= overlay_opacity c <= 255
  /\ (enable_debug c = 0 \/ enable_debug c = 1)
  /\ (invert_color c = 0 \/ invert_color c = 1)
  /\ (overlay_position c = POSITION_TOP \/ overlay_position c = POSITION_BOTTOM)
  /\ (0 < TOTAL_ANIMATIONS sample_constants ->
      0 <= animation_index c < TOTAL_ANIMATIONS sample_constants)
  /\ debug_enabled w' = enable_debug c.
Proof.
  cbv zeta.
  apply (load_config_result_is_valid sample_constants None
           (process_start
              [("bongocat.conf",
                file_of_lines ["fps=500"; "overlay_opacity=-3"; "enable_debug=7"])] [])).
  vm_compute. reflexivity.
Defined.


(** ** Files of assignments *)

Lemma assignment_line (key value : string) :
  string_forall (fun c => negb (c =? NUL)%char && negb (c =? NEWLINE)%char) key = true ->
  (String.length key <= 254)%nat ->
  is_value_text value = true ->
  is_line_text (assignment_text key value) = true.
Proof.
  intros Hk Hl Hv. destruct (is_value_text_facts value Hv) as (_ & Hf & Hvl).
  unfold is_line_text, assignment_text. apply andb_true_intro. split.
  - rewrite !string_forall_app, Hk. cbn [string_forall andb].
    change (negb ("=" =? NUL)%char && negb ("=" =? NEWLINE)%char) with true.
    cbn [andb].
    revert Hf. apply string_forall_weaken. intros x Hx. unfold is_token_char in Hx.
    apply andb_prop in Hx. destruct Hx as [Hs Hz]. rewrite Hz. cbn.
    destruct (Ascii.eqb_spec x NEWLINE) as [->|]; [discriminate Hs | reflexivity].
  - apply Nat.leb_le. rewrite !string_length_app. cbn [String.length]. lia.
Qed.

Lemma parse_line_assignment (K : header_constants) (n : Z) (key value : string)
    (c : config_t) (r : bongocat_error_t) (w : world) :
  is_key_text key = true -> (String.length key <= 255)%nat ->
  is_value_text value = true ->
  parse_line K n (assignment_text key value ++ String NEWLINE EmptyString)%string c r w
  = parse_key_value K n key value c r w.
Proof.
  intros Hk Hl Hv.
  replace (assignment_text key value ++ String NEWLINE EmptyString)%string
    with (key_value_buffer "" key "" "" value "")
    by (unfold key_value_buffer, assignment_text; cbn [append];
        now rewrite !string_app_assoc).
  unfold parse_line. cbv zeta.
  change (strip_newline (c_str (key_value_buffer "" key "" "" value "")))
    with (line_of (key_value_buffer "" key "" "" value "")).
  rewrite (line_of_key_value_buffer "" key "" "" value ""
             eq_refl Hk eq_refl eq_refl Hv eq_refl).
  rewrite (line_not_skipped "" key _ eq_refl Hk).
  rewrite (sscanf_key_value_buffer "" key "" "" value ""
             eq_refl Hk eq_refl eq_refl Hv eq_refl ltac:(cbn; lia)).
  change (2 =? 2) with true. cbv iota.
  now rewrite (trim_key_blanks key "" Hk eq_refl).
Qed.

(** A line that assigns to one of the twelve integer keys. *)
Lemma parse_line_integer_key (K : header_constants) (key value : string) :
  In key (map fst integer_keys) -> is_value_text value = true ->
  is_line_text (assignment_text key value) = true
  /\ forall (n : Z) (c : config_t) (r : bongocat_error_t) (w : world),
       parse_line K n (assignment_text key value ++ String NEWLINE EmptyString)%string
         c r w
       = ((assign c (key, value), r), w).
Proof.
  intros Hin Hv. cbn [map integer_keys fst In] in Hin.
  repeat (destruct Hin as [<-|Hin];
          [split;
           [apply assignment_line; [reflexivity | cbn; lia | exact Hv]
           |intros n c r w;
            rewrite parse_line_assignment by (try reflexivity; try exact Hv; cbn; lia);
            reflexivity]
          |]).
  contradiction.
Qed.

Lemma parse_lines_assignments (K : header_constants) :
  forall (kvs : list (string * string)) (fuel : nat) (n : Z) (c : config_t)
         (r : bongocat_error_t) (w : world),
    Forall (fun kv => In (fst kv) (map fst integer_keys)
                      /\ is_value_text (snd kv) = true) kvs ->
    (List.length kvs <= fuel)%nat ->
    parse_lines K fuel (assignment_file kvs) n c r w = ((fold_left assign kvs c, r), w).
Proof.
  unfold assignment_file.
  induction kvs as [|[key value] kvs IH]; intros fuel n c r w H Hfuel.
  - destruct fuel; reflexivity.
  - inversion H as [|? ? [Hk Hv] Hrest]; subst. cbn [fst snd] in Hk, Hv.
    destruct fuel as [|fuel]; [cbn in Hfuel; lia|].
    destruct (parse_line_integer_key K key value Hk Hv) as [Hline Hparse].
    cbn [map fst snd]. rewrite file_of_lines_cons.
    rewrite (parse_lines_step K fuel _ _ _ n c r w (fgets_line _ _ Hline)).
    rewrite Hparse. cbv iota. cbn [fold_left].
    apply IH; [exact Hrest | cbn in Hfuel; lia].
Qed.

Lemma assignment_file_length (kvs : list (string * string)) :
  (List.length kvs <= String.length (assignment_file kvs))%nat.
Proof.
  unfold assignment_file. induction kvs as [|kv kvs IH]; [apply Nat.le_refl|].
  cbn [map List.length]. rewrite file_of_lines_cons, string_length_app.
  cbn [String.length]. lia.
Qed.

(** X25.  A file of assignments to the twelve integer keys is applied line by
    line, top to bottom.  [parse_config_file] returns [BONGOCAT_SUCCESS] with
    the configuration in which every line has stored [(int)strtol] of its
    value in its field, in file order, and prints only the closing info
    line; so when a key occurs more than once its last line wins. *)
Theorem parse_config_file_assignments
    (K : header_constants) (c : config_t) (path : option string) (w : world)
    (kvs : list (string * string)) :
  fopen (fs w) (file_path_of path) = Some (assignment_file kvs) ->
  Forall (fun kv => In (fst kv) (map fst integer_keys)
                    /\ is_value_text (snd kv) = true) kvs ->
  runs (parse_config_file K c path) w (BONGOCAT_SUCCESS, fold_left assign kvs c)
    [Log LOG_INFO "Loaded configuration from bongocat.conf" []]
  /\ forall (key value : string) (set : Z -> config_t -> config_t),
       In (key, set) integer_keys ->
       fold_left assign (kvs ++ [(key, value)]) c
       = set (int_of_long (strtol value)) (fold_left assign kvs c).
Proof.
  intros Hf Hkvs. split.
  - unfold runs, parse_config_file, bind, get.
    fold (file_path_of path). rewrite Hf.
    rewrite (parse_lines_assignments K kvs _ 0 c BONGOCAT_SUCCESS w Hkvs
               (assignment_file_length kvs)).
    reflexivity.
  - intros key value set Hin. rewrite fold_left_app. cbn [fold_left].
    generalize (fold_left assign kvs c). intros c0.
    cbn [integer_keys In] in Hin.
    repeat (destruct Hin as [Hin|Hin]; [injection Hin as <- <-; reflexivity|]).
    contradiction.
Qed.

Lemma parse_config_file_assignments_witness :
  let kvs := [("fps", "30"); ("cat_height", "x"); ("fps", "+45")] in
  let w := process_start [("bongocat.conf", assignment_file kvs)] [] in
  runs (parse_config_file sample_constants (default_config sample_constants) None) w
    (BONGOCAT_SUCCESS, fold_left assign kvs (default_config sample_constants))
    [Log LOG_INFO "Loaded configuration from bongocat.conf" []]
  /\ forall (key value : string) (set : Z -> config_t -> config_t),
       In (key, set) integer_keys ->
       fold_left assign (kvs ++ [(key, value)]) (default_config sample_constants)
       = set (int_of_long (strtol value))
           (fold_left assign kvs (default_config sample_constants)).
Proof.
  cbv zeta.
  apply (parse_config_file_assignments sample_constants (default_config sample_constants)
           None _ [("fps", "30"); ("cat_height", "x"); ("fps", "+45")]).
  - reflexivity.
  - repeat (apply Forall_cons; [split; [cbn; tauto | reflexivity]|]). apply Forall_nil.
Defined.


(** ** Debug lines *)

Lemma prints_ret {A : Type} (Q : event -> bool) (a : A) : prints Q (ret a).
Proof. intros w. exists []. split; [now rewrite app_nil_r | reflexivity]. Qed.

Lemma prints_bind {A B : Type} (Q : event -> bool) (m : W A) (k : A -> W B) :
  prints Q m -> (forall a, prints Q (k a)) -> prints Q (bind m k).
Proof.
  intros Hm Hk w. unfold bind.
  destruct (Hm w) as (l1 & E1 & Q1). destruct (m w) as [a w1]. cbn [snd] in E1.
  destruct (Hk a w1) as (l2 & E2 & Q2).
  exists (l1 ++ l2). rewrite E2, E1, app_assoc. split; [reflexivity|].
  rewrite forallb_app, Q1, Q2. reflexivity.
Qed.

Lemma prints_get (Q : event -> bool) : prints Q get.
Proof. intros w. exists []. split; [now rewrite app_nil_r | reflexivity]. Qed.

Lemma prints_modify (Q : event -> bool) (f : world -> world) :
  (forall w, trace (f w) = trace w) -> prints Q (modify f).
Proof.
  intros Hf w. exists []. cbn. rewrite Hf. split; [now rewrite app_nil_r | reflexivity].
Qed.

Lemma prints_emit (Q : event -> bool) (e : event) : Q e = true -> prints Q (emit e).
Proof.
  intros HQ w. exists [e]. split; [apply trace_set_trace | cbn; now rewrite HQ].
Qed.

Lemma prints_next_alloc (Q : event -> bool) : prints Q next_alloc.
Proof.
  intros w. exists []. rewrite app_nil_r. split; [|reflexivity].
  unfold next_alloc. destruct w as [t d kd n rn g h [|b p] f z i]; reflexivity.
Qed.

Lemma prints_new_block (Q : event -> bool) (n : nat) : prints Q (new_block n).
Proof.
  intros w. exists []. rewrite app_nil_r. split; [|reflexivity].
  destruct w; reflexivity.
Qed.

Lemma prints_store_slot (Q : event -> bool) (q : ptr) (i : nat) (s : option string) :
  prints Q (store_slot q i s).
Proof.
  apply prints_modify. intros w. destruct w as [t d kd n rn g h p f z i0]. cbn.
  destruct (nth_error h q) as [[b|]|]; reflexivity.
Qed.

Ltac prints_walk :=
  repeat first
    [ apply prints_ret
    | apply prints_get
    | apply prints_next_alloc
    | apply prints_new_block
    | apply prints_store_slot
    | apply prints_emit; reflexivity
    | apply prints_modify; intros w0; destruct w0; reflexivity
    | apply prints_bind; [|intros ?]
    | match goal with
      | |- prints _ (if ?b then _ else _) => destruct b
      | |- prints _ (match ?p with Some _ => _ | None => _ end) => destruct p
      | |- prints _ (match nth_error ?h ?q with _ => _ end) =>
          destruct (nth_error h q) as [[?|]|]
      end ].

Lemma prints_add_keyboard_device (value : string) (c : config_t) (r : bongocat_error_t) :
  prints is_plain_log (add_keyboard_device value c r).
Proof.
  unfold add_keyboard_device, realloc_array, bongocat_log_error. prints_walk.
Qed.

Lemma prints_parse_key_value (K : header_constants) (n : Z) (key value : string)
    (c : config_t) (r : bongocat_error_t) :
  prints is_plain_log (parse_key_value K n key value c r).
Proof.
  unfold parse_key_value, bongocat_log_warning.
  repeat match goal with
         | |- prints _ (if ?b then _ else _) => destruct b
         end;
    try apply prints_add_keyboard_device; prints_walk.
Qed.

Lemma prints_parse_line (K : header_constants) (n : Z) (buf : string)
    (c : config_t) (r : bongocat_error_t) :
  prints is_plain_log (parse_line K n buf c r).
Proof.
  unfold parse_line.
  destruct (line_is_skipped _); [apply prints_ret|].
  destruct (sscanf_key_value _) as [[k key] value].
  destruct (k =? 2); [apply prints_parse_key_value|].
  unfold bongocat_log_warning. prints_walk.
Qed.

Lemma prints_parse_lines (K : header_constants) (fuel : nat) : forall (file : string)
    (n : Z) (c : config_t) (r : bongocat_error_t),
  prints is_plain_log (parse_lines K fuel file n c r).
Proof.
  induction fuel as [|fuel IH]; intros file n c r; cbn [parse_lines].
  - apply prints_ret.
  - destruct (fgets 512 file) as [[buf file']|]; [|apply prints_ret].
    apply prints_bind; [apply prints_parse_line|].
    intros [c' r']. apply IH.
Qed.

Lemma prints_parse_config_file (K : header_constants) (c : config_t)
    (path : option string) :
  prints is_plain_log (parse_config_file K c path).
Proof.
  unfold parse_config_file. apply prints_bind; [apply prints_get | intros w].
  destruct (fopen (fs w) _).
  - apply prints_bind; [apply prints_parse_lines|].
    intros [c' r']. unfold when, bongocat_log_info. prints_walk.
  - unfold bongocat_log_info. prints_walk.
Qed.

Lemma prints_set_default_keyboard_device (c : config_t) :
  prints is_plain_log (set_default_keyboard_device c).
Proof. unfold set_default_keyboard_device, malloc_array. prints_walk. Qed.

Lemma warnings_are_plain (l : list event) :
  forallb is_warning l = true -> forallb is_plain_log l = true.
Proof.
  induction l as [|e l IH]; [reflexivity|]. cbn. intros H.
  apply andb_prop in H. destruct H as [He Hl]. rewrite (IH Hl).
  destruct e as [[] ? ?| | | | | | | | | | | |]; try discriminate He; reflexivity.
Qed.

(** The summary is printed whole or not at all, as the logger's flag says. *)
Lemma log_loaded_config_summary (K : header_constants) (c : config_t) (w : world) :
  snd (log_loaded_config K c w)
  = set_trace (trace w ++ (if debug_enabled w =? 0 then [] else loaded_summary K c)) w.
Proof.
  unfold loaded_summary, log_loaded_config, bongocat_log_debug, bind, get, emit,
    modify, ret.
  destruct w as [t d kd n rn g h p f z i]. cbn [debug_enabled trace].
  destruct (animation_index c =? BONGOCAT_ANIM_INDEX K); destruct (d =? 0) eqn:Ed;
    repeat (cbn; rewrite ?Ed); rewrite ?app_nil_r, <- ?app_assoc; reflexivity.
Qed.

(** X26.  The debug lines of a load are governed by the configuration just
    loaded.  Whatever the logger's flag was before, everything [load_config]
    prints before its summary is a log line that is no debug line; the five
    debug lines of the summary follow exactly when the load succeeds and the
    new [enable_debug] is not 0; and a failed load prints no debug line at
    all. *)
Theorem load_config_debug_lines
    (K : header_constants) (path : option string) (w : world) :
  exists l,
    forallb is_plain_log l = true
    /\ trace (snd (load_config K path w))
       = trace w ++ l
         ++ (if is_success (fst (fst (load_config K path w)))
                && negb (enable_debug (snd (fst (load_config K path w))) =? 0)
             then loaded_summary K (snd (fst (load_config K path w)))
             else [])
    /\ List.length (loaded_summary K (snd (fst (load_config K path w)))) = 5%nat
    /\ forallb (fun e => negb (is_plain_log e) && is_log e)
         (loaded_summary K (snd (fst (load_config K path w)))) = true.
Proof.
  assert (Hsum : forall c, List.length (loaded_summary K c) = 5%nat
                           /\ forallb (fun e => negb (is_plain_log e) && is_log e)
                                (loaded_summary K c) = true).
  { intros c. unfold loaded_summary, log_loaded_config, bongocat_log_debug, bind, get,
      emit, modify, ret. cbn.
    destruct (animation_index c =? BONGOCAT_ANIM_INDEX K); split; reflexivity. }
  rewrite load_config_unfold.
  destruct (prints_set_default_keyboard_device (default_config K) w) as (l1 & E1 & Q1).
  destruct (set_default_keyboard_device (default_config K) w) as [c1 w1]. cbn [snd] in E1.
  destruct (prints_parse_config_file K c1 path w1) as (l2 & E2 & Q2).
  destruct (parse_config_file K c1 path w1) as [[r c2] w2]. cbn [snd] in E2.
  destruct (is_success r) eqn:Er; cbv iota; cbn [fst snd].
  - destruct (validate_config_runs K c2 w2) as (l3 & R & W3). rewrite R. cbn [snd].
    set (cf := set_bar_height _ _).
    rewrite log_loaded_config_summary.
    exists (l1 ++ l2 ++ l3).
    split; [rewrite !forallb_app, Q1, Q2, (warnings_are_plain l3 W3); reflexivity|].
    split; [|apply Hsum].
    rewrite trace_set_trace.
    replace (debug_enabled (set_debug_enabled (enable_debug cf)
                              (set_trace (trace w2 ++ l3) w2)))
      with (enable_debug cf) by (destruct w2; reflexivity).
    replace (trace (set_debug_enabled (enable_debug cf) (set_trace (trace w2 ++ l3) w2)))
      with (trace w2 ++ l3) by (destruct w2; reflexivity).
    rewrite E2, E1. cbn [andb].
    destruct (enable_debug cf =? 0); cbn [negb]; now rewrite <- !app_assoc.
  - exists (l1 ++ l2 ++ [Log LOG_ERROR "Failed to parse configuration file: %s"
                           [ArgStr (bongocat_error_string r)]]).
    split; [rewrite !forallb_app, Q1, Q2; reflexivity|].
    split; [|apply Hsum].
    rewrite Er. cbn [andb]. rewrite trace_set_trace, E2, E1, app_nil_r.
    now rewrite <- !app_assoc.
Qed.


(** ** [config_cleanup] *)




(** ** Component start-up *)

(** X28.  [system_initialize_components] reports every failure.  Whatever the
    four components do, it returns [BONGOCAT_SUCCESS], or the last event of
    the process is an error line that carries the message of exactly the
    error code it returns. *)
Theorem system_initialize_components_reports_failure
    (wayland_init animation_init animation_start : W bongocat_error_t)
    (input_start_monitoring : option ptr -> Z -> Z -> W bongocat_error_t) (w : world) :
  let run := system_initialize_components wayland_init animation_init animation_start
               input_start_monitoring w in
  fst run = BONGOCAT_SUCCESS
  \/ exists t format,
       trace (snd run)
       = t ++ [Log LOG_ERROR format [ArgStr (bongocat_error_string (fst run))]].
Proof.
  cbv zeta.
  assert (H : exists r w',
             system_initialize_components wayland_init animation_init animation_start
               input_start_monitoring w = (r, w')
             /\ (r = BONGOCAT_SUCCESS
                 \/ exists t format,
                      trace w' = t ++ [Log LOG_ERROR format
                                         [ArgStr (bongocat_error_string r)]])).
  { unfold system_initialize_components.
    unfold bind at 1. destruct (wayland_init w) as [r1 w1].
    destruct (is_success r1); cbn [negb];
      [|eexists _, _; split; [reflexivity|]; right;
        eexists (trace w1), _; apply trace_set_trace].
    unfold bind at 1. destruct (animation_init w1) as [r2 w2].
    destruct (is_success r2); cbn [negb];
      [|eexists _, _; split; [reflexivity|]; right;
        eexists (trace w2), _; apply trace_set_trace].
    unfold bind at 1. unfold get at 1. cbv iota beta.
    unfold bind at 1. destruct (input_start_monitoring _ _ _ w2) as [r3 w3].
    destruct (is_success r3); cbn [negb];
      [|eexists _, _; split; [reflexivity|]; right;
        eexists (trace w3), _; apply trace_set_trace].
    unfold bind at 1. destruct (animation_start w3) as [r4 w4].
    destruct (is_success r4); cbn [negb].
    - eexists _, _. split; [reflexivity|]. now left.
    - eexists _, _. split; [reflexivity|]. right.
      eexists (trace w4), _. apply trace_set_trace. }
  destruct H as (r & w' & E & H). rewrite E. exact H.
Qed.
